(* ===== verification/_CoqProject ===== *)
-Q . S2P
Prelude.v
JsString.v
Dates.v
Session.v
Overlay.v
Stepper.v
SimStepper.v
Calendar.v
CalSim.v
Stabilize.v
Extract.v
Csv.v
Store.v
Selector.v
Config.v
Mail.v
Main.v
VariantA.v
