(* ===== verification/Prelude.v ===== *)
(** * A verification development of the JTe "Pauta" scraper (src/PAUTA-JRT2.js)

    The source file holds two near-duplicate Node.js programs, concatenated:

    - variant A (lines 1-521): drives the JTe web application (a rendered,
      asynchronous Angular/Ionic UI reached through Playwright) with a
      calendar-grid date picker, and writes one CSV file;
    - variant B (lines 522-1368): the same workflow with a linear
      previous/next date stepper instead of the calendar, plus an optional
      MySQL upsert store, an XLSX export and an e-mail notifier.

    Both run the workflow "select organisation, select module, list the
    units (varas), then for every unit and every business day of the next
    ~2 months: move the date cursor to the day, wait until the result list
    is stable, extract its records", and hand the records to the sinks.

    ** How the program is modelled

    The remote UI is an external collaborator.  Every Playwright call the
    code makes ([page.locator(..).click], [isVisible], [waitFor], [count],
    [textContent], [innerText], [page.evaluate], [waitForTimeout],
    [keyboard.press], [Date.now]) is an operation of the type class
    [Session.Page] over an abstract page state [W]; each operation may throw
    (a JavaScript exception), so the code is written in the
    state-and-exception monad [ST] of this file: [ST E W A = W -> (E + A) * W].
    An [async] function of the source is a Rocq definition of type
    [ST exn W A], statement by statement; [try/catch] and [.catch(() => d)]
    are [st_catch]; loops are [Fixpoint]s on the loop counter, or on fuel
    where the source loop is bounded only by the wall clock, with a lemma
    that the fuel chosen is never exhausted.  Scripts run by
    [page.evaluate] are pure functions over a snapshot of the DOM they
    read ([Session.Dom]) that return the DOM nodes they click.

    Files, in dependency order (each Section takes the page, store and
    mail server as [Context] instances, so every theorem holds for any
    implementation of those interfaces unless it names a concrete one):
    - [Prelude] (this file): the [ST] monad, its notation in [pauta_scope],
      the hint databases [pauta] and [pauta_rw], the tactics ([st_inv],
      [st_rel_solve]), the run lemmas of bind and catch, and [st_rel]: a
      preorder every step of a computation respects (a clock that does not
      go back, a pause budget, outputs left unchanged).
    - [JsString]: the JavaScript string builtins the code calls (trim,
      includes, split, padStart, join, [String(n)], [Number(s)]).
    - [Dates]: the JavaScript [Date] arithmetic the code uses (proleptic
      Gregorian day numbers, [new Date(y, m, d)] with its normalisation,
      its two-digit-year rule and its TimeClip; [new Date()] is the local
      day of the clock at a fixed zone offset) and [parseBRDate],
      [isWeekdayBR], [getTodayBR], [gerarDatasProximosDoisMeses],
      [brToIsoDateString] (lines 577-618, 708-714): printing and parsing
      [DD/MM/YYYY] round-trip except in years 0..99, which come back in
      year [1900 + y].
    - [Session]: exceptions, locators, the DOM snapshot, the class [Page]
      of the Playwright primitives, and the recording page [Rec]: a log of
      the calls made, answered by an [Oracle] from that log, a universal
      implementation used to state exact call sequences.
    - [Overlay]: [fecharOverlays] (Overlay Guard) and [retryOperation]
      (Retry Envelope), lines 853-877.
    - [Stepper]: variant B's date stepper (lines 1052-1187):
      [extrairDataBR], the ion-button helpers, [lerTextoDataExibida],
      [esperarTextoMudar] (fuel [esperar_fuel] = timeout / 80 + 1 polls,
      shown sufficient when the clock advances by every pause, because a
      poll waits 80 ms), [irAteDataPorBotoes], [selecionarDataComConfirmacao].
    - [SimStepper]: a concrete [Page] simulating the stepper UI (date
      cursor, label rendered after a latency, clock) on which navigation is
      shown to converge, or to drift without a previous button.
    - [Calendar]: variant A's date selection through the mat-calendar
      grid (lines 231-382): the header parser ([monthMap] and the
      [19xx]/[20xx] year), month navigation by keys [12 * year + month]
      (at most [maxSteps] = 36 clicks), the three-tier day-cell script and
      the confirmation by exact equality with the date button's text.
    - [CalSim]: a simulated calendar on which navigation reaches any month
      at distance below [maxSteps] in exactly that many clicks.
    - [Stabilize]: [esperarPautaEstabilizar] (lines 1193-1219), with the
      16.4 s bound on its pauses and its three-count trace on a stable list.
    - [Extract]: [extrairProcessosDaPauta] (lines 1225-1256): one clean
      record per row; a failed count reads as an empty pauta; a blank
      description line shifts the parties up one field.
    - [Csv]: [csvEscape]/[writeCsv] (lines 556-571), an RFC 4180 reader
      for [;] and the round trip.
    - [Store]: [insertRowsMySql] (lines 716-758) over a [Db] class, and
      MySQL's table as a [gmap] keyed on (vara, dataISO, numeroProcesso)
      (the schema, lines 656-677): chunking equals row-by-row upserts,
      key preservation, idempotence, loop fuel
      ([length rows] iterations, enough since each advances by a positive
      chunk size).
    - [Selector]: [abrirJTeSelecionarTRT2], [abrirModuloPauta],
      [listarVaras], [escapeRegExp] and the mat-select helpers,
      [selecionarUnidade] (lines 883-1046).
    - [Config]: [getEnv], [isTrue], [openDb], [ensureSchema],
      [initDbIfEnabled] (lines 624-706) over a [Pool] class.
    - [Mail]: [parseMailTo], [sendEmailWithAttachment] (lines 803-847)
      over a [Mailer] class, with an outbox instance.
    - [Main]: variant B's [main] (lines 1262-1367) on a run state of page,
      store, mail server and output directory; each component's
      computation is lifted to it.  Its theorems compose the components:
      a failure in the loop discards every extracted row, the store
      receives exactly the CSV rows, a launch failure leaks the pool.
    - [VariantA]: variant A's [selecionarUnidade] (lines 184-222) and
      [main] (lines 457-519) on the same run state, without store or
      mail: its run writes the CSV of every row or nothing.

    ** What is not modelled
    Variant A's [abrirJTeSelecionarTRT2], [abrirModuloPauta],
    [listarVaras], overlay guard, retry envelope, stabilizer, extractor
    and date helpers are the same code as variant B's and share its
    definitions.  The layout [writeXlsx] gives the workbook (column
    widths, bold header, autofilter, lines 765-795) is the ExcelJS
    library's: the model records the workbook's path, headers and rows.
    Process bootstrap, [dotenv], console logging (no state), the browser
    launch, [path.join]/[path.basename], [toISOString]/[toLocaleString],
    nodemailer's transport and the MySQL wire protocol are libraries the
    code calls: section variables or class instances.  The output
    directory never fails to be written.  JavaScript numbers are integers
    ([Z]); [Number] is modelled on optionally signed decimal integers
    (fractions, exponents and hexadecimal literals read as NaN), enough
    for the digit strings the code parses.  Strings are sequences of 8-bit
    code units; literals with accents are written in UTF-8 and are only
    compared with themselves (selectors, option texts), the no-break space
    U+00A0 is the one code unit 160; [toLowerCase] is modelled on ASCII
    letters, enough for the comparisons with [true] the code makes and
    for the calendar header, every month of [monthMap] having an ASCII
    key ([mar] for [MARÇO]). *)

From Stdlib Require Import ZArith Lia Sorted.
From stdpp Require Import base list.

Declare Scope pauta_scope.
Delimit Scope pauta_scope with pauta.

Create HintDb pauta discriminated.
Create Rewrite HintDb pauta_rw.

(** ** The state-and-exception monad *)

Definition ST (E W A : Type) : Type := W -> (E + A) * W.

Definition st_ret {E W A} (a : A) : ST E W A := fun w => (inr a, w).

Definition st_bind {E W A B} (c : ST E W A) (k : A -> ST E W B) : ST E W B :=
  fun w => match c w with
           | (inr a, w') => k a w'
           | (inl e, w') => (inl e, w')
           end.

Definition st_throw {E W A} (e : E) : ST E W A := fun w => (inl e, w).

(** [try { c } catch (e) { h(e) }] *)
Definition st_catch {E W A} (c : ST E W A) (h : E -> ST E W A) : ST E W A :=
  fun w => match c w with
           | (inl e, w') => h e w'
           | r => r
           end.

(** [c.catch(() => d)]: a failure becomes the default value. *)
Definition st_default {E W A} (d : A) (c : ST E W A) : ST E W A :=
  st_catch c (fun _ => st_ret d).

Definition st_get {E W} : ST E W W := fun w => (inr w, w).
Definition st_modify {E W} (f : W -> W) : ST E W unit := fun w => (inr tt, f w).

Notation "x <- c ;; k" := (st_bind c (fun x => k))
  (at level 100, c at next level, right associativity) : pauta_scope.
Notation "c ;; k" := (st_bind c (fun _ => k))
  (at level 100, right associativity) : pauta_scope.

Open Scope pauta_scope.

(** ** Monad laws and run lemmas *)

Lemma st_bind_ret_l {E W A B} (a : A) (k : A -> ST E W B) w :
  st_bind (st_ret a) k w = k a w.
Proof. reflexivity. Qed.

Lemma st_bind_assoc {E W A B C} (c : ST E W A) (k : A -> ST E W B)
      (k' : B -> ST E W C) w :
  st_bind (st_bind c k) k' w = st_bind c (fun a => st_bind (k a) k') w.
Proof. unfold st_bind. destruct (c w) as [[e|a] w']; reflexivity. Qed.

Lemma st_bind_inr {E W A B} (c : ST E W A) (k : A -> ST E W B) w a w' :
  c w = (inr a, w') -> st_bind c k w = k a w'.
Proof. unfold st_bind. intros ->. reflexivity. Qed.

Lemma st_bind_inl {E W A B} (c : ST E W A) (k : A -> ST E W B) w e w' :
  c w = (inl e, w') -> st_bind c k w = (inl e, w').
Proof. unfold st_bind. intros ->. reflexivity. Qed.

(** The same, knowing only the outcome of the first computation. *)
Lemma st_bind_fst_inr {E W A B} (c : ST E W A) (k : A -> ST E W B) w a :
  fst (c w) = inr a -> st_bind c k w = k a (snd (c w)).
Proof. unfold st_bind. destruct (c w) as [r w']. cbn. by intros ->. Qed.

Lemma st_bind_fst_inl {E W A B} (c : ST E W A) (k : A -> ST E W B) w e :
  fst (c w) = inl e -> fst (st_bind c k w) = inl e.
Proof. unfold st_bind. destruct (c w) as [r w']. cbn. by intros ->. Qed.

(** [try]/[catch] on a computation that returns and on one that throws. *)
Lemma st_catch_inr {E W A} (c : ST E W A) (h : E -> ST E W A) w a w' :
  c w = (inr a, w') -> st_catch c h w = (inr a, w').
Proof. unfold st_catch. intros ->. reflexivity. Qed.

Lemma st_catch_inl {E W A} (c : ST E W A) (h : E -> ST E W A) w e w' :
  c w = (inl e, w') -> st_catch c h w = h e w'.
Proof. unfold st_catch. intros ->. reflexivity. Qed.

(** A [.catch(() => d)] never throws. *)
Lemma st_default_inr {E W A} (d : A) (c : ST E W A) w :
  exists a w', st_default d c w = (inr a, w').
Proof.
  unfold st_default, st_catch, st_ret.
  destruct (c w) as [[e|a] w']; eauto.
Qed.

#[export] Hint Rewrite @st_bind_ret_l @st_bind_assoc : pauta_rw.

(** [st_run] unfolds the monad combinators in the goal and in hypotheses. *)
Ltac st_unfold :=
  unfold st_default, st_catch, st_bind, st_ret, st_throw, st_get, st_modify in *.

(** Case analysis on the outcome of the first computation of a goal
    [match c w with ...]. *)
Ltac st_case c w :=
  let e := fresh "e" in let a := fresh "a" in let w' := fresh "w" in
  let E := fresh "Hrun" in
  destruct (c w) as [[e|a] w'] eqn:E.

(** A successful [c >>= k] ran [c] successfully first. *)
Lemma st_bind_inv {E W A B} (c : ST E W A) (k : A -> ST E W B) w b w' :
  st_bind c k w = (inr b, w') -> exists a w1, c w = (inr a, w1) /\ k a w1 = (inr b, w').
Proof. unfold st_bind. destruct (c w) as [[e|a] w1]; [discriminate|eauto]. Qed.

(** [st_inv H] splits a successful run [H : st_bind c k w = (inr b, w')]. *)
Ltac st_inv H :=
  let a := fresh "a" in let w1 := fresh "w" in let E := fresh "E" in
  apply st_bind_inv in H as (a & w1 & E & H); cbv beta in H.

(** ** Relations every step of a computation respects *)

(** [st_rel R c]: whatever [c] does, the state before and the state after
    are related by [R] (the clock does not go back, a counter does not
    change, ...).  For a preorder [R] this is closed under the monad's
    combinators. *)
Section StRel.
Context {E W : Type} (R : W -> W -> Prop) `{!PreOrder R}.

Definition st_rel {A} (c : ST E W A) : Prop := forall w, R w (snd (c w)).

Lemma st_rel_ret {A} (a : A) : st_rel (st_ret a).
Proof. intros w. reflexivity. Qed.

Lemma st_rel_throw {A} (e : E) : st_rel (A:=A) (st_throw e).
Proof. intros w. reflexivity. Qed.

Lemma st_rel_bind {A B} (c : ST E W A) (k : A -> ST E W B) :
  st_rel c -> (forall a, st_rel (k a)) -> st_rel (st_bind c k).
Proof.
  intros Hc Hk w. specialize (Hc w). unfold st_bind.
  destruct (c w) as [[e|a] w1]; simpl in *; [exact Hc|]. etrans; [exact Hc | apply Hk].
Qed.

Lemma st_rel_catch {A} (c : ST E W A) (h : E -> ST E W A) :
  st_rel c -> (forall e, st_rel (h e)) -> st_rel (st_catch c h).
Proof.
  intros Hc Hh w. specialize (Hc w). unfold st_catch.
  destruct (c w) as [[e|a] w1]; simpl in *; [|exact Hc]. etrans; [exact Hc | apply Hh].
Qed.

Lemma st_rel_default {A} (d : A) (c : ST E W A) : st_rel c -> st_rel (st_default d c).
Proof. intros Hc. apply st_rel_catch; [exact Hc | intros; apply st_rel_ret]. Qed.

Lemma st_rel_modify (f : W -> W) : (forall w, R w (f w)) -> st_rel (st_modify f).
Proof. intros Hf w. apply Hf. Qed.

Lemma st_rel_get : st_rel st_get.
Proof. intros w. reflexivity. Qed.

End StRel.

(** [st_rel_solve]: decompose a computation into the steps it is made of. *)
Ltac st_rel_solve :=
  repeat (match goal with
          | |- st_rel _ (st_ret _) => eapply st_rel_ret
          | |- st_rel _ (st_throw _) => eapply st_rel_throw
          | |- st_rel _ st_get => eapply st_rel_get
          | |- st_rel _ (st_bind _ _) => eapply st_rel_bind; [..|intros ?]
          | |- st_rel _ (st_catch _ _) => eapply st_rel_catch; [..|intros ?]
          | |- st_rel _ (st_default _ _) => eapply st_rel_default
          | |- st_rel _ (st_modify _) => eapply st_rel_modify
          | |- st_rel _ (if ?b then _ else _) => destruct b
          | |- st_rel _ (match ?x with _ => _ end) => destruct x
          end; try exact _).

(** ** Shared lemmas on lists and options *)

Lemma option_bind_Some {A B} (o : option A) (f : A -> option B) b :
  o ≫= f = Some b <-> exists a, o = Some a /\ f a = Some b.
Proof.
  split; [destruct o; simpl; eauto; discriminate | intros (a & -> & H); exact H].
Qed.

Lemma Forall_filter_true {A} (P : A -> Prop) (f : A -> bool) l :
  (forall x, f x = true -> P x) -> Forall P (List.filter f l).
Proof.
  intros H. induction l as [|x l IH]; simpl; [constructor|].
  destruct (f x) eqn:E; [constructor; auto | exact IH].
Qed.

#[export] Hint Resolve Forall_filter_true : pauta.

(** ** Finite checks over an integer range *)

(** [all_from n z f]: [f k] holds for every [z <= k < z + n].  Used to
    check a property over one period by computation, then lift it by
    periodicity.  The counter is a [Z], so a check costs [n] steps. *)
Fixpoint all_from (n : nat) (z : Z) (f : Z -> bool) : bool :=
  match n with
  | O => true
  | S k => f z && all_from k (z + 1)%Z f
  end.

Lemma all_from_spec n z f :
  all_from n z f = true -> forall k, (z <= k < z + Z.of_nat n)%Z -> f k = true.
Proof.
  revert z. induction n as [|n IH]; intros z; simpl; [lia|].
  intros [Hf Hr]%andb_prop k Hk.
  destruct (Z.eq_dec k z) as [->|Hne]; [exact Hf|].
  apply (IH (z + 1)%Z); [exact Hr | lia].
Qed.

(** [all_range lo hi f]: [f k] for every [lo <= k < hi]. *)
Definition all_range (lo hi : Z) (f : Z -> bool) : bool :=
  all_from (Z.to_nat (hi - lo)) lo f.

Lemma all_range_spec lo hi f :
  all_range lo hi f = true -> forall k, (lo <= k < hi)%Z -> f k = true.
Proof.
  unfold all_range. intros H k Hk. apply (all_from_spec _ _ _ H). lia.
Qed.

(** A property that is periodic with period [p] holds everywhere when a
    finite check establishes it on one period. *)
Lemma period_lift (P : Z -> Prop) (f : Z -> bool) (p lo : Z) :
  (0 < p)%Z ->
  all_range lo (lo + p) f = true ->
  (forall z, f z = true -> P z) ->
  (forall z k, P z -> P (z + p * k)%Z) ->
  forall z, P z.
Proof.
  intros Hp Hall Hf Hper z.
  pose proof (Z.div_mod (z - lo) p) as E. pose proof (Z.mod_pos_bound (z - lo) p Hp) as B.
  replace z with ((lo + (z - lo) mod p) + p * ((z - lo) / p))%Z by lia.
  apply Hper, Hf, (all_range_spec _ _ _ Hall). lia.
Qed.

Lemma StronglySorted_filter {A} (R : A -> A -> Prop) (f : A -> bool) l :
  StronglySorted R l -> StronglySorted R (List.filter f l).
Proof.
  induction 1 as [|x l Hs IH Hall]; simpl; [constructor|].
  destruct (f x); [|exact IH]. constructor; [exact IH|].
  apply List.Forall_forall. intros y Hy. apply filter_In in Hy as [Hy _].
  exact (proj1 (List.Forall_forall _ _) Hall y Hy).
Qed.
