(* ===== verification/JsString.v ===== *)
(** The JavaScript string builtins the scraper calls, over Rocq strings of
    8-bit code units: [trim], [includes], [split], [join], [padStart],
    [String(n)] on integers and [Number(s)] on decimal integer literals,
    with the lemmas the components share (split/join, print/parse). *)

From Stdlib Require Import ZArith Lia Ascii String.
From Stdlib Require Import DecimalString DecimalZ.
From stdpp Require Import base list.
From S2P Require Import Prelude.

Local Open Scope string_scope.

(** ** Whitespace and [String.prototype.trim] *)

(** ECMAScript WhiteSpace and LineTerminator code units below 256:
    TAB, LF, VT, FF, CR, SPACE and NO-BREAK SPACE (U+00A0). *)
Definition js_is_ws (c : ascii) : bool :=
  let n := nat_of_ascii c in
  ((9 <=? n) && (n <=? 13) || (n =? 32) || (n =? 160))%nat.

Definition nbsp : ascii := ascii_of_nat 160.

Fixpoint trim_start (s : string) : string :=
  match s with
  | EmptyString => EmptyString
  | String c r => if js_is_ws c then trim_start r else s
  end.

Definition string_rev (s : string) : string :=
  string_of_list_ascii (List.rev (list_ascii_of_string s)).

Definition js_trim (s : string) : string :=
  string_rev (trim_start (string_rev (trim_start s))).

(** ** [includes], [split], [join], [padStart] *)

(** [s.includes(t)]: [t] occurs in [s] at some position. *)
Fixpoint js_includes (s t : string) : bool :=
  String.prefix t s || match s with
                | EmptyString => false
                | String _ r => js_includes r t
                end.

(** [s.split(sep)] where [sep] matches single code units (a one-character
    separator, or a character class such as [/[;,]/g]). *)
Fixpoint js_split_by (p : ascii -> bool) (s : string) : list string :=
  match s with
  | EmptyString => [EmptyString]
  | String c r =>
      if p c then EmptyString :: js_split_by p r
      else match js_split_by p r with
           | x :: xs => String c x :: xs
           | [] => [String c EmptyString]
           end
  end.

Definition js_split (sep : ascii) (s : string) : list string :=
  js_split_by (fun c => Ascii.eqb c sep) s.

(** [l.join(sep)] *)
Fixpoint js_join (sep : string) (l : list string) : string :=
  match l with
  | [] => EmptyString
  | [x] => x
  | x :: xs => x ++ sep ++ js_join sep xs
  end.

(** [s.padStart(n, c)] with a one-character pad string. *)
Definition js_padStart (n : nat) (c : ascii) (s : string) : string :=
  if (n <=? String.length s)%nat then s
  else string_of_list_ascii (List.repeat c (n - String.length s)%nat) ++ s.

(** ** Numbers: [String(n)] and [Number(s)] *)

(** [String(n)] for an integer [n]. *)
Definition js_String (z : Z) : string :=
  NilZero.string_of_int (Z.to_int z).

(** [Number(s)] on decimal integer literals: the trimmed string is empty
    (0), or an optional sign followed by at least one decimal digit.
    [None] is NaN. *)
Definition js_digits (s : string) : option Z :=
  option_map (fun u => Z.of_N (N.of_uint u)) (NilZero.uint_of_string s).

Definition js_Number (s : string) : option Z :=
  match js_trim s with
  | EmptyString => Some 0%Z
  | String c r =>
      if Ascii.eqb c "-" then option_map Z.opp (js_digits r)
      else if Ascii.eqb c "+" then js_digits r
      else js_digits (String c r)
  end.

(** [s.toLowerCase()] on ASCII letters. *)
Definition lower_char (c : ascii) : ascii :=
  if (("A" <=? c)%char && (c <=? "Z")%char)%bool
  then ascii_of_nat (nat_of_ascii c + 32) else c.

Fixpoint js_toLowerCase (s : string) : string :=
  match s with
  | EmptyString => EmptyString
  | String c r => String (lower_char c) (js_toLowerCase r)
  end.

(** JavaScript truthiness of a string: non-empty. *)
Definition js_truthy (s : string) : bool :=
  match s with EmptyString => false | _ => true end.

(** [a || b] on strings. *)
Definition js_or (a b : string) : string := if js_truthy a then a else b.

(** ** Lemmas *)

(** Every code unit of [s] satisfies [f]. *)
Fixpoint str_forall (f : ascii -> bool) (s : string) : bool :=
  match s with
  | EmptyString => true
  | String c r => f c && str_forall f r
  end.

Lemma str_forall_app f a b :
  str_forall f (a ++ b) = str_forall f a && str_forall f b.
Proof. induction a as [|c a IH]; simpl; [done|]. rewrite IH. apply andb_assoc. Qed.

Lemma prefix_refl s : String.prefix s s = true.
Proof.
  induction s as [|c s IH]; simpl; [done|].
  destruct (ascii_dec c c); [exact IH | congruence].
Qed.

Lemma prefix_app s t : String.prefix s (s ++ t) = true.
Proof.
  induction s as [|c s IH]; simpl; [by destruct t|].
  destruct (ascii_dec c c); [exact IH | congruence].
Qed.

Lemma js_includes_app_r a b t :
  js_includes b t = true -> js_includes (a ++ b) t = true.
Proof.
  intros H. induction a as [|c a IH]; simpl; [exact H|].
  rewrite IH. apply orb_true_r.
Qed.

Lemma js_includes_app_l t b : js_includes (t ++ b) t = true.
Proof.
  pose proof (prefix_app t b) as H.
  destruct t; [by destruct b|]. simpl in *. by rewrite H.
Qed.

(** [s.includes(t)] holds when [t] occurs inside [s]. *)
Lemma js_includes_middle a t b : js_includes (a ++ t ++ b) t = true.
Proof. apply js_includes_app_r, js_includes_app_l. Qed.

Lemma js_includes_refl t : js_includes t t = true.
Proof.
  pose proof (prefix_refl t) as H.
  destruct t; [done|]. simpl in *. by rewrite H.
Qed.

(** Splitting a string with no separator in it gives the string. *)
Lemma js_split_by_none p a :
  str_forall (fun c => negb (p c)) a = true -> js_split_by p a = [a].
Proof.
  induction a as [|c a IH]; simpl; [done|].
  intros [Hc Ha]%andb_prop. destruct (p c); [done|]. by rewrite IH.
Qed.

Lemma js_split_by_app p a c b :
  str_forall (fun c => negb (p c)) a = true -> p c = true ->
  js_split_by p (a ++ String c b) = a :: js_split_by p b.
Proof.
  intros Ha Hc. induction a as [|x a IH]; simpl in *; [by rewrite Hc|].
  apply andb_prop in Ha as [Hx Ha]. destruct (p x); [done|]. by rewrite IH.
Qed.

(** *** [js_trim] on strings without white space *)

Lemma trim_start_id s :
  str_forall (fun c => negb (js_is_ws c)) s = true -> trim_start s = s.
Proof. destruct s as [|c s]; simpl; [done|]. intros [Hc _]%andb_prop. by destruct (js_is_ws c). Qed.

Lemma str_forall_rev f s :
  str_forall f (string_rev s) = str_forall f s.
Proof.
  assert (Hl : forall l, str_forall f (string_of_list_ascii l) = forallb f l).
  { induction l; simpl; congruence. }
  assert (Hs : forall s, str_forall f s = forallb f (list_ascii_of_string s)).
  { induction s0; simpl; congruence. }
  assert (Hr : forall l, forallb f (List.rev l) = forallb f l).
  { induction l as [|x l IH]; simpl; [done|].
    rewrite forallb_app, IH; simpl. by rewrite andb_true_r, andb_comm. }
  unfold string_rev. rewrite Hl, Hs, Hr. done.
Qed.

Lemma string_rev_involutive s : string_rev (string_rev s) = s.
Proof.
  unfold string_rev. rewrite list_ascii_of_string_of_list_ascii, rev_involutive.
  apply string_of_list_ascii_of_string.
Qed.

Lemma js_trim_id s :
  str_forall (fun c => negb (js_is_ws c)) s = true -> js_trim s = s.
Proof.
  intros H. unfold js_trim. rewrite (trim_start_id s H), trim_start_id.
  - apply string_rev_involutive.
  - by rewrite str_forall_rev.
Qed.

#[export] Hint Resolve js_includes_middle js_includes_refl : pauta.

(** *** [Number(String(z)) = z] *)

Definition is_digit (c : ascii) : bool :=
  ((48 <=? nat_of_ascii c) && (nat_of_ascii c <=? 57))%nat.

Lemma string_of_uint_digits u :
  u <> Decimal.Nil ->
  exists c r, NilZero.string_of_uint u = String c r /\ is_digit c = true /\
              str_forall is_digit r = true.
Proof.
  assert (Hall : forall u, str_forall is_digit (NilEmpty.string_of_uint u) = true).
  { clear. induction u; simpl; [reflexivity|assumption..]. }
  intros Hu. destruct u; [congruence| ..]; simpl;
    (eexists _, _; split; [reflexivity|]; split; [done|]; apply Hall).
Qed.

Lemma digit_not_ws c : is_digit c = true -> js_is_ws c = false.
Proof.
  unfold is_digit, js_is_ws. cbv zeta. generalize (nat_of_ascii c) as n.
  intros n [H1 H2]%andb_prop. apply Nat.leb_le in H1, H2.
  destruct (Nat.leb_spec 9 n), (Nat.leb_spec n 13), (Nat.eqb_spec n 32),
    (Nat.eqb_spec n 160); simpl; try reflexivity; lia.
Qed.

Lemma str_forall_impl (f g : ascii -> bool) s :
  (forall c, f c = true -> g c = true) -> str_forall f s = true -> str_forall g s = true.
Proof.
  intros Hfg. induction s as [|c s IH]; simpl; [done|].
  intros [Hc Hs]%andb_prop. by rewrite Hfg, IH.
Qed.

Lemma digits_no_ws s :
  str_forall is_digit s = true -> str_forall (fun c => negb (js_is_ws c)) s = true.
Proof. apply str_forall_impl. intros c Hc. by rewrite digit_not_ws. Qed.

Lemma js_digits_uint u :
  u <> Decimal.Nil ->
  js_digits (NilZero.string_of_uint u) = Some (Z.of_N (N.of_uint u)).
Proof. intros Hu. unfold js_digits. by rewrite NilZero.usu. Qed.

Lemma is_digit_sign c : is_digit c = true -> Ascii.eqb c "-" = false /\ Ascii.eqb c "+" = false.
Proof.
  intros Hc. split; apply Ascii.eqb_neq; intros ->; discriminate.
Qed.

Lemma js_Number_uint u :
  u <> Decimal.Nil ->
  js_Number (NilZero.string_of_uint u) = Some (Z.of_N (N.of_uint u)).
Proof.
  intros Hu. destruct (string_of_uint_digits u Hu) as (c & r & Hs & Hc & Hr).
  unfold js_Number. rewrite js_trim_id.
  - rewrite Hs. destruct (is_digit_sign c Hc) as [-> ->].
    rewrite <- Hs. by apply js_digits_uint.
  - rewrite Hs. simpl. rewrite digit_not_ws by done. by apply digits_no_ws.
Qed.

(** Printing an integer with [String] and reading it back with [Number]
    gives the integer. *)
Lemma js_Number_String z : js_Number (js_String z) = Some z.
Proof.
  unfold js_String. destruct z as [|p|p]; [reflexivity| |].
  - cbn [Z.to_int NilZero.string_of_int].
    rewrite js_Number_uint by apply DecimalPos.Unsigned.to_uint_nonnil.
    unfold N.of_uint. by rewrite DecimalPos.Unsigned.of_to.
  - cbn [Z.to_int NilZero.string_of_int].
    destruct (string_of_uint_digits (Pos.to_uint p)) as (c & r & Hs & Hc & Hr).
    { apply DecimalPos.Unsigned.to_uint_nonnil. }
    unfold js_Number. rewrite js_trim_id.
    + cbn [Ascii.eqb]. change (Ascii.eqb "-" "-") with true. cbv iota.
      rewrite js_digits_uint by apply DecimalPos.Unsigned.to_uint_nonnil.
      unfold N.of_uint. rewrite DecimalPos.Unsigned.of_to. reflexivity.
    + rewrite Hs. cbn [str_forall]. rewrite (digit_not_ws c Hc). simpl. by apply digits_no_ws.
Qed.

(** *** Occurrences and trimming at the ends *)

Lemma prefix_length s t : String.prefix t s = true -> (String.length t <= String.length s)%nat.
Proof.
  revert s. induction t as [|c t IH]; intros [|c' s]; simpl; intros H; try lia; try discriminate.
  destruct (ascii_dec c c'); [specialize (IH s H); lia | discriminate].
Qed.

Lemma prefix_same_length s t :
  String.prefix t s = true -> String.length s = String.length t -> s = t.
Proof.
  revert s. induction t as [|c t IH]; intros [|c' s]; simpl; intros H Hl; try done; try lia.
  destruct (ascii_dec c c'); [subst | discriminate]. f_equal. apply IH; [exact H | lia].
Qed.

Lemma js_includes_length s t :
  js_includes s t = true -> (String.length t <= String.length s)%nat.
Proof.
  induction s as [|c s IH]; cbn [js_includes].
  - rewrite orb_false_r. apply prefix_length.
  - intros [H|H]%orb_prop; [exact (prefix_length _ _ H) | specialize (IH H); cbn [String.length]; lia].
Qed.

(** A string of the same length occurs in [s] only as [s] itself. *)
Lemma js_includes_same_length s t :
  String.length s = String.length t -> js_includes s t = true -> s = t.
Proof.
  intros Hl. destruct s as [|c s]; cbn [js_includes].
  - rewrite orb_false_r. intros H. exact (prefix_same_length _ _ H Hl).
  - intros [H|H]%orb_prop; [exact (prefix_same_length _ _ H Hl)|].
    apply js_includes_length in H. cbn [String.length] in Hl. lia.
Qed.

(** Characters that cannot start [t] can be skipped when searching it. *)
Lemma js_includes_skip p x d r :
  str_forall (fun c => negb (Ascii.eqb c d)) p = true ->
  js_includes (p ++ x) (String d r) = js_includes x (String d r).
Proof.
  induction p as [|c p IH]; simpl; [done|]. intros [Hc Hp]%andb_prop.
  rewrite IH by exact Hp. destruct (ascii_dec d c); [subst; by rewrite Ascii.eqb_refl in Hc | done].
Qed.

Lemma string_app_assoc a b c : ((a ++ b) ++ c)%string = (a ++ (b ++ c))%string.
Proof. induction a as [|x a IH]; simpl; congruence. Qed.

Lemma string_rev_snoc a e :
  string_rev (a ++ String e EmptyString) = String e (string_rev a).
Proof.
  unfold string_rev.
  assert (Hl : forall a b, list_ascii_of_string (a ++ b) = app (list_ascii_of_string a) (list_ascii_of_string b)).
  { induction a0 as [|c a0 IH]; intros b; simpl; [done | by rewrite IH]. }
  rewrite Hl. simpl. rewrite rev_app_distr. reflexivity.
Qed.

(** [s.trim()] is [s] when neither end is white space. *)
Lemma js_trim_fixed s :
  trim_start s = s -> trim_start (string_rev s) = string_rev s -> js_trim s = s.
Proof. intros H1 H2. unfold js_trim. rewrite H1, H2. apply string_rev_involutive. Qed.

(** *** [trim] is idempotent *)

(** [s] is empty or does not start with white space. *)
Definition starts_nows (s : string) : bool :=
  match s with EmptyString => true | String c _ => negb (js_is_ws c) end.

Lemma trim_start_starts s : starts_nows (trim_start s) = true.
Proof. induction s as [|c s IH]; cbn; [done|]. destruct (js_is_ws c) eqn:E; [exact IH|]. cbn. by rewrite E. Qed.

Lemma trim_start_starts_id s : starts_nows s = true -> trim_start s = s.
Proof. destruct s as [|c s]; cbn; [done|]. by destruct (js_is_ws c). Qed.

Lemma trim_start_suffix s : exists p, s = (p ++ trim_start s)%string.
Proof.
  induction s as [|c s IH]; cbn; [by exists EmptyString|].
  destruct (js_is_ws c); [destruct IH as [p Hp]; exists (String c p); cbn; congruence | by exists EmptyString].
Qed.

Lemma list_ascii_of_string_app a b :
  list_ascii_of_string (a ++ b) = app (list_ascii_of_string a) (list_ascii_of_string b).
Proof. induction a as [|c a IH]; simpl; [done | by rewrite IH]. Qed.

Lemma string_of_list_ascii_app l l' :
  string_of_list_ascii (app l l') = (string_of_list_ascii l ++ string_of_list_ascii l')%string.
Proof. induction l as [|c l IH]; simpl; [done | by rewrite IH]. Qed.

Lemma string_rev_app a b : string_rev (a ++ b) = (string_rev b ++ string_rev a)%string.
Proof.
  unfold string_rev. by rewrite list_ascii_of_string_app, rev_app_distr, string_of_list_ascii_app.
Qed.

(** [trim] leaves a string that neither starts nor ends with white space. *)
Lemma js_trim_ends s :
  starts_nows (js_trim s) = true /\ starts_nows (string_rev (js_trim s)) = true.
Proof.
  unfold js_trim. set (u := trim_start s). set (v := trim_start (string_rev u)).
  rewrite string_rev_involutive. split; [|apply trim_start_starts].
  destruct (trim_start_suffix (string_rev u)) as [p Hp]. fold v in Hp.
  assert (Hu : u = (string_rev v ++ string_rev p)%string).
  { rewrite <- string_rev_app, <- Hp. symmetry. apply string_rev_involutive. }
  pose proof (trim_start_starts s) as Hs. fold u in Hs. rewrite Hu in Hs.
  destruct (string_rev v); [done | exact Hs].
Qed.

Lemma js_trim_idem s : js_trim (js_trim s) = js_trim s.
Proof.
  destruct (js_trim_ends s) as [H1 H2].
  apply js_trim_fixed; apply trim_start_starts_id; assumption.
Qed.

(** Trimming keeps a property that every code unit has. *)
Lemma str_forall_trim_start f s : str_forall f s = true -> str_forall f (trim_start s) = true.
Proof.
  induction s as [|c s IH]; [done|]. cbn [trim_start str_forall].
  intros [Hc Hs]%andb_prop. destruct (js_is_ws c); [auto | cbn; by rewrite Hc, Hs].
Qed.

Lemma str_forall_trim f s : str_forall f s = true -> str_forall f (js_trim s) = true.
Proof.
  intros H. unfold js_trim. rewrite str_forall_rev.
  apply str_forall_trim_start. rewrite str_forall_rev. by apply str_forall_trim_start.
Qed.

(** The equations of [append] (which stdpp's [strings] marks [simpl never]). *)
Lemma string_app_cons c a b : (String c a ++ b)%string = String c (a ++ b).
Proof. reflexivity. Qed.

Lemma string_app_nil b : (EmptyString ++ b)%string = b.
Proof. reflexivity. Qed.

Lemma string_app_empty_r a : (a ++ EmptyString)%string = a.
Proof. induction a as [|c a IH]; [done|]. cbn. by rewrite IH. Qed.

Lemma js_join_cons2 sep x y l : js_join sep (x :: y :: l) = (x ++ sep ++ js_join sep (y :: l))%string.
Proof. reflexivity. Qed.
