(* ===== verification/Dates.v ===== *)
(** Dates: the JavaScript [Date] arithmetic the scraper relies on, and the
    date helpers of src/PAUTA-JRT2.js ([parseBRDate], [isWeekdayBR],
    [getTodayBR], [gerarDatasProximosDoisMeses], [brToIsoDateString]).

    A [Date] is its local day number (days since 1970-01-01, the
    code only builds dates at local midnight), [None] for an invalid date
    (NaN).  Calendar conversions are the proleptic Gregorian algorithms
    [days_from_civil]/[civil_from_days]; [new Date(y, m, d)] is
    [new_date], with MakeDay's month normalisation, the rule that years
    0..99 mean 1900..1999, and TimeClip (|t| <= 8.64e15 ms, i.e. 1e8 days). *)

From Stdlib Require Import ZArith Lia Ascii String DecimalString Sorted.
From stdpp Require Import base list.
From S2P Require Import Prelude JsString.

Local Open Scope Z_scope.

(** ** Calendar arithmetic *)

(** The local calendar day of [new Date()]: the instant [now] (ms since
    the epoch) in a zone [tz] ms ahead of UTC. *)
Definition local_day (tz now : Z) : Z := (now + tz) / 86400000.


(** Day number of the civil date (y, m, d), m in 1..12. *)
Definition days_from_civil (y m d : Z) : Z :=
  let y' := if m <=? 2 then y - 1 else y in
  let era := y' / 400 in
  let yoe := y' - era * 400 in
  let mp := if 2 <? m then m - 3 else m + 9 in
  let doy := (153 * mp + 2) / 5 + d - 1 in
  let doe := yoe * 365 + yoe / 4 - yoe / 100 + doy in
  era * 146097 + doe - 719468.

(** Civil date (y, m, d) of a day number. *)
Definition civil_from_days (z : Z) : Z * Z * Z :=
  let z' := z + 719468 in
  let era := z' / 146097 in
  let doe := z' - era * 146097 in
  let yoe := (doe - doe / 1460 + doe / 36524 - doe / 146096) / 365 in
  let doy := doe - (365 * yoe + yoe / 4 - yoe / 100) in
  let mp := (5 * doy + 2) / 153 in
  let d := doy - (153 * mp + 2) / 5 + 1 in
  let m := if mp <? 10 then mp + 3 else mp - 9 in
  ((if m <=? 2 then yoe + era * 400 + 1 else yoe + era * 400), m, d).

(** [getFullYear], [getMonth] (0-based), [getDate], [getDay]. *)
Definition getFullYear (dn : Z) : Z := fst (fst (civil_from_days dn)).
Definition getMonth (dn : Z) : Z := snd (fst (civil_from_days dn)) - 1.
Definition getDate (dn : Z) : Z := snd (civil_from_days dn).
Definition getDay (dn : Z) : Z := (dn + 4) mod 7.

(** MakeDay(year, month, date): the month is normalised into the year. *)
Definition make_day (y m0 d : Z) : Z :=
  days_from_civil (y + m0 / 12) (m0 mod 12 + 1) 1 + d - 1.

Definition max_days : Z := 100000000.

(** TimeClip, on day numbers. *)
Definition time_clip (t : Z) : option Z :=
  if Z.abs t <=? max_days then Some t else None.

(** [new Date(y, m0, d)]; a NaN argument gives an invalid date. *)
Definition new_date (y m0 d : option Z) : option Z :=
  y ← y; m0 ← m0; d ← d;
  let y' := if (0 <=? y) && (y <=? 99) then 1900 + y else y in
  time_clip (make_day y' m0 d).

(** [date.setDate(k)] and [date.setMonth(k)] on a valid date. *)
Definition setDate (dn k : Z) : Z := make_day (getFullYear dn) (getMonth dn) k.
Definition setMonth (dn k : Z) : Z := make_day (getFullYear dn) k (getDate dn).

(** ** The helpers of the source *)

(** [const [dd, mm, yyyy] = br.split('/').map(Number);
     return new Date(yyyy, mm - 1, dd);]  A missing part is [undefined],
    whose [Number] is NaN. *)
Definition parseBRDate (br : string) : option Z :=
  let parts := List.map js_Number (js_split "/" br) in
  let dd := nth 0 parts None in
  let mm := nth 1 parts None in
  let yyyy := nth 2 parts None in
  new_date yyyy (option_map (fun m => m - 1) mm) dd.

(** [day !== 0 && day !== 6]: NaN (an invalid date) passes both tests. *)
Definition isWeekdayBR (dataBR : string) : bool :=
  match option_map getDay (parseBRDate dataBR) with
  | Some day => negb (day =? 0) && negb (day =? 6)
  | None => true
  end.

(** The template [`${dd}/${mm}/${yyyy}`] with [padStart(2, '0')] on the
    day and the month. *)
Definition formatBR (dn : Z) : string :=
  let dd := js_padStart 2 "0" (js_String (getDate dn)) in
  let mm := js_padStart 2 "0" (js_String (getMonth dn + 1)) in
  let yyyy := js_String (getFullYear dn) in
  (dd ++ "/" ++ mm ++ "/" ++ yyyy)%string.

(** [getTodayBR()], with today's day number [hoje] as input. *)
Definition getTodayBR (hoje : Z) : string := formatBR hoje.

(** The [while (current <= fim)] loop of [gerarDatasProximosDoisMeses],
    with fuel; [datas] is the array being pushed to. *)
Fixpoint gerar_loop (fuel : nat) (fim current : Z) (datas : list string) : list string :=
  match fuel with
  | O => datas
  | S fuel' =>
      if current <=? fim then
        let dataBR := formatBR current in
        let datas' := if isWeekdayBR dataBR then datas ++ [dataBR] else datas in
        gerar_loop fuel' fim (setDate current (getDate current + 1)) datas'
      else datas
  end.

(** The loop runs once per day of [current..fim]: that is its fuel. *)
Definition gerarDatasProximosDoisMeses (hoje : Z) : list string :=
  let current := setDate hoje (getDate hoje + 7) in
  let fim0 := setMonth hoje (getMonth hoje + 2) in
  let fim := setDate fim0 (getDate fim0 + 10) in
  gerar_loop (Z.to_nat (fim - current + 1)) fim current [].

(** [brToIsoDateString(br)]: [`${yyyy}-${mm}-${dd}`] of [parseBRDate(br)];
    an invalid date prints [NaN] in each field. *)
Definition brToIsoDateString (br : string) : string :=
  match parseBRDate br with
  | Some d =>
      (js_String (getFullYear d) ++ "-" ++
       js_padStart 2 "0" (js_String (getMonth d + 1)) ++ "-" ++
       js_padStart 2 "0" (js_String (getDate d)))%string
  | None => "NaN-NaN-NaN"%string
  end.

(** ** The 400-year period of the Gregorian calendar *)

Definition shift_years (k : Z) (c : Z * Z * Z) : Z * Z * Z :=
  let '(y, m, d) := c in (y + 400 * k, m, d).

Lemma civil_from_days_period z k :
  civil_from_days (z + 146097 * k) = shift_years k (civil_from_days z).
Proof.
  unfold civil_from_days, shift_years. cbv zeta.
  replace (z + 146097 * k + 719468) with (z + 719468 + k * 146097) by lia.
  rewrite Z.div_add by lia.
  replace (z + 719468 + k * 146097 - ((z + 719468) / 146097 + k) * 146097)
    with (z + 719468 - (z + 719468) / 146097 * 146097) by lia.
  set (doe := z + 719468 - (z + 719468) / 146097 * 146097).
  repeat case_match; simplify_eq; f_equal; try f_equal; lia.
Qed.

Lemma days_from_civil_period y m d k :
  days_from_civil (y + 400 * k) m d = days_from_civil y m d + 146097 * k.
Proof.
  unfold days_from_civil. cbv zeta.
  destruct (m <=? 2).
  - replace (y + 400 * k - 1) with (y - 1 + k * 400) by lia.
    rewrite Z.div_add by lia.
    replace (y - 1 + k * 400 - ((y - 1) / 400 + k) * 400)
      with (y - 1 - (y - 1) / 400 * 400) by lia. lia.
  - replace (y + 400 * k) with (y + k * 400) by lia.
    rewrite Z.div_add by lia.
    replace (y + k * 400 - (y / 400 + k) * 400) with (y - y / 400 * 400) by lia. lia.
Qed.

(** [days_from_civil] is affine in the day of the month. *)
Lemma days_from_civil_day y m d :
  days_from_civil y m d = days_from_civil y m 1 + (d - 1).
Proof. unfold days_from_civil. cbv zeta. lia. Qed.

(** What is checked over one period: the round trip, the ranges of the
    month and the day, and the position of the day inside its year. *)
Definition civil_ok (z : Z) : bool :=
  let '(y, m, d) := civil_from_days z in
  (days_from_civil y m d =? z) && (1 <=? m) && (m <=? 12) && (1 <=? d) && (d <=? 31)
  && (days_from_civil y 1 1 <=? z) && (z <? days_from_civil (y + 1) 1 1).

Lemma civil_ok_period : all_range (-719468) (-719468 + 146097) civil_ok = true.
Proof. vm_compute. reflexivity. Qed.

Lemma civil_ok_all z : civil_ok z = true.
Proof.
  revert z. apply (period_lift _ civil_ok 146097 (-719468)); [lia | exact civil_ok_period | done |].
  intros z k. unfold civil_ok. rewrite civil_from_days_period.
  destruct (civil_from_days z) as [[y m] d]. cbn [shift_years].
  replace (y + 400 * k + 1) with (y + 1 + 400 * k) by lia.
  rewrite !days_from_civil_period.
  intros H. repeat match goal with H : context [?a && ?b = true] |- _ => apply andb_prop in H as [? ?] end.
  rewrite ?Z.eqb_eq, ?Z.leb_le, ?Z.ltb_lt in *.
  repeat (apply andb_true_intro; split); rewrite ?Z.eqb_eq, ?Z.leb_le, ?Z.ltb_lt; lia.
Qed.

Lemma civil_facts z y m d :
  civil_from_days z = (y, m, d) ->
  days_from_civil y m d = z /\ 1 <= m <= 12 /\ 1 <= d <= 31 /\
  days_from_civil y 1 1 <= z < days_from_civil (y + 1) 1 1.
Proof.
  intros E. pose proof (civil_ok_all z) as H. unfold civil_ok in H. rewrite E in H.
  repeat match goal with H : context [?a && ?b = true] |- _ => apply andb_prop in H as [? ?] end.
  rewrite ?Z.eqb_eq, ?Z.leb_le, ?Z.ltb_lt in *. lia.
Qed.

(** [new Date(y, m - 1, d)] of a civil date is its day number. *)
Lemma make_day_civil y m d :
  1 <= m <= 12 -> make_day y (m - 1) d = days_from_civil y m d.
Proof.
  intros Hm. unfold make_day.
  rewrite (Z.div_small (m - 1) 12), (Z.mod_small (m - 1) 12) by lia.
  rewrite (days_from_civil_day y m d), Z.add_0_r.
  replace (m - 1 + 1) with m by lia. lia.
Qed.

(** [d.setDate(d.getDate() + k)] moves the date by [k] days. *)
Lemma setDate_getDate dn k : setDate dn (getDate dn + k) = dn + k.
Proof.
  unfold setDate, getFullYear, getMonth, getDate.
  destruct (civil_from_days dn) as [[y m] d] eqn:E. simpl.
  destruct (civil_facts _ _ _ _ E) as (Hdn & Hm & _).
  rewrite make_day_civil by lia. rewrite days_from_civil_day.
  rewrite (days_from_civil_day y m d) in Hdn. lia.
Qed.

(** ** Printing and parsing [DD/MM/YYYY] *)

Definition no_slash (s : string) : bool := str_forall (fun c => negb (Ascii.eqb c "/")) s.

(** The two-digit fields: checked for every value below 100. *)
Definition pad2_ok (k : Z) : bool :=
  no_slash (js_padStart 2 "0" (js_String k)) &&
  bool_decide (js_Number (js_padStart 2 "0" (js_String k)) = Some k).

Lemma pad2_ok_range : all_range 0 100 pad2_ok = true.
Proof. vm_compute. reflexivity. Qed.

Lemma pad2_facts k :
  0 <= k < 100 ->
  no_slash (js_padStart 2 "0" (js_String k)) = true /\
  js_Number (js_padStart 2 "0" (js_String k)) = Some k.
Proof.
  intros Hk. pose proof (all_range_spec _ _ _ pad2_ok_range k Hk) as H.
  unfold pad2_ok in H. apply andb_prop in H as [H1 H2].
  split; [exact H1 | exact (bool_decide_eq_true_1 _ H2)].
Qed.

Lemma js_String_no_slash z : no_slash (js_String z) = true.
Proof.
  assert (Hd : forall r, str_forall is_digit r = true -> no_slash r = true).
  { intros r. apply str_forall_impl. intros c Hc.
    destruct (Ascii.eqb_spec c "/"); [subst; discriminate | reflexivity]. }
  unfold js_String. destruct z as [|p|p]; [reflexivity| |].
  - destruct (string_of_uint_digits (Pos.to_uint p)) as (c & r & Hs & Hc & Hr).
    { apply DecimalPos.Unsigned.to_uint_nonnil. }
    cbn [Z.to_int NilZero.string_of_int]. rewrite Hs. apply (Hd (String c r)). simpl. by rewrite Hc.
  - destruct (string_of_uint_digits (Pos.to_uint p)) as (c & r & Hs & Hc & Hr).
    { apply DecimalPos.Unsigned.to_uint_nonnil. }
    cbn [Z.to_int NilZero.string_of_int]. rewrite Hs. simpl.
    apply (Hd (String c r)). simpl. by rewrite Hc.
Qed.

Lemma js_split_three a b c :
  no_slash a = true -> no_slash b = true -> no_slash c = true ->
  js_split "/" (a ++ String "/" (b ++ String "/" c))%string = [a; b; c].
Proof.
  intros Ha Hb Hc. unfold js_split.
  rewrite (js_split_by_app _ a "/" (b ++ String "/" c)%string Ha) by reflexivity.
  rewrite (js_split_by_app _ b "/" c Hb) by reflexivity.
  by rewrite js_split_by_none.
Qed.

(** [parseBRDate] inverts the [DD/MM/YYYY] template for every valid date
    whose year is not in 0..99. *)
Lemma parseBRDate_formatBR_gen dn :
  (getFullYear dn < 0 \/ 100 <= getFullYear dn) -> Z.abs dn <= max_days ->
  parseBRDate (formatBR dn) = Some dn.
Proof.
  unfold formatBR, getFullYear, getMonth, getDate.
  destruct (civil_from_days dn) as [[y m] d] eqn:E. simpl. intros Hy Hclip.
  destruct (civil_facts _ _ _ _ E) as (Hdn & Hm & Hd & _).
  replace (m - 1 + 1) with m by lia.
  destruct (pad2_facts d) as [Hd1 Hd2]; [lia|].
  destruct (pad2_facts m) as [Hm1 Hm2]; [lia|].
  unfold parseBRDate. rewrite js_split_three by (apply js_String_no_slash || assumption).
  simpl. rewrite Hd2, Hm2, js_Number_String. simpl.
  replace ((0 <=? y) && (y <=? 99)) with false
    by (symmetry; apply andb_false_iff; destruct Hy; [left | right]; apply Z.leb_gt; lia).
  rewrite make_day_civil, Hdn by lia. unfold time_clip.
  destruct (Z.leb_spec (Z.abs dn) max_days); [reflexivity | lia].
Qed.

(** Every month start of the years 1900..1999 is well inside TimeClip. *)
Definition clip_1900_ok (y : Z) : bool :=
  all_range 1 13 (fun m => Z.abs (days_from_civil y m 1) + 31 <=? max_days).

Lemma clip_1900_range : all_range 1900 2000 clip_1900_ok = true.
Proof. vm_compute. reflexivity. Qed.

Lemma clip_1900 y m d :
  1900 <= y < 2000 -> 1 <= m <= 12 -> 1 <= d <= 31 ->
  Z.abs (days_from_civil y m d) <= max_days.
Proof.
  intros Hy Hm Hd. pose proof (all_range_spec _ _ _ (all_range_spec _ _ _ clip_1900_range y Hy) m) as H.
  rewrite Z.leb_le in H. rewrite days_from_civil_day. specialize (H ltac:(lia)). lia.
Qed.

(** For a year in 0..99 the printed date is read back in year [1900 + y]. *)
Lemma parseBRDate_formatBR_1900 dn :
  0 <= getFullYear dn <= 99 ->
  parseBRDate (formatBR dn) =
  Some (days_from_civil (1900 + getFullYear dn) (getMonth dn + 1) (getDate dn)).
Proof.
  unfold formatBR, getFullYear, getMonth, getDate.
  destruct (civil_from_days dn) as [[y m] d] eqn:E. simpl. intros Hy.
  destruct (civil_facts _ _ _ _ E) as (_ & Hm & Hd & _).
  replace (m - 1 + 1) with m by lia.
  destruct (pad2_facts d) as [Hd1 Hd2]; [lia|].
  destruct (pad2_facts m) as [Hm1 Hm2]; [lia|].
  unfold parseBRDate. rewrite js_split_three by (apply js_String_no_slash || assumption).
  simpl. rewrite Hd2, Hm2, js_Number_String. simpl.
  replace ((0 <=? y) && (y <=? 99)) with true
    by (symmetry; apply andb_true_iff; split; apply Z.leb_le; lia).
  rewrite make_day_civil by lia. unfold time_clip.
  destruct (Z.leb_spec (Z.abs (days_from_civil (1900 + y) m d)) max_days) as [|Hc]; [reflexivity|].
  pose proof (clip_1900 (1900 + y) m d ltac:(lia) Hm Hd). lia.
Qed.

(** The weekday test of a printed date is the weekday of the date. *)
Definition business (dn : Z) : bool := negb (getDay dn =? 0) && negb (getDay dn =? 6).

Lemma isWeekdayBR_formatBR_gen dn :
  (getFullYear dn < 0 \/ 100 <= getFullYear dn) -> Z.abs dn <= max_days ->
  isWeekdayBR (formatBR dn) = business dn.
Proof. intros Hy Hc. unfold isWeekdayBR. by rewrite parseBRDate_formatBR_gen. Qed.

(** *** The year is monotone in the day number *)

Definition jan1_step_ok (y : Z) : bool :=
  days_from_civil y 1 1 <? days_from_civil (y + 1) 1 1.

Lemma jan1_step_range : all_range 0 (0 + 400) jan1_step_ok = true.
Proof. vm_compute. reflexivity. Qed.

Lemma days_from_civil_jan1_succ y :
  days_from_civil y 1 1 < days_from_civil (y + 1) 1 1.
Proof.
  revert y. apply (period_lift _ jan1_step_ok 400 0); [lia | exact jan1_step_range | |].
  - intros y Hy. by apply Z.ltb_lt.
  - intros y k. replace (y + 400 * k + 1) with (y + 1 + 400 * k) by lia.
    rewrite !days_from_civil_period. lia.
Qed.

Lemma days_from_civil_jan1_mono y1 y2 :
  y1 <= y2 -> days_from_civil y1 1 1 <= days_from_civil y2 1 1.
Proof.
  intros H. replace y2 with (y1 + Z.of_nat (Z.to_nat (y2 - y1))) by lia.
  induction (Z.to_nat (y2 - y1)) as [|n IH]; [rewrite Z.add_0_r; lia|].
  pose proof (days_from_civil_jan1_succ (y1 + Z.of_nat n)).
  replace (y1 + Z.of_nat (S n)) with (y1 + Z.of_nat n + 1) by lia. lia.
Qed.

Lemma getFullYear_mono x y : x <= y -> getFullYear x <= getFullYear y.
Proof.
  unfold getFullYear. intros Hxy.
  destruct (civil_from_days x) as [[yx mx] dx] eqn:Ex.
  destruct (civil_from_days y) as [[yy my] dy] eqn:Ey. simpl.
  destruct (civil_facts _ _ _ _ Ex) as (_ & _ & _ & Hx).
  destruct (civil_facts _ _ _ _ Ey) as (_ & _ & _ & Hy).
  destruct (Z.le_gt_cases yx yy) as [|Hlt]; [done|].
  pose proof (days_from_civil_jan1_mono (yy + 1) yx). lia.
Qed.

(** *** [gerarDatasProximosDoisMeses] *)

(** The last day of the window: two months ahead (with [setMonth]'s
    overflow), then ten more days. *)
Definition fimDe (hoje : Z) : Z :=
  let fim0 := setMonth hoje (getMonth hoje + 2) in
  setDate fim0 (getDate fim0 + 10).

Lemma make_day_period y m0 d k :
  make_day (y + 400 * k) m0 d = make_day y m0 d + 146097 * k.
Proof.
  unfold make_day. rewrite <- Z.add_assoc, (Z.add_comm (400 * k)), Z.add_assoc.
  rewrite days_from_civil_period.
  remember (days_from_civil (y + m0 / 12) (m0 mod 12 + 1) 1) as D. lia.
Qed.

(** Two calendar months ahead lands 59 to 62 days later; the gap does
    not depend on the day of the month, so it is checked per (year, month)
    over one 400-year period. *)
Lemma two_months_ym_period :
  all_range 0 (0 + 400)
    (fun y => all_range 1 13 (fun m =>
       (59 <=? make_day y (m - 1 + 2) 1 - days_from_civil y m 1) &&
       (make_day y (m - 1 + 2) 1 - days_from_civil y m 1 <=? 62))) = true.
Proof. vm_compute. reflexivity. Qed.

Lemma two_months_ym y m :
  1 <= m <= 12 -> 59 <= make_day y (m - 1 + 2) 1 - days_from_civil y m 1 <= 62.
Proof.
  revert y m.
  apply (period_lift (fun y => forall m, 1 <= m <= 12 ->
           59 <= make_day y (m - 1 + 2) 1 - days_from_civil y m 1 <= 62)
           _ 400 0 ltac:(lia) two_months_ym_period).
  - intros y Hy m Hm. pose proof (all_range_spec _ _ _ Hy m ltac:(lia)) as H.
    apply andb_prop in H as [H1 H2]. apply Z.leb_le in H1, H2. lia.
  - intros y k H m Hm. rewrite make_day_period, days_from_civil_period.
    specialize (H m Hm). remember (make_day y (m - 1 + 2) 1) as A.
    remember (days_from_civil y m 1) as B. lia.
Qed.

Lemma two_months_bounds z :
  59 <= setMonth z (getMonth z + 2) - z <= 62.
Proof.
  unfold setMonth, getFullYear, getMonth, getDate.
  destruct (civil_from_days z) as [[y m] d] eqn:E. cbn [fst snd].
  destruct (civil_facts _ _ _ _ E) as (Hz & Hm & _).
  pose proof (two_months_ym y m Hm) as H.
  rewrite (days_from_civil_day y m d) in Hz. unfold make_day in *.
  remember (days_from_civil (y + (m - 1 + 2) / 12) ((m - 1 + 2) mod 12 + 1) 1) as A.
  remember (days_from_civil y m 1) as B. lia.
Qed.

Lemma fimDe_range hoje : hoje + 69 <= fimDe hoje <= hoje + 72.
Proof.
  unfold fimDe. cbv zeta. rewrite setDate_getDate. pose proof (two_months_bounds hoje).
  remember (setMonth hoje (getMonth hoje + 2)) as F. lia.
Qed.

(** The loop body, for one day of the window, when printing and parsing
    agree. *)
Lemma gerar_loop_spec n fim cur datas :
  (forall x, cur <= x <= fim -> isWeekdayBR (formatBR x) = business x) ->
  Z.of_nat n = fim - cur + 1 ->
  gerar_loop n fim cur datas =
  datas ++ List.map formatBR (List.filter business (seqZ cur (Z.of_nat n))).
Proof.
  revert cur datas. induction n as [|n IH]; intros cur datas Hwd Hn; cbn [gerar_loop].
  - by rewrite app_nil_r.
  - destruct (Z.leb_spec cur fim); [|lia].
    rewrite setDate_getDate, (seqZ_cons cur) by lia. cbn [List.filter List.map].
    replace (Z.succ cur) with (cur + 1) by lia.
    replace (Z.pred (Z.of_nat (S n))) with (Z.of_nat n) by lia.
    rewrite (Hwd cur) by lia.
    rewrite IH; [| intros x Hx; apply Hwd; lia | lia].
    destruct (business cur); cbn [List.map]; [by rewrite <- app_assoc | done].
Qed.

(** More fuel than the window has days changes nothing: the loop's own
    test [current <= fim] stops it. *)
Lemma gerar_loop_fuel n k fim cur datas :
  Z.of_nat n = fim - cur + 1 ->
  gerar_loop (n + k) fim cur datas = gerar_loop n fim cur datas.
Proof.
  revert cur datas. induction n as [|n IH]; intros cur datas Hn; simpl.
  - destruct k; simpl; [done|]. destruct (Z.leb_spec cur fim); [lia | done].
  - destruct (Z.leb_spec cur fim); [|done]. apply IH.
    rewrite setDate_getDate. lia.
Qed.

Lemma days_from_civil_100 : days_from_civil 100 1 1 = -683003.
Proof. reflexivity. Qed.

(** Every day from [hoje] on prints and parses back when [hoje] is past
    year 99 and the day stays inside TimeClip. *)
Lemma window_parse hoje x :
  100 <= getFullYear hoje -> hoje <= x <= max_days ->
  parseBRDate (formatBR x) = Some x.
Proof.
  intros Hy Hx. apply parseBRDate_formatBR_gen.
  - right. pose proof (getFullYear_mono hoje x). lia.
  - unfold getFullYear in Hy. destruct (civil_from_days hoje) as [[y m] d] eqn:E.
    destruct (civil_facts _ _ _ _ E) as (_ & _ & _ & Hb). simpl in Hy.
    pose proof (days_from_civil_jan1_mono 100 y ltac:(lia)). rewrite days_from_civil_100 in *.
    unfold max_days in *. lia.
Qed.

Lemma window_weekday hoje x :
  100 <= getFullYear hoje -> hoje <= x <= max_days ->
  isWeekdayBR (formatBR x) = business x.
Proof. intros Hy Hx. unfold isWeekdayBR. by rewrite (window_parse hoje). Qed.

Lemma fimDe_eq hoje : fimDe hoje = setMonth hoje (getMonth hoje + 2) + 10.
Proof. unfold fimDe. cbv zeta. apply setDate_getDate. Qed.

(** The generator, as a filter over its window of days. *)
Lemma gerarDatas_window hoje :
  100 <= getFullYear hoje -> hoje + 72 <= max_days ->
  gerarDatasProximosDoisMeses hoje =
  List.map formatBR (List.filter business (seqZ (hoje + 7) (fimDe hoje - hoje - 6))).
Proof.
  intros Hy Hmax. pose proof (fimDe_range hoje) as Hf. rewrite fimDe_eq in *.
  unfold gerarDatasProximosDoisMeses. cbv zeta.
  rewrite (setDate_getDate hoje 7), setDate_getDate.
  remember (setMonth hoje (getMonth hoje + 2)) as F.
  rewrite gerar_loop_spec; [| intros x Hx; apply (window_weekday hoje); lia | lia].
  rewrite Z2Nat.id by lia. simpl. do 3 f_equal. lia.
Qed.

Lemma seqZ_sorted z n : StronglySorted Z.lt (seqZ z n).
Proof.
  destruct (Z.le_gt_cases n 0) as [Hn|Hn]; [rewrite seqZ_nil by lia; constructor|].
  rewrite <- (Z2Nat.id n) by lia. generalize (Z.to_nat n) as k. clear.
  intros k. revert z. induction k as [|k IH]; intros z; [constructor|].
  rewrite Nat2Z.inj_succ, seqZ_cons, Z.pred_succ by lia. constructor; [apply IH|].
  apply List.Forall_forall. intros y Hy%list_elem_of_In%elem_of_seqZ. lia.
Qed.

(** ** Properties *)

(** C32: every date produced by [gerarDatasProximosDoisMeses] is the
    [DD/MM/YYYY] print of a business day (Monday to Friday) of the window
    from today+7 to two months and ten days ahead. *)
Theorem gerarDatas_business_days hoje s :
  100 <= getFullYear hoje -> hoje + 72 <= max_days ->
  In s (gerarDatasProximosDoisMeses hoje) ->
  exists dn, s = formatBR dn /\ hoje + 7 <= dn <= fimDe hoje /\ 1 <= getDay dn <= 5.
Proof.
  intros Hy Hm. rewrite gerarDatas_window by done.
  intros (dn & <- & Hin)%in_map_iff. exists dn. split; [done|].
  apply filter_In in Hin as [Hin Hb]. apply list_elem_of_In, elem_of_seqZ in Hin.
  unfold business, getDay in *. pose proof (Z.mod_pos_bound (dn + 4) 7).
  apply andb_prop in Hb as [H0 H6]. apply negb_true_iff, Z.eqb_neq in H0, H6. lia.
Qed.

(** C33: no business day of the window is missed. *)
Theorem gerarDatas_complete hoje dn :
  100 <= getFullYear hoje -> hoje + 72 <= max_days ->
  hoje + 7 <= dn <= fimDe hoje -> 1 <= getDay dn <= 5 ->
  In (formatBR dn) (gerarDatasProximosDoisMeses hoje).
Proof.
  intros Hy Hm Hdn Hd. rewrite gerarDatas_window by done.
  apply in_map, filter_In. split.
  - apply list_elem_of_In, elem_of_seqZ. lia.
  - unfold business. apply andb_true_intro. split; apply negb_true_iff, Z.eqb_neq; lia.
Qed.

(** C34: the dates come in strictly increasing order, hence without
    duplicates. *)
Theorem gerarDatas_sorted hoje :
  100 <= getFullYear hoje -> hoje + 72 <= max_days ->
  StronglySorted (fun a b => exists x y, parseBRDate a = Some x /\ parseBRDate b = Some y /\ x < y)
    (gerarDatasProximosDoisMeses hoje).
Proof.
  intros Hy Hm. rewrite gerarDatas_window by done.
  pose proof (fimDe_range hoje) as Hf.
  assert (Hp : forall x, In x (List.filter business (seqZ (hoje + 7) (fimDe hoje - hoje - 6))) ->
             parseBRDate (formatBR x) = Some x).
  { intros x Hx. apply filter_In in Hx as [Hx _]. apply list_elem_of_In, elem_of_seqZ in Hx.
    apply (window_parse hoje); lia. }
  assert (Hs : StronglySorted Z.lt (List.filter business (seqZ (hoje + 7) (fimDe hoje - hoje - 6))))
    by apply StronglySorted_filter, seqZ_sorted.
  revert Hp Hs. generalize (List.filter business (seqZ (hoje + 7) (fimDe hoje - hoje - 6))).
  intros l Hp Hs. induction Hs as [|x l Hs IH Hall]; simpl; constructor.
  - apply IH. intros y Hyl. apply Hp. right. exact Hyl.
  - apply List.Forall_forall. intros b (y & <- & Hyl)%in_map_iff.
    exists x, y. split; [apply Hp; left; done|]. split; [apply Hp; right; done|].
    exact (proj1 (List.Forall_forall _ _) Hall y Hyl).
Qed.

(** the last day of [gerarDatasProximosDoisMeses]' window lies 69
    to 72 days after today: two calendar months, with [setMonth]'s
    overflow into the next month, plus ten days. *)
Theorem fimDe_bounds hoje : hoje + 69 <= fimDe hoje <= hoje + 72.
Proof. exact (fimDe_range hoje). Qed.

(** C36: printing a date as [DD/MM/YYYY] and reading it back with
    [parseBRDate] gives the date, for years outside 0..99 and inside
    TimeClip. *)
Theorem parseBRDate_formatBR dn :
  (getFullYear dn < 0 \/ 100 <= getFullYear dn) -> Z.abs dn <= max_days ->
  parseBRDate (formatBR dn) = Some dn.
Proof. apply parseBRDate_formatBR_gen. Qed.

(** C39: a date whose year lies in 0..99 does not round-trip: [formatBR]
    prints the year without padding, [new Date(yy, ...)] reads a year in
    0..99 as [1900 + yy], so [parseBRDate] returns the same day and month
    of year [1900 + yy] (a 29 February of a leap year [yy] becomes 1 March
    when [1900 + yy] is not a leap year). *)
Theorem parseBRDate_two_digit_year dn :
  0 <= getFullYear dn <= 99 ->
  parseBRDate (formatBR dn) =
  Some (days_from_civil (1900 + getFullYear dn) (getMonth dn + 1) (getDate dn)).
Proof. apply parseBRDate_formatBR_1900. Qed.

(** C38: a string that is not a date is accepted as a weekday: [getDay()]
    of an invalid date is NaN, and NaN passes both [!== 0] and [!== 6]. *)
Theorem isWeekdayBR_invalid s :
  parseBRDate s = None -> isWeekdayBR s = true.
Proof. intros H. unfold isWeekdayBR. by rewrite H. Qed.

(** ** Witnesses *)

Definition hoje_2026_11_09 : Z := days_from_civil 2026 11 9.

Lemma gerarDatas_business_days_witness :
  exists dn, "16/11/2026"%string = formatBR dn /\
             hoje_2026_11_09 + 7 <= dn <= fimDe hoje_2026_11_09 /\ 1 <= getDay dn <= 5.
Proof.
  apply (gerarDatas_business_days hoje_2026_11_09); [vm_compute; discriminate | vm_compute; discriminate |].
  vm_compute. left. reflexivity.
Defined.

Lemma gerarDatas_complete_witness :
  In (formatBR (hoje_2026_11_09 + 8)) (gerarDatasProximosDoisMeses hoje_2026_11_09).
Proof.
  apply gerarDatas_complete; vm_compute; try discriminate; split; discriminate.
Defined.

Lemma gerarDatas_sorted_witness :
  StronglySorted (fun a b => exists x y, parseBRDate a = Some x /\ parseBRDate b = Some y /\ x < y)
    (gerarDatasProximosDoisMeses hoje_2026_11_09).
Proof. apply gerarDatas_sorted; vm_compute; discriminate. Defined.

Lemma parseBRDate_formatBR_witness :
  parseBRDate (formatBR hoje_2026_11_09) = Some hoje_2026_11_09.
Proof. apply parseBRDate_formatBR; [right | ]; vm_compute; discriminate. Defined.

Lemma parseBRDate_two_digit_year_witness :
  parseBRDate "05/03/50" = Some (days_from_civil 1950 3 5).
Proof.
  change "05/03/50"%string with (formatBR (days_from_civil 50 3 5)).
  apply (parseBRDate_two_digit_year (days_from_civil 50 3 5)). vm_compute. split; discriminate.
Defined.

Lemma isWeekdayBR_invalid_witness : isWeekdayBR "sem data" = true.
Proof. apply isWeekdayBR_invalid. vm_compute. reflexivity. Defined.

(** the date of the specification's end-to-end scenario, [05/03/2026],
    is a Thursday ([getDay] 4) and a business day for [isWeekdayBR]. *)
Remark spec_scenario_thursday :
  getDay (days_from_civil 2026 3 5) = 4 /\ parseBRDate "05/03/2026" = Some (days_from_civil 2026 3 5) /\
  isWeekdayBR "05/03/2026" = true.
Proof. vm_compute. auto. Qed.
