(* ===== verification/Session.v ===== *)
(** Session: the Playwright surface the scraper is written against.

    - [Locator]: the locators the code builds ([page.locator(css)],
      [getByTestId], [getByText], [.first()], [.nth(i)], [.filter]).
    - [Dom]: the part of the document that scripts passed to
      [page.evaluate] read, and [DomNode], the nodes they click.
    - [Page W]: the class of Playwright primitives over a page state [W];
      every primitive may throw ([exn]).  [evaluate] runs a page script.
    - [Rec]: the recording page, a universal instance: its state is the
      log of the calls made so far, and an [Oracle] answers each call from
      that history.  Every deterministic page is an oracle, so a theorem
      over all oracles holds for every page; and the log lets theorems
      state the exact sequence of calls an operation makes. *)

From Stdlib Require Import ZArith Lia String.
From stdpp Require Import base list option.
From S2P Require Import Prelude JsString.

Local Open Scope Z_scope.

(** ** Exceptions and locators *)

(** What a failed Playwright call throws. *)
Inductive exn : Type :=
| TimeoutError (what : string)
| TargetClosed
| OtherError (msg : string).

(** [filter({ hasText })]: a substring, or the anchored case-insensitive
    pattern [^\s*text\s*$] built by [clickMatOptionByText]. *)
Inductive TextPattern : Type :=
| HasText (s : string)
| RegexCI (source : string).                  (* new RegExp(source, 'i') *)

Inductive Locator : Type :=
| Css (sel : string)                          (* page.locator(sel) *)
| TestId (id : string)                        (* page.getByTestId(id) *)
| TextExact (s : string)                      (* page.getByText(s, { exact: true }) *)
| First (l : Locator)                         (* l.first() *)
| Nth (l : Locator) (i : nat)                 (* l.nth(i) *)
| Within (l : Locator) (sel : string)         (* l.locator(sel) *)
| Filter (l : Locator) (p : TextPattern).     (* l.filter({ hasText: p }) *)

Inductive WaitState : Type := Attached | Detached | Visible | Hidden.

(** The element predicates passed to [page.waitForFunction]:
    [el.getAttribute('aria-disabled') !== 'true'] and the same with
    [!el.hasAttribute('disabled')]. *)
Inductive ElemPred : Type := NotAriaDisabled | NotDisabled.

(** [click({ force, position, delay })] *)
Record ClickOpts : Type := mkClickOpts {
  force : bool;
  position : option (Z * Z);
  delay : option Z
}.

Definition noOpts : ClickOpts := mkClickOpts false None None.
Definition forceOpts : ClickOpts := mkClickOpts true None None.

(** ** The DOM read by page scripts *)

(** An element, with [innerText] and [textContent]. *)
Record Elem : Type := mkElem { innerText : string; textContent : string }.

(** An [ion-button] host with the [button] of its shadow root and the
    [button] of its light DOM, when they exist. *)
Record IonHost : Type := mkIonHost {
  hostElem : Elem;
  shadowButton : option Elem;
  lightButton : option Elem
}.

(** A [td.mat-calendar-body-cell]: its [aria-label] attribute, text,
    [.mat-calendar-body-disabled] class and inner [button] (with its
    [aria-label] attribute and text). *)
Record Cell : Type := mkCell {
  cellAria : option string;
  cellText : string;
  cellDisabled : bool;
  cellButton : option (option string * string)
}.

(** An [ion-list ion-item] of the result list: the text of its first
    [.sessao], [.palavrasRight] and [.JT-item-texto-negrito] elements (when
    present) and of every [.item-desc-small.item-text-wrap] element. *)
Record Item : Type := mkItem {
  itSessao : option string;
  itPalavrasRight : option string;
  itNegrito : option string;
  itDescs : list string
}.

Record Dom : Type := mkDom {
  querySelector : string -> option IonHost;   (* document.querySelector *)
  xpathNode : string -> option IonHost;       (* document.evaluate(xpath) *)
  calendar : option (list Cell);              (* mat-calendar and its cells *)
  items : list Item                           (* ion-list ion-item *)
}.

Inductive HostPart : Type := ShadowButton | LightButton | HostElement.
Inductive CellPart : Type := CellButtonPart | CellTdPart.

Definition emptyDom : Dom := mkDom (fun _ => None) (fun _ => None) None [].

(** A node a page script calls [.click()] on. *)
Inductive DomNode : Type :=
| IonNode (sel : string) (p : HostPart)
| CalendarCell (i : nat) (p : CellPart).

(** ** The primitives *)

Class Page (W : Type) := {
  pg_now : W -> Z;                                      (* Date.now() *)
  pg_waitForTimeout : Z -> ST exn W unit;               (* page.waitForTimeout(ms) *)
  pg_press : string -> ST exn W unit;                   (* page.keyboard.press(key) *)
  pg_isVisible : Locator -> Z -> ST exn W bool;         (* l.isVisible({timeout}) *)
  pg_click : Locator -> ClickOpts -> ST exn W unit;     (* l.click(opts) *)
  pg_waitFor : Locator -> WaitState -> Z -> ST exn W unit; (* l.waitFor({state, timeout}) *)
  pg_count : Locator -> ST exn W nat;                   (* l.count() *)
  pg_textContent : Locator -> ST exn W (option string); (* l.textContent() *)
  pg_innerText : Locator -> Z -> ST exn W string;       (* l.innerText({timeout}) *)
  pg_waitForLoadState : string -> ST exn W unit;        (* page.waitForLoadState(s) *)
  pg_waitForSelector : string -> Z -> ST exn W unit;    (* page.waitForSelector(s, {timeout}) *)
  pg_goto : string -> string -> Z -> ST exn W unit;     (* page.goto(url, {waitUntil, timeout}) *)
  pg_scrollIntoView : Locator -> ST exn W unit;         (* l.scrollIntoViewIfNeeded() *)
  pg_elementHandle : Locator -> ST exn W unit;          (* l.elementHandle() *)
  pg_waitForFunction : ElemPred -> Locator -> Z -> ST exn W unit;
                                    (* page.waitForFunction(pred, handle, {timeout}) *)
  pg_dom : ST exn W Dom;                                (* the DOM page.evaluate sees *)
  pg_domClick : DomNode -> W -> W                       (* node.click() in a page script *)
}.

(** [page.evaluate(script)]: the script reads the DOM, may click one
    node, and returns a value. *)
Definition evaluate {W A} `{Page W} (script : Dom -> A * option DomNode) : ST exn W A :=
  d <- pg_dom ;;
  let '(r, n) := script d in
  match n with
  | Some node => st_modify (pg_domClick node) ;; st_ret r
  | None => st_ret r
  end.

(** [Date.now()] *)
Definition dateNow {W} `{Page W} : ST exn W Z := fun w => (inr (pg_now w), w).

(** ** The recording page *)

(** One call to a primitive, with its arguments. *)
Inductive Call : Type :=
| CWait (ms : Z)
| CPress (key : string)
| CIsVisible (l : Locator) (timeout : Z)
| CClick (l : Locator) (o : ClickOpts)
| CWaitFor (l : Locator) (s : WaitState) (timeout : Z)
| CCount (l : Locator)
| CTextContent (l : Locator)
| CInnerText (l : Locator) (timeout : Z)
| CLoadState (s : string)
| CWaitForSelector (s : string) (timeout : Z)
| CGoto (url waitUntil : string) (timeout : Z)
| CScroll (l : Locator)
| CElementHandle (l : Locator)
| CWaitForFunction (p : ElemPred) (l : Locator) (timeout : Z)
| CEvaluate
| CDomClick (n : DomNode).

#[local] Instance string_eq_dec : EqDecision string := string_dec.
#[local] Instance Z_eq_dec : EqDecision Z := Z.eq_dec.

#[export] Instance TextPattern_eq_dec : EqDecision TextPattern.
Proof. solve_decision. Defined.
#[export] Instance Locator_eq_dec : EqDecision Locator.
Proof. solve_decision. Defined.
#[export] Instance WaitState_eq_dec : EqDecision WaitState.
Proof. solve_decision. Defined.
#[export] Instance ElemPred_eq_dec : EqDecision ElemPred.
Proof. solve_decision. Defined.
#[export] Instance ClickOpts_eq_dec : EqDecision ClickOpts.
Proof. solve_decision. Defined.
#[export] Instance HostPart_eq_dec : EqDecision HostPart.
Proof. solve_decision. Defined.
#[export] Instance CellPart_eq_dec : EqDecision CellPart.
Proof. solve_decision. Defined.
#[export] Instance DomNode_eq_dec : EqDecision DomNode.
Proof. solve_decision. Defined.
#[export] Instance Call_eq_dec : EqDecision Call.
Proof. solve_decision. Defined.

(** The remote session: the answer to each call, given the calls made
    before it. *)
Record Oracle : Type := mkOracle {
  o_now : list Call -> Z;
  o_unit : list Call -> Call -> option exn;
  o_bool : list Call -> Locator -> exn + bool;
  o_count : list Call -> Locator -> exn + nat;
  o_text : list Call -> Locator -> exn + option string;
  o_inner : list Call -> Locator -> Z -> exn + string;
  o_dom : list Call -> exn + Dom
}.

Record Rec : Type := mkRec { r_oracle : Oracle; r_log : list Call }.

Definition record (c : Call) (w : Rec) : Rec := mkRec (r_oracle w) (r_log w ++ [c]).

Definition rec_call {A} (c : Call) (ans : Oracle -> list Call -> exn + A) : ST exn Rec A :=
  fun w => (ans (r_oracle w) (r_log w), record c w).

Definition unit_ans (c : Call) (o : Oracle) (h : list Call) : exn + unit :=
  match o_unit o h c with Some e => inl e | None => inr tt end.

#[export] Instance RecPage : Page Rec := {
  pg_now w := o_now (r_oracle w) (r_log w);
  pg_waitForTimeout ms := rec_call (CWait ms) (unit_ans (CWait ms));
  pg_press k := rec_call (CPress k) (unit_ans (CPress k));
  pg_isVisible l t := rec_call (CIsVisible l t) (fun o h => o_bool o h l);
  pg_click l opts := rec_call (CClick l opts) (unit_ans (CClick l opts));
  pg_waitFor l s t := rec_call (CWaitFor l s t) (unit_ans (CWaitFor l s t));
  pg_count l := rec_call (CCount l) (fun o h => o_count o h l);
  pg_textContent l := rec_call (CTextContent l) (fun o h => o_text o h l);
  pg_innerText l t := rec_call (CInnerText l t) (fun o h => o_inner o h l t);
  pg_waitForLoadState s := rec_call (CLoadState s) (unit_ans (CLoadState s));
  pg_waitForSelector s t := rec_call (CWaitForSelector s t) (unit_ans (CWaitForSelector s t));
  pg_goto u s t := rec_call (CGoto u s t) (unit_ans (CGoto u s t));
  pg_scrollIntoView l := rec_call (CScroll l) (unit_ans (CScroll l));
  pg_elementHandle l := rec_call (CElementHandle l) (unit_ans (CElementHandle l));
  pg_waitForFunction p l t := rec_call (CWaitForFunction p l t) (unit_ans (CWaitForFunction p l t));
  pg_dom := rec_call CEvaluate (fun o h => o_dom o h);
  pg_domClick n w := record (CDomClick n) w
}.

Lemma record_oracle c w : r_oracle (record c w) = r_oracle w.
Proof. reflexivity. Qed.

Lemma record_log c w : r_log (record c w) = r_log w ++ [c].
Proof. reflexivity. Qed.

#[export] Hint Rewrite record_oracle record_log : pauta_rw.

(** Unfold an operation over the recording page down to the oracle's
    answers. *)
Ltac rec_unfold :=
  cbv beta iota zeta delta [st_catch st_default st_bind st_ret st_throw st_modify st_get
    rec_call unit_ans record pg_now pg_waitForTimeout pg_press pg_isVisible pg_click pg_waitFor
    pg_count pg_textContent pg_innerText pg_waitForLoadState pg_waitForSelector pg_goto
    pg_scrollIntoView pg_elementHandle pg_waitForFunction pg_dom pg_domClick RecPage r_log r_oracle].

(** Case analysis on the oracle's answers, in the order the calls are
    made, normalising the histories ([h ++ [a]] ++ [b] into h ++ [a; b]). *)
Ltac rec_cases :=
  repeat (rewrite <- ?app_assoc; cbn [app];
          match goal with
          | |- context [match o_unit ?o ?h ?c with _ => _ end] =>
              destruct (o_unit o h c); cbn [r_log r_oracle]
          | |- context [match o_bool ?o ?h ?l with _ => _ end] =>
              let b := fresh "b" in
              destruct (o_bool o h l) as [?|[|]]; cbn [r_log r_oracle]
          end);
  rewrite <- ?app_assoc; cbn [app]; try reflexivity.

(** What a successful page script did: it read a DOM and clicked the node
    it chose, if any. *)
Lemma evaluate_inv {W A} `{Page W} (script : Dom -> A * option DomNode) w r w' :
  evaluate script w = (inr r, w') ->
  exists d w1, pg_dom w = (inr d, w1) /\ r = fst (script d) /\
    w' = match snd (script d) with Some n => pg_domClick n w1 | None => w1 end.
Proof.
  intros Hrun. unfold evaluate in Hrun. st_inv Hrun. exists a. eexists. split; [exact E|].
  destruct (script a) as [x [n|]]; cbv [st_modify st_bind st_ret] in Hrun; cbn; by simplify_eq.
Qed.

(** A page script that clicks nothing returns its value on the DOM read. *)
Lemma evaluate_pure_inv {W A} `{Page W} (script : Dom -> A * option DomNode) w r w' :
  (forall d, snd (script d) = None) ->
  evaluate script w = (inr r, w') ->
  exists d, pg_dom w = (inr d, w') /\ r = fst (script d).
Proof.
  intros Hs Hrun. unfold evaluate in Hrun. st_inv Hrun.
  specialize (Hs a). destruct (script a) as [x n] eqn:Es. cbn in Hs. subst n.
  cbv [st_ret] in Hrun. simplify_eq. exists a. by rewrite Es.
Qed.
