(* ===== verification/Overlay.v ===== *)
(** Overlay Guard and Retry Envelope: [fecharOverlays] and
    [retryOperation] of src/PAUTA-JRT2.js (lines 853-877; the same code is
    at lines 77-101 in the calendar variant).

    [fecharOverlays] never throws: each step has its own [.catch], and an
    outer [try] swallows what is left ([waitForTimeout]).  Over the
    recording page its exact sequence of calls is stated.
    [retryOperation] runs [operation] at most [maxRetries] times, with
    the guard and a pause between attempts, and rethrows the last failure;
    with [maxRetries = 0] it returns [undefined] ([None]) without running
    the operation. *)

From Stdlib Require Import ZArith Lia String.
From stdpp Require Import base list.
From S2P Require Import Prelude JsString Session.

Local Open Scope Z_scope.

Section Guard.
Context {W : Type} `{Page W}.

Definition backdrop : Locator := Css ".cdk-overlay-backdrop".

(** [async function fecharOverlays(page)] *)
Definition fecharOverlays : ST exn W unit :=
  st_catch
    (st_default tt (pg_press "Escape") ;;
     pg_waitForTimeout 200 ;;
     vis <- st_default false (pg_isVisible backdrop 400) ;;
     (if vis then st_default tt (pg_click backdrop (mkClickOpts true (Some (5, 5)) None))
      else st_ret tt) ;;
     st_default tt (pg_waitFor backdrop Detached 1500))
    (fun _ => st_ret tt).

(** The loop [for (let attempt = 1; attempt <= maxRetries; attempt++)],
    with [k] iterations left. *)
Fixpoint retry_attempts {A} (operation : ST exn W A) (maxRetries : nat) (delayMs : Z)
         (attempt k : nat) : ST exn W (option A) :=
  match k with
  | O => st_ret None
  | S k' =>
      st_catch (a <- operation ;; st_ret (Some a))
        (fun err =>
           if Nat.eqb attempt maxRetries then st_throw err
           else fecharOverlays ;;
                pg_waitForTimeout delayMs ;;
                retry_attempts operation maxRetries delayMs (S attempt) k')
  end.

(** [async function retryOperation(page, operation, maxRetries = 5,
    delayMs = 1200)]; [None] is the [undefined] returned when the loop
    body never runs. *)
Definition retryOperation {A} (operation : ST exn W A) (maxRetries : nat) (delayMs : Z)
  : ST exn W (option A) :=
  retry_attempts operation maxRetries delayMs 1 maxRetries.

(** The guard never throws. *)
Lemma fecharOverlays_ok w : fst (fecharOverlays w) = inr tt.
Proof.
  unfold fecharOverlays, st_catch at 1.
  match goal with |- context [match ?c w with _ => _ end] => destruct (c w) as [[e|[]] w'] end;
    reflexivity.
Qed.

End Guard.

(** ** The retry loop: how often the operation runs *)

Section RetryCount.
Context {W : Type} `{Page W} {A : Type} (operation : ST exn W A) (delayMs : Z).

(** [Inv] is an invariant of the session (for the recording page: which
    oracle answers); [calls w] counts the runs of [operation] so far: each
    run adds one, the guard and the pause add none. *)
Variable Inv : W -> Prop.
Variable calls : W -> nat.
Hypothesis operation_inv : forall w, Inv w -> Inv (snd (operation w)).
Hypothesis guard_inv : forall w, Inv w -> Inv (snd (fecharOverlays w)).
Hypothesis wait_inv : forall ms w, Inv w -> Inv (snd (pg_waitForTimeout ms w)).
Hypothesis operation_calls : forall w, Inv w -> calls (snd (operation w)) = S (calls w).
Hypothesis guard_calls : forall w, Inv w -> calls (snd (fecharOverlays w)) = calls w.
Hypothesis wait_calls : forall ms w, Inv w -> calls (snd (pg_waitForTimeout ms w)) = calls w.

(** Running the guard and the pause between two attempts. *)
Lemma between_attempts w w1 :
  Inv w -> fecharOverlays w = (inr tt, w1) -> Inv w1 /\ calls w1 = calls w.
Proof.
  intros Hi E. pose proof (guard_inv w Hi) as Hg. pose proof (guard_calls w Hi) as Hc.
  rewrite E in Hg, Hc. split; assumption.
Qed.

Lemma retry_attempts_calls_le maxRetries attempt k w :
  Inv w ->
  (calls (snd (retry_attempts operation maxRetries delayMs attempt k w)) <= calls w + k)%nat.
Proof.
  revert attempt w. induction k as [|k IH]; intros attempt w Hi; simpl; [lia|].
  unfold st_catch, st_bind at 1.
  pose proof (operation_calls w Hi) as Hop. pose proof (operation_inv w Hi) as Hoi.
  destruct (operation w) as [[e|a] w1]; simpl in *; [|lia].
  destruct (Nat.eqb attempt maxRetries); simpl; [lia|].
  unfold st_bind. pose proof (fecharOverlays_ok w1) as Hg.
  destruct (fecharOverlays w1) as [r2 w2] eqn:E2. simpl in Hg. subst r2.
  destruct (between_attempts w1 w2 Hoi E2) as [Hi2 Hc2].
  pose proof (wait_calls delayMs w2 Hi2) as Hw. pose proof (wait_inv delayMs w2 Hi2) as Hwi.
  destruct (pg_waitForTimeout delayMs w2) as [[e''|[]] w3]; simpl in *; [lia|].
  specialize (IH (S attempt) w3 Hwi). lia.
Qed.

(** When every run fails and every pause succeeds, the loop runs the
    operation [k] times and rethrows the error of the last run. *)
Lemma retry_attempts_all_fail maxRetries attempt k w :
  (forall w, Inv w -> exists e w', operation w = (inl e, w')) ->
  (forall w, Inv w -> exists w', pg_waitForTimeout delayMs w = (inr tt, w')) ->
  maxRetries = (attempt + k - 1)%nat -> (1 <= k)%nat -> Inv w ->
  exists e w0 w', retry_attempts operation maxRetries delayMs attempt k w = (inl e, w') /\
                  operation w0 = (inl e, w') /\ calls w' = (calls w + k)%nat.
Proof.
  intros Hfail Hwait. revert attempt w. induction k as [|k IH]; intros attempt w Hmax Hk Hi; [lia|].
  cbn [retry_attempts]. unfold st_catch, st_bind at 1.
  destruct (Hfail w Hi) as (e & w1 & E1).
  pose proof (operation_calls w Hi) as Hop. pose proof (operation_inv w Hi) as Hoi.
  rewrite E1 in *. simpl in Hop, Hoi. destruct (Nat.eqb_spec attempt maxRetries) as [Heq|Hne].
  - assert (k = 0%nat) by lia. subst. exists e, w, w1. simpl. repeat split; [exact E1 | lia].
  - unfold st_bind. pose proof (fecharOverlays_ok w1) as Hg.
    destruct (fecharOverlays w1) as [r2 w2] eqn:E2. simpl in Hg. subst r2.
    destruct (between_attempts w1 w2 Hoi E2) as [Hi2 Hc2].
    destruct (Hwait w2 Hi2) as (w3 & E3).
    pose proof (wait_calls delayMs w2 Hi2) as Hwc. pose proof (wait_inv delayMs w2 Hi2) as Hwi.
    rewrite E3 in *. simpl in Hwc, Hwi.
    destruct (IH (S attempt) w3) as (e' & w0 & w' & R & Eop & Hc); [lia | lia | exact Hwi |].
    exists e', w0, w'. repeat split; [exact R | exact Eop | lia].
Qed.

(** [retryOperation] runs the operation at most [maxRetries] times. *)
Theorem retryOperation_at_most maxRetries w :
  Inv w ->
  (calls (snd (retryOperation operation maxRetries delayMs w)) <= calls w + maxRetries)%nat.
Proof. apply retry_attempts_calls_le. Qed.

(** C22: when every run fails and the pauses succeed, [retryOperation]
    runs the operation exactly [maxRetries] times and throws the error of
    the last run. *)
Theorem retryOperation_exhausted maxRetries w :
  (forall w, Inv w -> exists e w', operation w = (inl e, w')) ->
  (forall w, Inv w -> exists w', pg_waitForTimeout delayMs w = (inr tt, w')) ->
  (1 <= maxRetries)%nat -> Inv w ->
  exists e w0 w', retryOperation operation maxRetries delayMs w = (inl e, w') /\
                  operation w0 = (inl e, w') /\ calls w' = (calls w + maxRetries)%nat.
Proof. intros Hf Hw Hm Hi. apply retry_attempts_all_fail; auto. lia. Qed.

End RetryCount.

(** A first run that succeeds is returned at once. *)
Theorem retryOperation_first_success {W} `{Page W} {A} (operation : ST exn W A)
        maxRetries delayMs w a w' :
  operation w = (inr a, w') ->
  retryOperation operation (S maxRetries) delayMs w = (inr (Some a), w').
Proof. intros E. unfold retryOperation. cbn. unfold st_catch, st_bind. by rewrite E. Qed.

(** ** The guard over the recording page *)

(** C5: [fecharOverlays] never throws, and its calls are: press Escape,
    pause 200 ms, probe the backdrop (400 ms), click it at (5, 5) with
    [force] only when the probe answered "visible", then wait up to 1500 ms
    for it to detach.  A failed key press, probe, click or wait is
    swallowed and the next step still runs; only a failed pause (which
    has no [.catch] of its own) ends the guard early. *)
Theorem fecharOverlays_trace (o : Oracle) (h : list Call) :
  fecharOverlays (mkRec o h) =
  (inr tt, mkRec o (h ++ CPress "Escape" :: CWait 200 ::
     match o_unit o (h ++ [CPress "Escape"]) (CWait 200) with
     | Some _ => []
     | None =>
         CIsVisible backdrop 400 ::
         (match o_bool o (h ++ [CPress "Escape"; CWait 200]) backdrop with
          | inr true => [CClick backdrop (mkClickOpts true (Some (5, 5)) None)]
          | _ => []
          end) ++ [CWaitFor backdrop Detached 1500]
     end)).
Proof.
  unfold fecharOverlays. rec_unfold. rec_cases.
Qed.

(** ** Witnesses *)

(** A session in which every click times out and everything else
    succeeds, with no overlay on screen. *)
Definition clickFails : Oracle :=
  mkOracle (fun _ => 0)
    (fun _ c => match c with CClick _ _ => Some (TimeoutError "click") | _ => None end)
    (fun _ _ => inr false) (fun _ _ => inr 0%nat) (fun _ _ => inr None)
    (fun _ _ _ => inr ""%string) (fun _ => inr emptyDom).

Definition clickCount (h : list Call) : nat :=
  length (List.filter (fun c => match c with CClick _ _ => true | _ => false end) h).

Lemma clickCount_app h h' : clickCount (h ++ h') = (clickCount h + clickCount h')%nat.
Proof.
  unfold clickCount. induction h as [|c h IH]; [done|].
  destruct c; cbn [List.filter length app] in *; lia.
Qed.

Definition modulo_card : Locator := First (Css "ion-card-content.card-content-modulo").

Lemma clickFails_guard w :
  r_oracle w = clickFails ->
  r_oracle (snd (fecharOverlays w)) = clickFails /\
  clickCount (r_log (snd (fecharOverlays w))) = clickCount (r_log w).
Proof.
  destruct w as [o h]. cbn. intros ->. rewrite fecharOverlays_trace.
  split; [reflexivity|]. cbn [snd r_log]. rewrite clickCount_app. cbn. unfold clickCount. lia.
Qed.

Lemma retryOperation_at_most_witness :
  (clickCount (r_log (snd (retryOperation (pg_click modulo_card forceOpts) 5 1200
                                          (mkRec clickFails [])))) <= 0 + 5)%nat.
Proof.
  apply (retryOperation_at_most (pg_click modulo_card forceOpts) 1200
           (fun w => r_oracle w = clickFails) (fun w => clickCount (r_log w)));
    try reflexivity.
  - intros [o h] Hi. exact Hi.
  - intros w Hi. exact (proj1 (clickFails_guard w Hi)).
  - intros ms [o h] Hi. exact Hi.
  - intros [o h] _.
    change (r_log (snd (pg_click modulo_card forceOpts (mkRec o h))))
      with (h ++ [CClick modulo_card forceOpts]).
    rewrite clickCount_app. cbn. unfold clickCount. lia.
  - intros w Hi. exact (proj2 (clickFails_guard w Hi)).
  - intros ms [o h] _.
    change (r_log (snd (pg_waitForTimeout ms (mkRec o h)))) with (h ++ [CWait ms]).
    rewrite clickCount_app. cbn. unfold clickCount. lia.
Defined.

Lemma retryOperation_exhausted_witness :
  exists e w0 w', retryOperation (pg_click modulo_card forceOpts) 5 1200 (mkRec clickFails []) =
                  (inl e, w') /\ pg_click modulo_card forceOpts w0 = (inl e, w') /\
                  clickCount (r_log w') = (0 + 5)%nat.
Proof.
  apply (retryOperation_exhausted (pg_click modulo_card forceOpts) 1200
           (fun w => r_oracle w = clickFails) (fun w => clickCount (r_log w)));
    try reflexivity; try lia.
  - intros [o h] Hi. exact Hi.
  - intros w Hi. exact (proj1 (clickFails_guard w Hi)).
  - intros ms [o h] Hi. exact Hi.
  - intros [o h] _.
    change (r_log (snd (pg_click modulo_card forceOpts (mkRec o h))))
      with (h ++ [CClick modulo_card forceOpts]).
    rewrite clickCount_app. cbn. unfold clickCount. lia.
  - intros w Hi. exact (proj2 (clickFails_guard w Hi)).
  - intros ms [o h] _.
    change (r_log (snd (pg_waitForTimeout ms (mkRec o h)))) with (h ++ [CWait ms]).
    rewrite clickCount_app. cbn. unfold clickCount. lia.
  - intros [o h]. cbn. intros ->. eexists _, _. reflexivity.
  - intros [o h]. cbn. intros ->. eexists. reflexivity.
Defined.

Lemma retryOperation_first_success_witness :
  retryOperation (pg_press "Escape") 5 1200 (mkRec clickFails []) =
  (inr (Some tt), mkRec clickFails [CPress "Escape"]).
Proof. apply retryOperation_first_success. reflexivity. Defined.
