(* ===== verification/Stepper.v ===== *)
(** Stepper: variant B's date navigation without a calendar
    (src/PAUTA-JRT2.js lines 1052-1187): the selectors of the previous,
    next and date buttons, [extrairDataBR], the page scripts
    [clickIonButtonByCss], [readIonButtonTextByXpath] and [ionExistsByCss],
    [lerTextoDataExibida], the polling wait [esperarTextoMudar], the
    navigation loop [irAteDataPorBotoes] and its confirmation wrapper
    [selecionarDataComConfirmacao].

    [esperarTextoMudar] polls until [Date.now() - start >= timeoutMs]; it is
    modelled with fuel [esperar_fuel timeoutMs], and [esperar_loop_fuel]
    shows that on a page whose clock advances by at least the requested
    pause the fuel is never the reason the loop stops. *)

From Stdlib Require Import ZArith Lia Ascii String.
From stdpp Require Import base list.
From S2P Require Import Prelude JsString Dates Session Overlay.

Local Open Scope Z_scope.
Local Open Scope string_scope.

(** ** Selectors *)

Definition BTN_NEXT_CSS : string :=
  "#main-content > ng-component:nth-child(3) > ion-content > div > div > ion-grid > ion-row:nth-child(2) > ion-col:nth-child(3) > ion-button".
Definition BTN_PREV_CSS : string :=
  "#main-content > ng-component:nth-child(3) > ion-content > div > div > ion-grid > ion-row:nth-child(2) > ion-col:nth-child(1) > ion-button".

(** The double quote, which a Rocq string literal cannot hold alone. *)
Definition dquote : string := String (ascii_of_nat 34) EmptyString.

Definition BTN_DATE_DISPLAY_XPATH : string :=
  "//*[@id=" ++ dquote ++ "main-content" ++ dquote ++
  "]/ng-component[3]/ion-content/div/div/ion-grid/ion-row[2]/ion-col[2]/ion-button".

(** ** [extrairDataBR]: the regular expression [/\b\d{2}\/\d{2}\/\d{4}\b/] *)

(** [\w]: ASCII letters, digits and the underscore. *)
Definition is_word (c : ascii) : bool :=
  let n := nat_of_ascii c in
  (is_digit c || ((65 <=? n) && (n <=? 90)) || ((97 <=? n) && (n <=? 122)) || (n =? 95))%nat.

(** [\d{2}\/\d{2}\/\d{4}\b] at the start of [s]. *)
Definition date_at (s : string) : bool :=
  match s with
  | String d1 (String d2 (String s1 (String m1 (String m2 (String s2
      (String y1 (String y2 (String y3 (String y4 rest))))))))) =>
      is_digit d1 && is_digit d2 && Ascii.eqb s1 "/" && is_digit m1 && is_digit m2 &&
      Ascii.eqb s2 "/" && is_digit y1 && is_digit y2 && is_digit y3 && is_digit y4 &&
      match rest with EmptyString => true | String c _ => negb (is_word c) end
  | _ => false
  end.

(** The leftmost match: at each position, [\b] before a digit holds when
    the previous character is not a word character. *)
Fixpoint find_date (prev_word : bool) (s : string) : option string :=
  match s with
  | EmptyString => None
  | String c rest =>
      if negb prev_word && date_at s then Some (substring 0 10 s)
      else find_date (is_word c) rest
  end.

(** [const raw = String(texto ?? '').trim(); const m = raw.match(...);
     return m?.[0] ?? '';] *)
Definition extrairDataBR (texto : string) : string :=
  match find_date false (js_trim texto) with
  | Some m => m
  | None => ""
  end.

Section Stepper.
Context {W : Type} `{Page W}.

(** ** Page scripts *)

(** [host.shadowRoot?.querySelector('button') || host.querySelector?.('button')],
    and the node [(btn || host).click()] clicks. *)
Definition button_part (h : IonHost) : HostPart :=
  match shadowButton h with
  | Some _ => ShadowButton
  | None => match lightButton h with Some _ => LightButton | None => HostElement end
  end.

Definition button_of (h : IonHost) : option Elem :=
  match shadowButton h with Some b => Some b | None => lightButton h end.

(** [async function clickIonButtonByCss(page, cssSel)] *)
Definition clickIonButtonByCss (cssSel : string) : ST exn W bool :=
  st_default false
    (evaluate (fun d =>
       match querySelector d cssSel with
       | None => (false, None)
       | Some h => (true, Some (IonNode cssSel (button_part h)))
       end)).

(** [(btn?.innerText || btn?.textContent || node.innerText ||
      node.textContent || '').trim()] *)
Definition ion_text (h : IonHost) : string :=
  let bi := match button_of h with Some b => innerText b | None => "" end in
  let bt := match button_of h with Some b => textContent b | None => "" end in
  js_trim (js_or bi (js_or bt (js_or (innerText (hostElem h)) (textContent (hostElem h))))).

(** [async function readIonButtonTextByXpath(page, xpath)] *)
Definition readIonButtonTextByXpath (xpath : string) : ST exn W string :=
  st_default ""
    (evaluate (fun d =>
       match xpathNode d xpath with
       | None => ("", None)
       | Some h => (ion_text h, None)
       end)).

(** [async function ionExistsByCss(page, cssSel)] *)
Definition ionExistsByCss (cssSel : string) : ST exn W bool :=
  st_default false
    (evaluate (fun d => (match querySelector d cssSel with Some _ => true | None => false end, None))).

(** [async function lerTextoDataExibida(page)] *)
Definition lerTextoDataExibida : ST exn W string :=
  raw <- readIonButtonTextByXpath BTN_DATE_DISPLAY_XPATH ;;
  if js_truthy raw then st_ret raw
  else st_catch
         (t <- st_default "" (pg_innerText (TestId "pautaButtonData") 800) ;;
          if js_truthy t && js_truthy (js_trim t) then st_ret (js_trim t) else st_ret "")
         (fun _ => st_ret "").

(** ** [esperarTextoMudar]: poll the label until it changes *)

(** The [while (Date.now() - start < timeoutMs)] loop, with fuel; when the
    fuel runs out the model does what the code does after the loop. *)
Fixpoint esperar_loop (fuel : nat) (anterior : string) (start timeoutMs : Z) : ST exn W string :=
  match fuel with
  | O => lerTextoDataExibida
  | S fuel' =>
      now <- dateNow ;;
      if (now - start <? timeoutMs)%Z then
        atual <- lerTextoDataExibida ;;
        if js_truthy atual && negb (String.eqb atual anterior) then st_ret atual
        else pg_waitForTimeout 80 ;; esperar_loop fuel' anterior start timeoutMs
      else lerTextoDataExibida
  end.

(** One iteration per 80 ms pause fits in [timeoutMs], plus the last test. *)
Definition esperar_fuel (timeoutMs : Z) : nat := S (Z.to_nat (timeoutMs / 80)).

(** [async function esperarTextoMudar(page, anterior, timeoutMs = 2500)] *)
Definition esperarTextoMudar (anterior : string) (timeoutMs : Z) : ST exn W string :=
  start <- dateNow ;;
  esperar_loop (esperar_fuel timeoutMs) anterior start timeoutMs.

(** ** [irAteDataPorBotoes]: step towards the target date *)

(** [direction]: [+1] or [-1]. *)
Inductive Direction : Type := Fwd | Back.

(** [if (atualBR) { atualDate = parseBRDate(atualBR).getTime();
     if (hasPrev && atualDate > alvoDate) direction = -1; else direction = +1; }
     else direction = +1;] ([NaN > x] is false). *)
Definition escolherDirecao (hasPrev : bool) (alvoDate : option Z) (raw : string) : Direction :=
  let atualBR := extrairDataBR raw in
  if js_truthy atualBR then
    match parseBRDate atualBR, alvoDate with
    | Some a, Some t => if hasPrev && (t <? a)%Z then Back else Fwd
    | _, _ => Fwd
    end
  else Fwd.

Definition btn_of (d : Direction) : string :=
  match d with Back => BTN_PREV_CSS | Fwd => BTN_NEXT_CSS end.

(** The label shows the target: [raw && raw.includes(alvoBR)]. *)
Definition mostra (raw alvoBR : string) : bool := js_truthy raw && js_includes raw alvoBR.

(** The [for (let step = 1; step <= maxSteps; step++)] loop, [steps] the
    iterations left. *)
Fixpoint irAte_loop (alvoBR : string) (alvoDate : option Z) (hasPrev : bool)
    (steps : nat) : ST exn W bool :=
  match steps with
  | O => st_ret false
  | S steps' =>
      raw <- lerTextoDataExibida ;;
      if mostra raw alvoBR then st_ret true
      else
        let dir := escolherDirecao hasPrev alvoDate raw in
        let antes := js_or raw "" in
        clicked <- clickIonButtonByCss (btn_of dir) ;;
        if negb clicked then
          pg_waitForTimeout 150 ;; irAte_loop alvoBR alvoDate hasPrev steps'
        else
          depois <- esperarTextoMudar antes 2500 ;;
          if mostra depois alvoBR then st_ret true
          else pg_waitForTimeout 120 ;; irAte_loop alvoBR alvoDate hasPrev steps'
  end.

(** [async function irAteDataPorBotoes(page, alvoBR, maxSteps = 180)] *)
Definition irAteDataPorBotoes (alvoBR : string) (maxSteps : nat) : ST exn W bool :=
  fecharOverlays ;;
  let alvoDate := parseBRDate alvoBR in
  hasPrev <- ionExistsByCss BTN_PREV_CSS ;;
  hasNext <- ionExistsByCss BTN_NEXT_CSS ;;
  if negb hasNext && negb hasPrev then st_ret false
  else
    raw <- lerTextoDataExibida ;;
    if mostra raw alvoBR then st_ret true
    else irAte_loop alvoBR alvoDate hasPrev maxSteps.

(** ** [selecionarDataComConfirmacao] (variant B) *)

(** The [for (let t = 1; t <= maxTentativas; t++)] loop. *)
Fixpoint confirmacao_loop (dataBR : string) (tentativas : nat) : ST exn W bool :=
  match tentativas with
  | O => st_ret false
  | S t' =>
      _ <- lerTextoDataExibida ;;
      ok <- irAteDataPorBotoes dataBR 220 ;;
      _ <- lerTextoDataExibida ;;
      if ok then st_ret true
      else fecharOverlays ;; pg_waitForTimeout 600 ;; confirmacao_loop dataBR t'
  end.

(** [async function selecionarDataComConfirmacao(page, dataBR, maxTentativas = 3)] *)
Definition selecionarDataComConfirmacao (dataBR : string) (maxTentativas : nat) : ST exn W bool :=
  confirmacao_loop dataBR maxTentativas.

End Stepper.

(** ** What a [true] answer means *)

Section Found.
Context {W : Type} `{Page W}.

Lemma esperar_loop_read f ant start T w s w' :
  esperar_loop f ant start T w = (inr s, w') ->
  exists w0, lerTextoDataExibida w0 = (inr s, w').
Proof.
  revert w. induction f as [|f IH]; intros w Hrun; cbn [esperar_loop] in Hrun; [eauto|].
  st_inv Hrun. cbv [dateNow] in E. simplify_eq.
  destruct (_ <? _)%Z; [|eauto].
  st_inv Hrun. case_match.
  - cbv [st_ret] in Hrun. simplify_eq. eauto.
  - st_inv Hrun. eauto.
Qed.

Lemma esperarTextoMudar_read ant T w s w' :
  esperarTextoMudar ant T w = (inr s, w') ->
  exists w0, lerTextoDataExibida w0 = (inr s, w').
Proof.
  unfold esperarTextoMudar. intros Hrun. st_inv Hrun. eapply esperar_loop_read; eauto.
Qed.

Lemma irAte_loop_true alvoBR alvoDate hasPrev n w w' :
  irAte_loop alvoBR alvoDate hasPrev n w = (inr true, w') ->
  exists w0 s, lerTextoDataExibida w0 = (inr s, w') /\ mostra s alvoBR = true.
Proof.
  revert w. induction n as [|n IH]; intros w Hrun; cbn [irAte_loop] in Hrun.
  { cbv [st_ret] in Hrun. discriminate. }
  st_inv Hrun. destruct (mostra a alvoBR) eqn:Hm.
  { cbv [st_ret] in Hrun. simplify_eq. eauto. }
  st_inv Hrun. destruct (negb a0).
  - st_inv Hrun. eauto.
  - st_inv Hrun. destruct (mostra a1 alvoBR) eqn:Hm'.
    + cbv [st_ret] in Hrun. simplify_eq.
      destruct (esperarTextoMudar_read _ _ _ _ _ E1) as [wr Hwr]. eauto.
    + st_inv Hrun. eauto.
Qed.

End Found.

(** ** The clock: [esperarTextoMudar] stops by its deadline *)

Section Clock.
Context {W : Type} `{Page W}.

Lemma st_bind_dateNow {A} (k : Z -> ST exn W A) w : st_bind dateNow k w = k (pg_now w) w.
Proof. reflexivity. Qed.

Definition clock_le (w w' : W) : Prop := (pg_now w <= pg_now w')%Z.

#[local] Instance clock_le_preorder : PreOrder clock_le.
Proof. split; unfold clock_le; [intros ?; lia | intros ???; lia]. Qed.

(** The clock law of the page: reading the DOM, reading a text and a
    script's click never move the clock back, and a pause of [ms] that
    returns has waited [ms]. *)
Hypothesis dom_clock : st_rel clock_le pg_dom.
Hypothesis domClick_clock : forall n w, clock_le w (pg_domClick n w).
Hypothesis inner_clock : forall l t, st_rel clock_le (pg_innerText l t).
Hypothesis wait_clock : forall ms w w',
  pg_waitForTimeout ms w = (inr tt, w') -> (pg_now w + ms <= pg_now w')%Z.

Lemma evaluate_clock {A} (script : Dom -> A * option DomNode) :
  st_rel clock_le (evaluate script).
Proof. unfold evaluate. st_rel_solve; auto. Qed.

Lemma ler_clock : st_rel clock_le lerTextoDataExibida.
Proof.
  unfold lerTextoDataExibida, readIonButtonTextByXpath.
  st_rel_solve; auto using evaluate_clock.
Qed.

(** With [f] iterations left and at most [80 f] ms to the deadline, more
    fuel changes nothing: the loop leaves by its test. *)
Lemma esperar_loop_more f k ant start T w :
  (T - (pg_now w - start) <= 80 * Z.of_nat f)%Z ->
  esperar_loop (f + k) ant start T w = esperar_loop f ant start T w.
Proof.
  revert w. induction f as [|f IH]; intros w Hf.
  - destruct k as [|k]; [reflexivity|]. cbn [esperar_loop Nat.add].
    rewrite st_bind_dateNow.
    replace (pg_now w - start <? T)%Z with false by (symmetry; apply Z.ltb_ge; lia).
    reflexivity.
  - cbn [esperar_loop Nat.add]. rewrite !st_bind_dateNow.
    destruct (pg_now w - start <? T)%Z; [|reflexivity].
    pose proof (ler_clock w) as Hl. unfold clock_le in Hl.
    unfold st_bind. destruct (lerTextoDataExibida w) as [[e|s] w1]; [reflexivity|].
    simpl in Hl. case_match; [reflexivity|].
    destruct (pg_waitForTimeout 80 w1) as [[e|[]] w2] eqn:Hw; [reflexivity|].
    apply wait_clock in Hw. apply IH. lia.
Qed.

(** C4: [esperarTextoMudar] terminates by its clock test: on a page that
    keeps the clock law, running its polling loop with any amount of fuel
    beyond [esperar_fuel timeoutMs] gives the same run, so the loop leaves
    by [Date.now() - start >= timeoutMs] or by a changed label, never by
    running out of iterations. *)
Theorem esperarTextoMudar_fuel ant T k w :
  esperar_loop (esperar_fuel T + k) ant (pg_now w) T w = esperarTextoMudar ant T w.
Proof.
  unfold esperarTextoMudar. rewrite st_bind_dateNow.
  apply esperar_loop_more. unfold esperar_fuel.
  pose proof (Z.mod_pos_bound T 80). pose proof (Z.div_mod T 80).
  rewrite Nat2Z.inj_succ. destruct (Z.le_gt_cases 0 (T / 80)).
  - rewrite Z2Nat.id by lia. lia.
  - rewrite (Z2Nat.nonpos (T / 80)) by lia. lia.
Qed.

End Clock.

Section Safety.
Context {W : Type} `{Page W}.

(** C2: [irAteDataPorBotoes] answers [true] only when the last thing it
    did was read the date label and the text read contains [alvoBR]: the
    state it returns is the state right after that read. *)
Theorem irAteDataPorBotoes_true_shown alvoBR maxSteps w w' :
  irAteDataPorBotoes alvoBR maxSteps w = (inr true, w') ->
  exists w0 s, lerTextoDataExibida w0 = (inr s, w') /\ js_includes s alvoBR = true.
Proof.
  unfold irAteDataPorBotoes. intros Hrun.
  st_inv Hrun. st_inv Hrun. st_inv Hrun.
  destruct (negb a1 && negb a0); [cbv [st_ret] in Hrun; discriminate|].
  st_inv Hrun. destruct (mostra a2 alvoBR) eqn:Hm.
  - cbv [st_ret] in Hrun. simplify_eq. apply andb_prop in Hm as [_ Hm]. eauto.
  - destruct (irAte_loop_true _ _ _ _ _ _ Hrun) as (wr & s & Hr & Hs).
    apply andb_prop in Hs as [_ Hs]. eauto.
Qed.

End Safety.

(** ** The date label [prefixo + DD/MM/YYYY] *)

(** Day numbers whose year has four digits (1000 to 9999). *)
Definition in_4digit (dn : Z) : bool :=
  (days_from_civil 1000 1 1 <=? dn)%Z && (dn <? days_from_civil 10000 1 1)%Z.

(** A string of exactly [n] decimal digits. *)
Definition digits_n (n : nat) (s : string) : bool :=
  (String.length s =? n)%nat && str_forall is_digit s.

(** What the label may show before the date: no digit (so the only date
    token is the date), no white space at the start (so [trim] keeps it)
    and no word character at its end (so [\b] holds before the date). *)
Fixpoint last_word (b : bool) (p : string) : bool :=
  match p with EmptyString => b | String c r => last_word (is_word c) r end.

Definition starts_ws (p : string) : bool :=
  match p with EmptyString => false | String c _ => js_is_ws c end.

Definition prefix_ok (p : string) : bool :=
  str_forall (fun c => negb (is_digit c)) p && negb (starts_ws p) && negb (last_word false p).

Lemma days_from_civil_1000 : days_from_civil 1000 1 1 = (-354285)%Z.
Proof. reflexivity. Qed.

Lemma days_from_civil_10000 : days_from_civil 10000 1 1 = 2932897%Z.
Proof. reflexivity. Qed.

Lemma year_4digit dn :
  in_4digit dn = true -> (1000 <= getFullYear dn <= 9999)%Z /\ (Z.abs dn <= max_days)%Z.
Proof.
  unfold in_4digit, getFullYear. intros [H1 H2]%andb_prop.
  apply Z.leb_le in H1. apply Z.ltb_lt in H2.
  destruct (civil_from_days dn) as [[y m] d] eqn:E. simpl.
  destruct (civil_facts _ _ _ _ E) as (_ & _ & _ & Hy).
  split; [|unfold max_days; rewrite days_from_civil_1000 in H1;
           rewrite days_from_civil_10000 in H2; lia].
  split; apply Z.nlt_ge; intros Hlt.
  - pose proof (days_from_civil_jan1_mono (y + 1) 1000 ltac:(lia)). lia.
  - pose proof (days_from_civil_jan1_mono 10000 y ltac:(lia)). lia.
Qed.

Lemma pad2_digits_range :
  all_range 1 100 (fun k => digits_n 2 (js_padStart 2 "0" (js_String k))) = true.
Proof. vm_compute. reflexivity. Qed.

Lemma year_digits_range : all_range 1000 10000 (fun y => digits_n 4 (js_String y)) = true.
Proof. vm_compute. reflexivity. Qed.

Lemma digits_2 s : digits_n 2 s = true ->
  exists a b, s = String a (String b EmptyString) /\ is_digit a = true /\ is_digit b = true.
Proof.
  destruct s as [|a [|b [|c s]]]; cbn; try discriminate.
  rewrite !andb_true_r. intros [Ha Hb]%andb_prop. eauto.
Qed.

Lemma digits_4 s : digits_n 4 s = true ->
  exists a b c d, s = String a (String b (String c (String d EmptyString))) /\
    is_digit a = true /\ is_digit b = true /\ is_digit c = true /\ is_digit d = true.
Proof.
  destruct s as [|a [|b [|c [|d [|e s]]]]]; cbn; try discriminate.
  rewrite !andb_true_r. intros H.
  repeat match goal with H : _ && _ = true |- _ => apply andb_prop in H as [? ?] end.
  eauto 10.
Qed.

(** The printed date of a four-digit year: [DD/MM/YYYY], ten characters. *)
Lemma formatBR_shape dn :
  in_4digit dn = true ->
  exists d1 d2 m1 m2 y1 y2 y3 y4,
    formatBR dn = String d1 (String d2 (String "/" (String m1 (String m2 (String "/"
                    (String y1 (String y2 (String y3 (String y4 EmptyString))))))))) /\
    forallb is_digit [d1; d2; m1; m2; y1; y2; y3; y4] = true.
Proof.
  intros H4. destruct (year_4digit dn H4) as [Hy _].
  unfold formatBR, getFullYear, getMonth, getDate in *.
  destruct (civil_from_days dn) as [[y m] d] eqn:E. simpl in *.
  destruct (civil_facts _ _ _ _ E) as (_ & Hm & Hd & _).
  replace (m - 1 + 1)%Z with m by lia.
  destruct (digits_2 _ (all_range_spec _ _ _ pad2_digits_range d ltac:(lia)))
    as (d1 & d2 & -> & ? & ?).
  destruct (digits_2 _ (all_range_spec _ _ _ pad2_digits_range m ltac:(lia)))
    as (m1 & m2 & -> & ? & ?).
  destruct (digits_4 _ (all_range_spec _ _ _ year_digits_range y ltac:(lia)))
    as (y1 & y2 & y3 & y4 & -> & ? & ? & ? & ?).
  exists d1, d2, m1, m2, y1, y2, y3, y4. split; [reflexivity|].
  cbn [forallb].
  repeat match goal with H : is_digit _ = true |- _ => rewrite H; clear H end. reflexivity.
Qed.

Lemma date_at_nondigit c r : is_digit c = false -> date_at (String c r) = false.
Proof.
  intros Hc. unfold date_at.
  repeat match goal with |- context [match ?s with EmptyString => _ | String _ _ => _ end] =>
           destruct s end; rewrite ?Hc; reflexivity.
Qed.

(** The search for a date token walks past a digit-free prefix. *)
Lemma find_date_app b p x :
  str_forall (fun c => negb (is_digit c)) p = true ->
  find_date b (p ++ x) = find_date (last_word b p) x.
Proof.
  revert b. induction p as [|c p IH]; intros b; cbn [str_forall]; [done|].
  intros [Hc Hp]%andb_prop. cbn [append find_date last_word].
  rewrite date_at_nondigit by (destruct (is_digit c); done). rewrite andb_false_r.
  exact (IH _ Hp).
Qed.

Lemma formatBR_facts dn :
  in_4digit dn = true ->
  date_at (formatBR dn) = true /\ substring 0 10 (formatBR dn) = formatBR dn /\
  String.length (formatBR dn) = 10%nat /\
  (exists d r, formatBR dn = String d r /\ is_digit d = true) /\
  (exists f e, formatBR dn = (f ++ String e EmptyString) /\ js_is_ws e = false).
Proof.
  intros H4. destruct (formatBR_shape dn H4) as (d1 & d2 & m1 & m2 & y1 & y2 & y3 & y4 & -> & Hd).
  cbn [forallb] in Hd. rewrite !andb_true_iff in Hd.
  destruct Hd as (H1 & H2 & H3 & H4' & H5 & H6 & H7 & H8 & _).
  repeat split.
  - cbn [date_at]. rewrite H1, H2, H3, H4', H5, H6, H7, H8. reflexivity.
  - eauto.
  - exists (String d1 (String d2 (String "/" (String m1 (String m2 (String "/"
             (String y1 (String y2 (String y3 EmptyString))))))))), y4.
    split; [reflexivity | exact (digit_not_ws _ H8)].
Qed.

Lemma prefix_ok_facts p :
  prefix_ok p = true ->
  str_forall (fun c => negb (is_digit c)) p = true /\ starts_ws p = false /\
  last_word false p = false.
Proof.
  unfold prefix_ok. intros [[Hd Hs]%andb_prop Hw]%andb_prop.
  apply negb_true_iff in Hs, Hw. auto.
Qed.

(** [trim] keeps the label. *)
Lemma js_trim_label p dn :
  prefix_ok p = true -> in_4digit dn = true -> js_trim (p ++ formatBR dn) = (p ++ formatBR dn)%string.
Proof.
  intros Hp H4. destruct (prefix_ok_facts p Hp) as (_ & Hs & _).
  destruct (formatBR_facts dn H4) as (_ & _ & _ & (d & r & Hdr & Hdig) & (f & e & Hfe & He)).
  apply js_trim_fixed.
  - destruct p as [|c p]; cbn [append trim_start starts_ws] in *.
    + rewrite Hdr. cbn [trim_start]. rewrite (digit_not_ws d Hdig). reflexivity.
    + rewrite Hs. reflexivity.
  - rewrite Hfe, <- string_app_assoc, string_rev_snoc. cbn [trim_start]. rewrite He. reflexivity.
Qed.

(** [extrairDataBR] finds the date in the label. *)
Lemma extrairDataBR_label p dn :
  prefix_ok p = true -> in_4digit dn = true ->
  extrairDataBR (p ++ formatBR dn) = formatBR dn.
Proof.
  intros Hp H4. destruct (prefix_ok_facts p Hp) as (Hd & _ & Hw).
  destruct (formatBR_facts dn H4) as (Ha & Hsub & _ & (d & r & Hdr & Hdig) & _).
  unfold extrairDataBR. rewrite js_trim_label by assumption.
  rewrite find_date_app, Hw by exact Hd.
  rewrite Hdr. cbn [find_date negb andb]. rewrite <- Hdr, Ha, Hsub. reflexivity.
Qed.

Lemma formatBR_inj s t :
  in_4digit s = true -> in_4digit t = true -> formatBR s = formatBR t -> s = t.
Proof.
  intros Hs Ht E. destruct (year_4digit s Hs) as [Ys Cs]. destruct (year_4digit t Ht) as [Yt Ct].
  pose proof (parseBRDate_formatBR_gen s ltac:(lia) Cs) as Ps.
  pose proof (parseBRDate_formatBR_gen t ltac:(lia) Ct) as Pt.
  rewrite E in Ps. congruence.
Qed.

(** The label of [s] contains the printed date [t] exactly when [s = t]. *)
Lemma label_includes p s t :
  prefix_ok p = true -> in_4digit s = true -> in_4digit t = true ->
  js_includes (p ++ formatBR s) (formatBR t) = (s =? t)%Z.
Proof.
  intros Hp Hs Ht. destruct (Z.eqb_spec s t) as [<-|Hne].
  { apply js_includes_app_r, js_includes_refl. }
  apply not_true_is_false. intros H. apply Hne.
  destruct (prefix_ok_facts p Hp) as (Hd & _ & _).
  destruct (formatBR_facts s Hs) as (_ & _ & Ls & _ & _).
  destruct (formatBR_facts t Ht) as (_ & _ & Lt & (d & r & Hdr & Hdig) & _).
  rewrite Hdr, js_includes_skip in H.
  - rewrite <- Hdr in H. apply formatBR_inj; [done | done|].
    apply js_includes_same_length; [congruence | exact H].
  - revert Hd. apply str_forall_impl. intros c Hc.
    destruct (Ascii.eqb_spec c d) as [->|]; [rewrite Hdig in Hc; discriminate | reflexivity].
Qed.

(** Without a previous button the loop always steps forward, whatever the
    label shows: [hasPrev && atualDate > alvoDate] is false. *)
Lemma escolherDirecao_no_prev alvoDate raw : escolherDirecao false alvoDate raw = Fwd.
Proof.
  unfold escolherDirecao. destruct (js_truthy _); [|done].
  destruct (parseBRDate _), alvoDate; done.
Qed.
