(* ===== verification/SimStepper.v ===== *)
(** SimStepper: a concrete page for variant B's date stepper, and the
    end-to-end behaviour of [irAteDataPorBotoes] on it.

    The simulated page keeps a clock, the date the application has
    selected, the date its label shows, and the time at which a pending
    re-render will happen.  A click on the previous or next button moves the
    selected date by one day at once; the label shows the new date only
    [s_lag] ms later, and time passes only while the scraper waits
    ([page.waitForTimeout]), as the page renders only when the script
    yields.  The label is [s_prefix ++ DD/MM/YYYY].

    On this page, with both buttons present, a render latency of at most
    2480 ms (so the label changes inside [esperarTextoMudar]'s 2500 ms
    window) and enough steps, [irAteDataPorBotoes] reaches any target date
    with exactly [|target - current|] clicks, all in the target's direction
    ([irAteDataPorBotoes_converges]).  Without a previous button it walks
    forward away from an earlier target until its steps run out
    ([irAteDataPorBotoes_no_prev_drift]). *)

From Stdlib Require Import ZArith Lia Ascii String.
From stdpp Require Import base list.
From S2P Require Import Prelude JsString Dates Session Overlay Stepper.

Local Open Scope Z_scope.

Record Sim : Type := mkSim {
  s_clock : Z;                 (* Date.now() *)
  s_date : Z;                  (* the date the application has selected *)
  s_shown : Z;                 (* the date its label shows *)
  s_due : option Z;            (* when the pending re-render happens *)
  s_lag : Z;                   (* render latency after a click *)
  s_prefix : string;           (* the label's text before the date *)
  s_hasPrev : bool;            (* the previous-day button exists *)
  s_hasNext : bool;            (* the next-day button exists *)
  s_clicks : list Direction    (* the navigation clicks so far *)
}.

Definition label (w : Sim) : string := (s_prefix w ++ formatBR (s_shown w))%string.

(** The steady page at [clock] showing [d], with [extra] more clicks. *)
Definition sim_at (w : Sim) (clock d : Z) (extra : list Direction) : Sim :=
  mkSim clock d d None (s_lag w) (s_prefix w) (s_hasPrev w) (s_hasNext w) (s_clicks w ++ extra).

(** [page.waitForTimeout(ms)]: time passes, and a re-render falls due. *)
Definition sim_wait (ms : Z) (w : Sim) : Sim :=
  let c := s_clock w + ms in
  match s_due w with
  | Some t =>
      if t <=? c then sim_at w c (s_date w) []
      else mkSim c (s_date w) (s_shown w) (s_due w) (s_lag w) (s_prefix w)
                 (s_hasPrev w) (s_hasNext w) (s_clicks w)
  | None => mkSim c (s_date w) (s_shown w) None (s_lag w) (s_prefix w)
                  (s_hasPrev w) (s_hasNext w) (s_clicks w)
  end.

Definition step_date (d : Direction) (c : Z) : Z :=
  match d with Fwd => c + 1 | Back => c - 1 end.

(** A click on a navigation button. *)
Definition sim_click (d : Direction) (w : Sim) : Sim :=
  mkSim (s_clock w) (step_date d (s_date w)) (s_shown w) (Some (s_clock w + s_lag w))
        (s_lag w) (s_prefix w) (s_hasPrev w) (s_hasNext w) (s_clicks w ++ [d]).

Definition btnHost (txt : string) : IonHost :=
  mkIonHost (mkElem txt txt) (Some (mkElem txt txt)) None.

Definition sim_dom (w : Sim) : Dom :=
  mkDom (fun sel => if String.eqb sel BTN_NEXT_CSS then (if s_hasNext w then Some (btnHost "") else None)
                    else if String.eqb sel BTN_PREV_CSS then (if s_hasPrev w then Some (btnHost "") else None)
                    else None)
        (fun xp => if String.eqb xp BTN_DATE_DISPLAY_XPATH then Some (btnHost (label w)) else None)
        None [].

Definition sim_domClick (n : DomNode) (w : Sim) : Sim :=
  match n with
  | IonNode sel _ =>
      if String.eqb sel BTN_NEXT_CSS then sim_click Fwd w
      else if String.eqb sel BTN_PREV_CSS then sim_click Back w
      else w
  | CalendarCell _ _ => w
  end.

#[export] Instance SimPage : Page Sim := {
  pg_now := s_clock;
  pg_waitForTimeout ms w := (inr tt, sim_wait ms w);
  pg_press _ := st_ret tt;
  pg_isVisible _ _ := st_ret false;
  pg_click _ _ := st_ret tt;
  pg_waitFor _ _ _ := st_ret tt;
  pg_count _ := st_ret 0%nat;
  pg_textContent _ := st_ret None;
  pg_innerText _ _ w := (inr (label w), w);
  pg_waitForLoadState _ := st_ret tt;
  pg_waitForSelector _ _ := st_ret tt;
  pg_goto _ _ _ := st_ret tt;
  pg_scrollIntoView _ := st_ret tt;
  pg_elementHandle _ := st_ret tt;
  pg_waitForFunction _ _ _ := st_ret tt;
  pg_dom w := (inr (sim_dom w), w);
  pg_domClick := sim_domClick
}.

(** ** The primitives of the stepper on the simulated page *)

Lemma next_prev_differ : String.eqb BTN_PREV_CSS BTN_NEXT_CSS = false.
Proof. reflexivity. Qed.

Lemma sim_exists_next w : ionExistsByCss BTN_NEXT_CSS w = (inr (s_hasNext w), w).
Proof.
  unfold ionExistsByCss, evaluate, st_default, st_catch, st_bind, st_ret.
  cbn [pg_dom SimPage sim_dom querySelector]. rewrite String.eqb_refl.
  by destruct (s_hasNext w).
Qed.

Lemma sim_exists_prev w : ionExistsByCss BTN_PREV_CSS w = (inr (s_hasPrev w), w).
Proof.
  unfold ionExistsByCss, evaluate, st_default, st_catch, st_bind, st_ret.
  cbn [pg_dom SimPage sim_dom querySelector]. rewrite next_prev_differ, String.eqb_refl.
  by destruct (s_hasPrev w).
Qed.

(** The page is well formed: its prefix is a possible label prefix, and
    the dates it shows have four-digit years. *)
Definition sim_ok (w : Sim) : Prop :=
  prefix_ok (s_prefix w) = true /\ in_4digit (s_shown w) = true.

Lemma label_truthy p d : in_4digit d = true -> js_truthy (p ++ formatBR d) = true.
Proof.
  intros H4. destruct (formatBR_facts d H4) as (_ & _ & _ & (c & r & -> & _) & _).
  by destruct p.
Qed.

Lemma sim_ler w : sim_ok w -> lerTextoDataExibida w = (inr (label w), w).
Proof.
  intros [Hp H4].
  unfold lerTextoDataExibida, readIonButtonTextByXpath, evaluate, st_default, st_catch, st_bind, st_ret.
  cbn [pg_dom SimPage sim_dom xpathNode]. rewrite String.eqb_refl.
  assert (E : ion_text (btnHost (label w)) = label w).
  { unfold ion_text, btnHost, button_of, js_or, label. cbn [shadowButton innerText textContent].
    rewrite (label_truthy _ _ H4). by apply js_trim_label. }
  unfold label in E |- *. rewrite E, (label_truthy _ _ H4). reflexivity.
Qed.

Definition has_button (d : Direction) (w : Sim) : bool :=
  match d with Fwd => s_hasNext w | Back => s_hasPrev w end.

Lemma sim_click_btn d w :
  clickIonButtonByCss (btn_of d) w =
  if has_button d w then (inr true, sim_click d w) else (inr false, w).
Proof.
  destruct d; unfold clickIonButtonByCss, evaluate, st_default, st_catch, st_bind, st_ret, st_modify;
    cbn [pg_dom SimPage sim_dom querySelector btn_of has_button];
    rewrite ?next_prev_differ, String.eqb_refl;
    [destruct (s_hasNext w) | destruct (s_hasPrev w)]; cbn [pg_domClick SimPage sim_domClick];
    rewrite ?next_prev_differ, ?String.eqb_refl; reflexivity.
Qed.

Lemma sim_guard w : fecharOverlays w = (inr tt, sim_wait 200 w).
Proof. reflexivity. Qed.

Lemma sim_wait_at w k d x ms : sim_wait ms (sim_at w k d x) = sim_at w (k + ms) d x.
Proof. reflexivity. Qed.

Lemma string_app_inj_l (p a b : string) : (p ++ a)%string = (p ++ b)%string -> a = b.
Proof. induction p as [|c p IH]; simpl; [done|]. intros H. injection H. exact IH. Qed.

(** The labels of two different dates differ. *)
Lemma label_neq p a b :
  in_4digit a = true -> in_4digit b = true -> a <> b ->
  String.eqb (p ++ formatBR a) (p ++ formatBR b) = false.
Proof.
  intros Ha Hb Hne. apply String.eqb_neq. intros E.
  apply Hne, formatBR_inj; [done | done | exact (string_app_inj_l _ _ _ E)].
Qed.

(** After a click, [esperarTextoMudar]'s loop polls every 80 ms until the
    re-render, then returns the new label. *)
Lemma sim_esperar_loop m f start T w d :
  prefix_ok (s_prefix w) = true -> in_4digit (s_shown w) = true -> in_4digit (s_date w) = true ->
  s_date w <> s_shown w -> s_due w = Some d ->
  s_clock w < d <= s_clock w + 80 * Z.of_nat m ->
  s_clock w - start + 80 * Z.of_nat m < T -> (m < f)%nat ->
  exists k, esperar_loop f (label w) start T w =
            (inr (s_prefix w ++ formatBR (s_date w))%string, sim_at w k (s_date w) []).
Proof.
  revert w f. induction m as [|m IH]; intros w f Hp Hs Hd Hne Hdue Hwin HT Hf; [lia|].
  destruct f as [|f]; [lia|]. cbn [esperar_loop]. rewrite st_bind_dateNow. cbn [pg_now SimPage].
  rewrite (proj2 (Z.ltb_lt _ _)) by lia.
  unfold st_bind at 1. rewrite sim_ler by (split; assumption). cbv beta iota.
  rewrite String.eqb_refl, andb_false_r. unfold st_bind. cbn [pg_waitForTimeout SimPage].
  destruct (Z.leb_spec d (s_clock w + 80)) as [Hr|Hr].
  - destruct f as [|f]; [lia|].
    replace (sim_wait 80 w) with (sim_at w (s_clock w + 80) (s_date w) [])
      by (unfold sim_wait; rewrite Hdue, (proj2 (Z.leb_le _ _) Hr); reflexivity).
    cbn [esperar_loop]. rewrite st_bind_dateNow. cbn [pg_now SimPage sim_at s_clock].
    rewrite (proj2 (Z.ltb_lt _ _)) by lia.
    unfold st_bind. rewrite sim_ler by (split; assumption). cbv beta iota.
    unfold label. cbn [s_prefix s_shown sim_at].
    rewrite (label_truthy _ _ Hd), label_neq by assumption. eauto.
  - replace (sim_wait 80 w) with (mkSim (s_clock w + 80) (s_date w) (s_shown w) (Some d) (s_lag w)
                                    (s_prefix w) (s_hasPrev w) (s_hasNext w) (s_clicks w))
      by (unfold sim_wait; rewrite Hdue, (proj2 (Z.leb_gt _ _) Hr); reflexivity).
    refine (IH (mkSim (s_clock w + 80) (s_date w) (s_shown w) (Some d) (s_lag w)
                  (s_prefix w) (s_hasPrev w) (s_hasNext w) (s_clicks w)) f _ _ _ _ _ _ _ _);
      cbn [s_clock s_date s_shown s_due s_prefix]; auto; lia.
Qed.

(** After a click, [esperarTextoMudar(antes, 2500)] returns the label of
    the new date once it is rendered. *)
Lemma sim_esperar dir w :
  prefix_ok (s_prefix w) = true -> s_shown w = s_date w ->
  in_4digit (s_date w) = true -> in_4digit (step_date dir (s_date w)) = true ->
  1 <= s_lag w <= 2480 ->
  exists k, esperarTextoMudar (label w) 2500 (sim_click dir w) =
            (inr (s_prefix w ++ formatBR (step_date dir (s_date w)))%string,
             sim_at (sim_click dir w) k (step_date dir (s_date w)) []).
Proof.
  intros Hp Hsd Hc Hc' Hlag. unfold esperarTextoMudar. rewrite st_bind_dateNow.
  pose proof (Z.div_mod (s_lag w + 79) 80 ltac:(lia)) as Hdm.
  pose proof (Z.mod_pos_bound (s_lag w + 79) 80 ltac:(lia)) as Hmb.
  apply (sim_esperar_loop (Z.to_nat ((s_lag w + 79) / 80)) (esperar_fuel 2500) (s_clock w) 2500
           (sim_click dir w) (s_clock w + s_lag w));
    cbn [s_prefix s_shown s_date s_due s_clock sim_click]; rewrite ?Hsd; try done.
  - destruct dir; cbn [step_date]; lia.
  - rewrite Z2Nat.id by lia. lia.
  - rewrite Z2Nat.id by lia. lia.
  - unfold esperar_fuel. change (2500 / 80) with 31. apply Nat2Z.inj_lt. rewrite Z2Nat.id by lia.
    cbn. lia.
Qed.

(** The direction that leads from [c] to [t]. *)
Definition dir_to (c t : Z) : Direction := if t <? c then Back else Fwd.

Lemma sim_escolher p c t :
  prefix_ok p = true -> in_4digit c = true -> in_4digit t = true ->
  escolherDirecao true (Some t) (p ++ formatBR c) = dir_to c t.
Proof.
  intros Hp Hc Ht. unfold escolherDirecao. rewrite extrairDataBR_label by assumption.
  pose proof (label_truthy "" c Hc) as Tc. cbn [append] in Tc. rewrite Tc. destruct (year_4digit c Hc) as [Yc Cc].
  rewrite parseBRDate_formatBR_gen by lia. reflexivity.
Qed.

Lemma in_4digit_between a b x :
  in_4digit a = true -> in_4digit b = true -> (a <= x <= b \/ b <= x <= a) -> in_4digit x = true.
Proof.
  unfold in_4digit. rewrite !andb_true_iff, !Z.leb_le, !Z.ltb_lt. lia.
Qed.

(** One step towards [t] brings the date one day closer, in the same
    direction. *)
Lemma step_toward c t :
  c <> t ->
  Z.abs (t - step_date (dir_to c t) c) = Z.abs (t - c) - 1 /\
  (c <= step_date (dir_to c t) c <= t \/ t <= step_date (dir_to c t) c <= c) /\
  (step_date (dir_to c t) c <> t -> dir_to (step_date (dir_to c t) c) t = dir_to c t).
Proof.
  intros Hne. unfold dir_to. destruct (Z.ltb_spec t c); cbn [step_date].
  - split; [lia|]. split; [lia|]. intros. rewrite (proj2 (Z.ltb_lt _ _)) by lia. reflexivity.
  - split; [lia|]. split; [lia|]. intros. rewrite (proj2 (Z.ltb_ge _ _)) by lia. reflexivity.
Qed.

Lemma sim_at_click d w k c x : sim_at (sim_click d w) k c x = sim_at w k c (d :: x).
Proof. unfold sim_at. cbn. by rewrite <- app_assoc. Qed.

Lemma sim_at_at w k c x k' c' y : sim_at (sim_at w k c x) k' c' y = sim_at w k' c' (x ++ y).
Proof. unfold sim_at. cbn. by rewrite <- app_assoc. Qed.

Lemma s_date_sim_at w k c x : s_date (sim_at w k c x) = c.
Proof. reflexivity. Qed.

(** The page shows its selected date. *)
Definition steady (w : Sim) : Prop := s_shown w = s_date w.

(** One iteration of the navigation loop on a steady page: read, choose
    the direction, click, wait for the new label, and either stop on the
    target or pause 120 ms and go on. *)
Lemma sim_iter w t hp steps d :
  prefix_ok (s_prefix w) = true -> steady w -> 1 <= s_lag w <= 2480 ->
  in_4digit (s_date w) = true -> in_4digit t = true -> s_date w <> t ->
  escolherDirecao hp (Some t) (label w) = d -> has_button d w = true ->
  in_4digit (step_date d (s_date w)) = true ->
  exists k, irAte_loop (formatBR t) (Some t) hp (S steps) w =
    if step_date d (s_date w) =? t then (inr true, sim_at w k t [d])
    else irAte_loop (formatBR t) (Some t) hp steps (sim_at w k (step_date d (s_date w)) [d]).
Proof.
  intros Hp Hst Hlag Hc Ht Hne Hd Hb Hc'. unfold steady in Hst.
  cbn [irAte_loop]. unfold st_bind at 1. rewrite sim_ler by (split; [done | by rewrite Hst]).
  cbv beta iota. rewrite Hd.
  unfold mostra, label in *. rewrite Hst in *.
  rewrite (label_truthy _ _ Hc), label_includes, (proj2 (Z.eqb_neq _ _) Hne) by done.
  cbn [andb]. unfold js_or. rewrite (label_truthy _ _ Hc).
  unfold st_bind at 1. rewrite sim_click_btn, Hb. cbn [negb]. unfold st_bind at 1.
  destruct (sim_esperar d w Hp Hst Hc Hc' Hlag) as [k Hk]. unfold label in Hk. rewrite Hst in Hk.
  rewrite Hk. cbv iota beta.
  rewrite (label_truthy _ _ Hc'), label_includes by done. cbn [andb].
  exists (if step_date d (s_date w) =? t then k else k + 120).
  destruct (Z.eqb_spec (step_date d (s_date w)) t) as [->|_]; [by rewrite sim_at_click|].
  unfold st_bind. cbn [pg_waitForTimeout SimPage]. by rewrite sim_wait_at, sim_at_click.
Qed.

(** The navigation loop, from a steady page [n] days away from the
    target: it clicks [n] times towards the target and stops on it. *)
Lemma sim_irAte_loop n steps w t :
  prefix_ok (s_prefix w) = true -> steady w ->
  s_hasNext w = true -> s_hasPrev w = true -> 1 <= s_lag w <= 2480 ->
  in_4digit (s_date w) = true -> in_4digit t = true -> s_date w <> t ->
  Z.abs (t - s_date w) = Z.of_nat n -> (n <= steps)%nat ->
  exists k, irAte_loop (formatBR t) (Some t) true steps w =
            (inr true, sim_at w k t (repeat (dir_to (s_date w) t) n)).
Proof.
  revert w steps. induction n as [|n IH]; intros w steps Hp Hst Hn Hpv Hlag Hc Ht Hne Habs Hsteps; [lia|].
  destruct steps as [|steps]; [lia|].
  destruct (step_toward (s_date w) t Hne) as (Habs' & Hbetw & Hsame).
  assert (Hc' : in_4digit (step_date (dir_to (s_date w) t) (s_date w)) = true)
    by (apply (in_4digit_between (s_date w) t); auto).
  destruct (sim_iter w t true steps (dir_to (s_date w) t)) as [k ->]; try done.
  { unfold label. rewrite Hst. by apply sim_escolher. }
  { unfold dir_to. by destruct (t <? s_date w). }
  destruct (Z.eqb_spec (step_date (dir_to (s_date w) t) (s_date w)) t) as [Heq|Hne'].
  - assert (n = 0%nat) as -> by lia. exists k. reflexivity.
  - destruct (IH (sim_at w k (step_date (dir_to (s_date w) t) (s_date w)) [dir_to (s_date w) t]) steps)
      as [k' Hk']; rewrite ?s_date_sim_at; try done; try lia.
    rewrite s_date_sim_at, (Hsame Hne') in Hk'.
    rewrite Hk', sim_at_at. exists k'. reflexivity.
Qed.

Lemma sim_at_self w : steady w -> s_due w = None -> sim_at w (s_clock w) (s_date w) [] = w.
Proof.
  unfold steady, sim_at. intros Hst Hdue. destruct w; cbn in *. subst. by rewrite app_nil_r.
Qed.

Lemma sim_wait_steady w ms :
  steady w -> s_due w = None -> sim_wait ms w = sim_at w (s_clock w + ms) (s_date w) [].
Proof. intros Hst Hdue. rewrite <- (sim_at_self w Hst Hdue) at 1. apply sim_wait_at. Qed.

(** Without the previous button, from a date after the target, every
    iteration clicks forward, and the loop ends with [false] [n] days
    further on. *)
Lemma sim_drift_loop n w t :
  prefix_ok (s_prefix w) = true -> steady w -> s_due w = None ->
  s_hasNext w = true -> 1 <= s_lag w <= 2480 ->
  in_4digit t = true -> t < s_date w -> in_4digit (s_date w + Z.of_nat n) = true ->
  exists k, irAte_loop (formatBR t) (Some t) false n w =
            (inr false, sim_at w k (s_date w + Z.of_nat n) (repeat Fwd n)).
Proof.
  revert w. induction n as [|n IH]; intros w Hp Hst Hdue Hn Hlag Ht Hlt Hend.
  { exists (s_clock w). rewrite Z.add_0_r. cbn [repeat]. by rewrite sim_at_self. }
  assert (Hc : in_4digit (s_date w) = true) by (apply (in_4digit_between t (s_date w + Z.of_nat (S n))); auto; lia).
  assert (Hc' : in_4digit (step_date Fwd (s_date w)) = true)
    by (apply (in_4digit_between t (s_date w + Z.of_nat (S n))); cbn [step_date]; auto; lia).
  destruct (sim_iter w t false n Fwd) as [k ->]; try done; try lia.
  { apply escolherDirecao_no_prev. }
  cbn [step_date]. rewrite (proj2 (Z.eqb_neq _ _)) by lia.
  destruct (IH (sim_at w k (s_date w + 1) [Fwd])) as [k' Hk']; rewrite ?s_date_sim_at;
    try done; try lia.
  { replace (s_date w + 1 + Z.of_nat n) with (s_date w + Z.of_nat (S n)) by lia. exact Hend. }
  rewrite s_date_sim_at in Hk'. rewrite Hk', sim_at_at. exists k'.
  replace (s_date w + 1 + Z.of_nat n) with (s_date w + Z.of_nat (S n)) by lia. reflexivity.
Qed.

Lemma sim_at_hasPrev w k c x : s_hasPrev (sim_at w k c x) = s_hasPrev w.
Proof. reflexivity. Qed.
Lemma sim_at_hasNext w k c x : s_hasNext (sim_at w k c x) = s_hasNext w.
Proof. reflexivity. Qed.
Lemma sim_at_prefix w k c x : s_prefix (sim_at w k c x) = s_prefix w.
Proof. reflexivity. Qed.
Lemma sim_at_lag w k c x : s_lag (sim_at w k c x) = s_lag w.
Proof. reflexivity. Qed.
Lemma sim_at_shown w k c x : s_shown (sim_at w k c x) = c.
Proof. reflexivity. Qed.
Lemma sim_at_due w k c x : s_due (sim_at w k c x) = None.
Proof. reflexivity. Qed.

Create Rewrite HintDb sim_rw.
#[export] Hint Rewrite s_date_sim_at sim_at_hasPrev sim_at_hasNext sim_at_prefix sim_at_lag
  sim_at_shown sim_at_due : sim_rw.

(** What [irAteDataPorBotoes] does before its loop on a steady page: the
    overlay guard (a 200 ms pause), the two button probes and the first
    read. *)
Lemma sim_entry w t n :
  prefix_ok (s_prefix w) = true -> steady w -> s_due w = None ->
  in_4digit (s_date w) = true -> in_4digit t = true -> (s_hasNext w || s_hasPrev w) = true ->
  irAteDataPorBotoes (formatBR t) n w =
  if s_date w =? t then (inr true, sim_at w (s_clock w + 200) (s_date w) [])
  else irAte_loop (formatBR t) (Some t) (s_hasPrev w) n (sim_at w (s_clock w + 200) (s_date w) []).
Proof.
  intros Hp Hst Hdue Hc Ht Hb. unfold irAteDataPorBotoes.
  unfold st_bind at 1. rewrite sim_guard, sim_wait_steady by done. cbv beta iota zeta.
  destruct (year_4digit t Ht) as [Yt Ct]. rewrite parseBRDate_formatBR_gen by lia.
  unfold st_bind at 1. rewrite sim_exists_prev. cbv beta iota.
  unfold st_bind at 1. rewrite sim_exists_next. cbv beta iota. autorewrite with sim_rw.
  replace (negb (s_hasNext w) && negb (s_hasPrev w)) with false
    by (destruct (s_hasNext w), (s_hasPrev w); done).
  unfold st_bind at 1. rewrite sim_ler by (split; autorewrite with sim_rw; done). cbv beta iota.
  unfold mostra, label. autorewrite with sim_rw.
  rewrite (label_truthy _ _ Hc), label_includes by done. cbn [andb].
  by destruct (s_date w =? t).
Qed.

(** ** End to end *)

(** C1: on a page that renders a click within 2480 ms and has both
    buttons, [irAteDataPorBotoes] started [|t - c|] days away from the
    target [t], with at least that many steps, returns [true] with the
    page showing [t] after exactly [|t - c|] clicks, every one in the
    direction of [t]. *)
Theorem irAteDataPorBotoes_converges w t maxSteps :
  prefix_ok (s_prefix w) = true -> steady w -> s_due w = None ->
  s_hasNext w = true -> s_hasPrev w = true -> 1 <= s_lag w <= 2480 ->
  in_4digit (s_date w) = true -> in_4digit t = true ->
  Z.abs (t - s_date w) <= Z.of_nat maxSteps ->
  exists k, irAteDataPorBotoes (formatBR t) maxSteps w =
            (inr true, sim_at w k t (repeat (dir_to (s_date w) t) (Z.to_nat (Z.abs (t - s_date w))))).
Proof.
  intros Hp Hst Hdue Hn Hpv Hlag Hc Ht Hsteps.
  rewrite sim_entry by (rewrite ?Hn; done).
  destruct (Z.eqb_spec (s_date w) t) as [<-|Hne].
  { exists (s_clock w + 200). by rewrite Z.sub_diag. }
  destruct (sim_irAte_loop (Z.to_nat (Z.abs (t - s_date w))) maxSteps
              (sim_at w (s_clock w + 200) (s_date w) []) t) as [k Hk];
    autorewrite with sim_rw; try done; try lia.
  rewrite Hpv, Hk, sim_at_at. exists k. reflexivity.
Qed.

(** C3: without a previous button, [irAteDataPorBotoes] aimed at a date
    before the one shown clicks forward on every step: it returns [false]
    with the page [maxSteps] days further from the target than it
    started. *)
Theorem irAteDataPorBotoes_no_prev_drift w t maxSteps :
  prefix_ok (s_prefix w) = true -> steady w -> s_due w = None ->
  s_hasNext w = true -> s_hasPrev w = false -> 1 <= s_lag w <= 2480 ->
  in_4digit t = true -> t < s_date w -> in_4digit (s_date w + Z.of_nat maxSteps) = true ->
  exists k, irAteDataPorBotoes (formatBR t) maxSteps w =
            (inr false, sim_at w k (s_date w + Z.of_nat maxSteps) (repeat Fwd maxSteps)).
Proof.
  intros Hp Hst Hdue Hn Hpv Hlag Ht Hlt Hend.
  assert (Hc : in_4digit (s_date w) = true) by (apply (in_4digit_between t (s_date w + Z.of_nat maxSteps)); auto; lia).
  rewrite sim_entry by (rewrite ?Hn; done). rewrite (proj2 (Z.eqb_neq _ _)) by lia. rewrite Hpv.
  destruct (sim_drift_loop maxSteps (sim_at w (s_clock w + 200) (s_date w) []) t) as [k Hk];
    autorewrite with sim_rw; try done; try lia.
  rewrite Hk, sim_at_at. exists k. reflexivity.
Qed.

(** ** The scenario of the specification *)

(** The label reads [03/03/2026]; clicks render after 300 ms. *)
Definition sim_0303 : Sim :=
  mkSim 0 (days_from_civil 2026 3 3) (days_from_civil 2026 3 3) None 300 "" true true [].

(** The same page without its previous button, showing [05/03/2026]. *)
Definition sim_0503_no_prev : Sim :=
  mkSim 0 (days_from_civil 2026 3 5) (days_from_civil 2026 3 5) None 300 "" false true [].

(** the end-to-end scenario of the specification: aimed at
    [05/03/2026] from a label reading [03/03/2026], [irAteDataPorBotoes]
    clicks forward exactly twice and succeeds with the label reading
    [05/03/2026]. *)
Example irAteDataPorBotoes_spec_scenario :
  fst (irAteDataPorBotoes "05/03/2026" 220 sim_0303) = inr true /\
  s_clicks (snd (irAteDataPorBotoes "05/03/2026" 220 sim_0303)) = [Fwd; Fwd] /\
  label (snd (irAteDataPorBotoes "05/03/2026" 220 sim_0303)) = "05/03/2026"%string.
Proof. vm_compute. auto. Qed.

Lemma irAteDataPorBotoes_converges_witness :
  exists k, irAteDataPorBotoes (formatBR (days_from_civil 2026 3 5)) 220 sim_0303 =
    (inr true, sim_at sim_0303 k (days_from_civil 2026 3 5)
                 (repeat (dir_to (s_date sim_0303) (days_from_civil 2026 3 5))
                    (Z.to_nat (Z.abs (days_from_civil 2026 3 5 - s_date sim_0303))))).
Proof.
  apply irAteDataPorBotoes_converges;
    first [reflexivity | apply Z.leb_le; vm_compute; reflexivity
          | split; apply Z.leb_le; vm_compute; reflexivity].
Defined.

Lemma irAteDataPorBotoes_no_prev_drift_witness :
  exists k, irAteDataPorBotoes (formatBR (days_from_civil 2026 3 3)) 220 sim_0503_no_prev =
    (inr false, sim_at sim_0503_no_prev k (s_date sim_0503_no_prev + Z.of_nat 220) (repeat Fwd 220)).
Proof.
  apply irAteDataPorBotoes_no_prev_drift;
    first [reflexivity | apply Z.ltb_lt; vm_compute; reflexivity
          | split; apply Z.leb_le; vm_compute; reflexivity].
Defined.

Lemma irAteDataPorBotoes_true_shown_witness :
  exists w0 s, lerTextoDataExibida w0 = (inr s, snd (irAteDataPorBotoes "05/03/2026" 220 sim_0303)) /\
               js_includes s "05/03/2026" = true.
Proof.
  apply (irAteDataPorBotoes_true_shown "05/03/2026" 220 sim_0303).
  vm_compute. reflexivity.
Defined.

Lemma esperarTextoMudar_fuel_witness :
  esperar_loop (esperar_fuel 2500 + 5) "03/03/2026" (pg_now sim_0303) 2500 sim_0303 =
  esperarTextoMudar "03/03/2026" 2500 sim_0303.
Proof.
  apply esperarTextoMudar_fuel.
  - intros w. unfold clock_le. simpl. lia.
  - intros [] w; unfold clock_le; simpl; repeat case_match; simpl; lia.
  - intros l t w. unfold clock_le. simpl. lia.
  - intros ms w w' E. injection E as <-. unfold sim_wait. simpl. repeat case_match; simpl; lia.
Defined.
