(* ===== verification/Calendar.v ===== *)
(** Calendar: variant A's date selection through the mat-calendar grid
    (src/PAUTA-JRT2.js lines 231-382: [sameMonthYear],
    [getCalendarHeaderDateApprox], [navegarParaMes],
    [clicarDiaNoCalendario], [selecionarDataNoCalendario] and variant A's
    [selecionarDataComConfirmacao], here [selecionarDataComConfirmacaoA]).

    The header of the calendar is read, trimmed and lower-cased, and
    parsed into the first day of a month: the first [19xx]/[20xx] in it
    is the year, the first entry of the month table one of whose keys it
    contains is the month.  [navegarParaMes] compares month keys
    [12 * year + month] and clicks next or previous, at most [maxSteps]
    times; an unreadable header makes it click next blindly.  The day is
    clicked by a page script with three tiers: a cell whose [aria-label]
    holds the year and whose text is the day, a cell button with such a
    label, then any enabled cell whose text is the day.

    Theorems: every month name of the table, and every pt-BR or en-US
    label the calendar shows for a month (listed independently of the
    table), with a year of 1900-2099, is parsed into the first day of that
    month ([parse_header_month_names]); [navegarParaMes] reaches any month at
    distance below [maxSteps] on a calendar that shows its month, in
    exactly that many clicks ([navegarParaMes_converges]); the day script
    only clicks a cell that shows the day ([clicarDia_shows_day]); the
    confirmation answers [true] only when the date button reads the
    target exactly ([selecionarDataComConfirmacaoA_true_shown]); an
    absent date button makes it throw ([selecionarDataA_no_button]). *)

From Stdlib Require Import ZArith Lia Ascii String.
From stdpp Require Import base list.
From S2P Require Import Prelude JsString Dates Session Overlay.

Local Open Scope Z_scope.

(** ** The header *)

(** The month key [getFullYear() * 12 + getMonth()] of a date. *)
Definition month_key (d : Z) : Z := getFullYear d * 12 + getMonth d.

(** [function sameMonthYear(a, b)]; [b] is the target, [None] when
    [parseBRDate] gave an Invalid Date (whose fields are NaN). *)
Definition sameMonthYear (a : Z) (b : option Z) : bool :=
  match b with
  | Some b => (getFullYear a =? getFullYear b) && (getMonth a =? getMonth b)
  | None => false
  end.

(** [header.match(/(19|20)\d{2}/)] at the start of [s]. *)
Definition year_at (s : string) : option string :=
  match s with
  | String a (String b (String c (String d _))) =>
      if ((Ascii.eqb a "1" && Ascii.eqb b "9") || (Ascii.eqb a "2" && Ascii.eqb b "0"))%bool
         && is_digit c && is_digit d
      then Some (String a (String b (String c (String d EmptyString)))) else None
  | _ => None
  end.

(** The leftmost match, [mYear[0]]. *)
Fixpoint find_year (s : string) : option string :=
  match year_at s with
  | Some m => Some m
  | None => match s with EmptyString => None | String _ r => find_year r end
  end.

(** The [monthMap] table. *)
Definition monthMap : list (Z * list string) :=
  [(0, ["jan"; "janeiro"; "january"]);
   (1, ["fev"; "fevereiro"; "feb"; "february"]);
   (2, ["mar"; "março"; "marco"; "march"]);
   (3, ["abr"; "abril"; "apr"; "april"]);
   (4, ["mai"; "maio"; "may"]);
   (5, ["jun"; "junho"; "june"]);
   (6, ["jul"; "julho"; "july"]);
   (7, ["ago"; "agosto"; "aug"; "august"]);
   (8, ["set"; "setembro"; "sep"; "september"]);
   (9, ["out"; "outubro"; "oct"; "october"]);
   (10, ["nov"; "novembro"; "november"]);
   (11, ["dez"; "dezembro"; "dec"; "december"])]%string.

(** [monthMap.find(m => m.keys.some(k => header.includes(k)))] *)
Definition find_month (header : string) : option (Z * list string) :=
  List.find (fun '(_, keys) => existsb (js_includes header) keys) monthMap.

(** Lines 239-261 on the trimmed, lower-cased header: [new Date(year,
    found.idx, 1)], always a valid date since the year is 1900-2099.
    [Number] of the four digits matched never gives NaN. *)
Definition parse_header (header : string) : option Z :=
  match find_year header with
  | None => None
  | Some m =>
      match js_Number m, find_month header with
      | Some year, Some (idx, _) => Some (make_day year idx 1)
      | _, _ => None
      end
  end.

Definition periodBtn : Locator := First (Css "mat-calendar button.mat-calendar-period-button").
Definition nextBtn : Locator := First (Css "mat-calendar button.mat-calendar-next-button").
Definition prevBtn : Locator := First (Css "mat-calendar button.mat-calendar-previous-button").
Definition botaoData : Locator := TestId "pautaButtonData".

(** ** The day cell *)

(** [String(day)] and [String(year)] of the target ([NaN] when invalid). *)
Definition day_str (t : option Z) : string :=
  match t with Some d => js_String (getDate d) | None => "NaN"%string end.
Definition year_str (t : option Z) : string :=
  match t with Some d => js_String (getFullYear d) | None => "NaN"%string end.

(** [(btn || td).click()] *)
Definition btn_or_td (c : Cell) : CellPart :=
  match cellButton c with Some _ => CellButtonPart | None => CellTdPart end.

(** Tier 1: [td.mat-calendar-body-cell[aria-label]] whose label holds the
    year and whose text is the day. *)
Definition tier1 (day year : string) (c : Cell) : option CellPart :=
  match cellAria c with
  | Some aria => if js_includes (js_trim aria) year && String.eqb (js_trim (cellText c)) day
                 then Some (btn_or_td c) else None
  | None => None
  end.

(** Tier 2: a [button[aria-label]] of a cell, with the same test. *)
Definition tier2 (day year : string) (c : Cell) : option CellPart :=
  match cellButton c with
  | Some (Some aria, txt) => if js_includes (js_trim aria) year && String.eqb (js_trim txt) day
                             then Some CellButtonPart else None
  | _ => None
  end.

(** Tier 3: a cell without [.mat-calendar-body-disabled] whose text is
    the day. *)
Definition tier3 (day : string) (c : Cell) : option CellPart :=
  if negb (cellDisabled c) && String.eqb (js_trim (cellText c)) day then Some (btn_or_td c) else None.

(** The first cell, from index [i], that a tier accepts. *)
Fixpoint find_cell (p : Cell -> option CellPart) (cells : list Cell) (i : nat) : option DomNode :=
  match cells with
  | [] => None
  | c :: rest => match p c with
                 | Some part => Some (CalendarCell i part)
                 | None => find_cell p rest (S i)
                 end
  end.

(** The script of [clicarDiaNoCalendario]: [true] and the node it clicks. *)
Definition dia_script (t : option Z) (d : Dom) : bool * option DomNode :=
  match calendar d with
  | None => (false, None)
  | Some cells =>
      match find_cell (tier1 (day_str t) (year_str t)) cells 0 with
      | Some n => (true, Some n)
      | None =>
          match find_cell (tier2 (day_str t) (year_str t)) cells 0 with
          | Some n => (true, Some n)
          | None =>
              match find_cell (tier3 (day_str t)) cells 0 with
              | Some n => (true, Some n)
              | None => (false, None)
              end
          end
      end
  end.

Section Calendar.
Context {W : Type} `{Page W}.

(** [async function getCalendarHeaderDateApprox(page)] *)
Definition getCalendarHeaderDateApprox : ST exn W (option Z) :=
  t <- st_default (Some ""%string) (pg_textContent periodBtn) ;;
  st_ret (parse_header (js_toLowerCase (js_trim (match t with Some s => s | None => ""%string end)))).

(** [tgtKey > curKey]: false when the target is an Invalid Date. *)
Definition tgt_after (target : option Z) (curKey : Z) : bool :=
  match target with Some t => curKey <? month_key t | None => false end.

(** The loop [for (let i = 0; i < maxSteps; i++)], [k] iterations left. *)
Fixpoint nav_loop (target : option Z) (k : nat) : ST exn W bool :=
  match k with
  | O => st_ret false
  | S k' =>
      approx <- getCalendarHeaderDateApprox ;;
      match approx with
      | None =>
          st_default tt (pg_click nextBtn forceOpts) ;;
          pg_waitForTimeout 120 ;;
          nav_loop target k'
      | Some a =>
          if sameMonthYear a target then st_ret true
          else
            (if tgt_after target (month_key a) then pg_click nextBtn forceOpts
             else pg_click prevBtn forceOpts) ;;
            pg_waitForTimeout 120 ;;
            nav_loop target k'
      end
  end.

(** [async function navegarParaMes(page, targetDate, maxSteps = 36)] *)
Definition navegarParaMes (targetDate : option Z) (maxSteps : nat) : ST exn W bool :=
  nav_loop targetDate maxSteps.

(** [async function clicarDiaNoCalendario(page, targetDate)] *)
Definition clicarDiaNoCalendario (targetDate : option Z) : ST exn W bool :=
  evaluate (dia_script targetDate).

(** [async function selecionarDataNoCalendario(page, dataBR)] *)
Definition selecionarDataNoCalendario (dataBR : string) : ST exn W bool :=
  fecharOverlays ;;
  let targetDate := parseBRDate dataBR in
  pg_waitFor botaoData Visible 20000 ;;
  pg_click botaoData forceOpts ;;
  pg_waitForSelector "mat-calendar" 15000 ;;
  _ <- navegarParaMes targetDate 36 ;;
  okDia <- clicarDiaNoCalendario targetDate ;;
  pg_waitForTimeout 250 ;;
  fecharOverlays ;;
  st_ret okDia.

(** [page.getByTestId('pautaButtonData').innerText()] with Playwright's
    default timeout of 30 s. *)
Definition lerBotaoData : ST exn W string := st_default ""%string (pg_innerText botaoData 30000).

(** The loop [for (let t = 1; t <= maxTentativas; t++)], [k] tries left. *)
Fixpoint confirmacaoA_loop (dataBR : string) (k : nat) : ST exn W bool :=
  match k with
  | O => st_ret false
  | S k' =>
      okClique <- selecionarDataNoCalendario dataBR ;;
      if negb okClique then pg_waitForTimeout 500 ;; confirmacaoA_loop dataBR k'
      else
        dataVisivel <- lerBotaoData ;;
        if String.eqb (js_trim dataVisivel) dataBR then st_ret true
        else pg_waitForTimeout 700 ;; confirmacaoA_loop dataBR k'
  end.

(** Variant A's [async function selecionarDataComConfirmacao(page, dataBR,
    maxTentativas = 3)] *)
Definition selecionarDataComConfirmacaoA (dataBR : string) (maxTentativas : nat) : ST exn W bool :=
  confirmacaoA_loop dataBR maxTentativas.

End Calendar.

(** ** The header parser reads every month name *)

(** The check of one year: each key of each month, followed by the year. *)
Definition header_ok (y : Z) : bool :=
  forallb (fun '(idx, keys) =>
             forallb (fun k => match parse_header (k ++ " de " ++ js_String y)%string with
                               | Some d => d =? make_day y idx 1
                               | None => false
                               end) keys) monthMap.

Lemma header_ok_range : all_range 1900 (1900 + 200) header_ok = true.
Proof. vm_compute. reflexivity. Qed.

(** The labels the period button of a mat-calendar shows for the month
    [i] (0-based) of year [y], written independently of [monthMap]: the
    pt-BR long and short forms ([março de 2026], [mar. de 2026]), the
    long form in capitals as the page's CSS may render it, and the en-US
    long and short forms ([March 2026], [Mar 2026]), with surrounding
    spaces as [textContent] may return them. *)
Definition pt_long : list string :=
  ["janeiro"; "fevereiro"; "março"; "abril"; "maio"; "junho"; "julho"; "agosto";
   "setembro"; "outubro"; "novembro"; "dezembro"]%string.
Definition pt_upper : list string :=
  ["JANEIRO"; "FEVEREIRO"; "MARÇO"; "ABRIL"; "MAIO"; "JUNHO"; "JULHO"; "AGOSTO";
   "SETEMBRO"; "OUTUBRO"; "NOVEMBRO"; "DEZEMBRO"]%string.
Definition pt_short : list string :=
  ["jan."; "fev."; "mar."; "abr."; "mai."; "jun."; "jul."; "ago."; "set."; "out."; "nov."; "dez."]%string.
Definition en_long : list string :=
  ["January"; "February"; "March"; "April"; "May"; "June"; "July"; "August";
   "September"; "October"; "November"; "December"]%string.
Definition en_short : list string :=
  ["Jan"; "Feb"; "Mar"; "Apr"; "May"; "Jun"; "Jul"; "Aug"; "Sep"; "Oct"; "Nov"; "Dec"]%string.

Definition calendar_labels (i : nat) (y : Z) : list string :=
  let yr := js_String y in
  [nth i pt_long "" ++ " de " ++ yr; nth i pt_short "" ++ " de " ++ yr;
   nth i pt_upper "" ++ " DE " ++ yr; " " ++ nth i pt_long "" ++ " de " ++ yr ++ " ";
   nth i en_long "" ++ " " ++ yr; nth i en_short "" ++ " " ++ yr]%string.

(** The source's reading of a label: [.trim().toLowerCase()], then parse. *)
Definition labels_ok (y : Z) : bool :=
  forallb (fun i => forallb (fun l => match parse_header (js_toLowerCase (js_trim l)) with
                                     | Some d => d =? make_day y (Z.of_nat i) 1
                                     | None => false
                                     end) (calendar_labels i y)) (List.seq 0 12).

Lemma labels_ok_range : all_range 1900 (1900 + 200) labels_ok = true.
Proof. vm_compute. reflexivity. Qed.

(** C15: every key of [monthMap] followed by [de] and a year of 1900-2099
    is parsed into the first day of that month of that year; and every
    label the calendar shows for month [i] of such a year, in pt-BR or
    en-US, long or short, in capitals or with surrounding spaces, once
    trimmed and lower-cased as the source does, is parsed into the first
    day of month [i] of that year: the table gives each month its own
    position and no key of an earlier month matches a later month's
    label. *)
Theorem parse_header_month_names y :
  1900 <= y <= 2099 ->
  (forall idx keys k, In (idx, keys) monthMap -> In k keys ->
     parse_header (k ++ " de " ++ js_String y)%string = Some (make_day y idx 1)) /\
  (forall (i : nat) l, (i < 12)%nat -> In l (calendar_labels i y) ->
     parse_header (js_toLowerCase (js_trim l)) = Some (make_day y (Z.of_nat i) 1)).
Proof.
  intros Hy. split.
  - intros idx keys k Hm Hk. pose proof (all_range_spec _ _ _ header_ok_range y ltac:(lia)) as H.
    unfold header_ok in H. rewrite forallb_forall in H. specialize (H _ Hm). cbv beta iota in H.
    rewrite forallb_forall in H. specialize (H _ Hk).
    destruct (parse_header _); [|discriminate]. apply Z.eqb_eq in H. by subst.
  - intros i l Hi Hl. pose proof (all_range_spec _ _ _ labels_ok_range y ltac:(lia)) as H.
    unfold labels_ok in H. rewrite forallb_forall in H. specialize (H i ltac:(apply in_seq; lia)).
    rewrite forallb_forall in H. specialize (H _ Hl).
    destruct (parse_header _); [|discriminate]. apply Z.eqb_eq in H. by subst.
Qed.

(** ** Month keys *)

Definition month_key_ok (y : Z) : bool :=
  forallb (fun m => month_key (make_day y m 1) =? 12 * y + m) (List.map Z.of_nat (List.seq 0 12)).

Lemma month_key_ok_range : all_range 0 (0 + 400) month_key_ok = true.
Proof. vm_compute. reflexivity. Qed.

Lemma month_key_period z k : month_key (z + 146097 * k) = month_key z + 4800 * k.
Proof.
  unfold month_key, getFullYear, getMonth. rewrite civil_from_days_period.
  destruct (civil_from_days z) as [[y m] d]. cbn. lia.
Qed.

(** [new Date(y, m, 1)] has month key [12 y + m]. *)
Lemma month_key_make_day y m : 0 <= m < 12 -> month_key (make_day y m 1) = 12 * y + m.
Proof.
  revert m. apply (period_lift (fun y => forall m, 0 <= m < 12 -> month_key (make_day y m 1) = 12 * y + m)
                     month_key_ok 400 0); [lia | exact month_key_ok_range | |].
  - intros z Hz m Hm. unfold month_key_ok in Hz. rewrite forallb_forall in Hz.
    assert (Hin : In m (List.map Z.of_nat (List.seq 0 12))).
    { apply in_map_iff. exists (Z.to_nat m). split; [lia | apply in_seq; lia]. }
    apply Z.eqb_eq, Hz, Hin.
  - intros z k Hz m Hm. rewrite make_day_period, month_key_period, Hz by exact Hm. lia.
Qed.

Lemma getMonth_range d : 0 <= getMonth d <= 11.
Proof.
  unfold getMonth. destruct (civil_from_days d) as [[y m] dd] eqn:E.
  apply civil_facts in E. cbn. lia.
Qed.

(** Two dates are in the same month exactly when their keys agree. *)
Lemma sameMonthYear_key a t : sameMonthYear a (Some t) = (month_key a =? month_key t).
Proof.
  unfold sameMonthYear, month_key. pose proof (getMonth_range a). pose proof (getMonth_range t).
  destruct (Z.eqb_spec (getFullYear a) (getFullYear t)), (Z.eqb_spec (getMonth a) (getMonth t)),
    (Z.eqb_spec (getFullYear a * 12 + getMonth a) (getFullYear t * 12 + getMonth t)); cbn; lia.
Qed.

(** ** The day script clicks a cell that shows the day *)

(** The text of the cell, or of its button, is the day. *)
Definition shows_day (day : string) (c : Cell) : bool :=
  String.eqb (js_trim (cellText c)) day ||
  match cellButton c with Some (_, txt) => String.eqb (js_trim txt) day | None => false end.

Lemma find_cell_inv p cells i n :
  find_cell p cells i = Some n ->
  exists j c part, n = CalendarCell (i + j) part /\ nth_error cells j = Some c /\ p c = Some part.
Proof.
  revert i. induction cells as [|c cells IH]; intros i E; [discriminate|]. cbn [find_cell] in E.
  destruct (p c) as [part|] eqn:Ep.
  - injection E as <-. exists 0%nat, c, part. by rewrite Nat.add_0_r.
  - apply IH in E as (j & c' & part & -> & Hj & Hp). exists (S j), c', part.
    by rewrite Nat.add_succ_r.
Qed.

Lemma tiers_show_day day year c part :
  tier1 day year c = Some part \/ tier2 day year c = Some part \/ tier3 day c = Some part ->
  shows_day day c = true.
Proof.
  unfold tier1, tier2, tier3, shows_day. intros [H|[H|H]]; repeat case_match; simplify_eq;
    repeat match goal with H : (_ && _) = true |- _ => apply andb_prop in H as [? ?] end;
    rewrite ?orb_true_iff; auto.
Qed.

(** C14: when [clicarDiaNoCalendario] answers [true], its script read a
    calendar and clicked one of its cells, whose text (or its button's)
    is the target day: the year test of the first two tiers is dropped by
    the third, never the day test. *)
Theorem clicarDia_shows_day {W} `{Page W} t (w w' : W) :
  clicarDiaNoCalendario t w = (inr true, w') ->
  exists d w1 cells i c part, pg_dom w = (inr d, w1) /\ calendar d = Some cells /\
    nth_error cells i = Some c /\ shows_day (day_str t) c = true /\
    w' = pg_domClick (CalendarCell i part) w1.
Proof.
  intros Hrun. apply evaluate_inv in Hrun as (d & w1 & Ed & Hr & ->). unfold dia_script in *.
  destruct (calendar d) as [cells|] eqn:Ec; [|discriminate].
  destruct (find_cell (tier1 _ _) cells 0) as [n|] eqn:E1;
    [|destruct (find_cell (tier2 _ _) cells 0) as [n|] eqn:E2;
      [|destruct (find_cell (tier3 _) cells 0) as [n|] eqn:E3; [|discriminate]]];
    match goal with E : find_cell _ _ _ = Some n |- _ =>
      apply find_cell_inv in E as (j & c & part & -> & Hj & Hp) end;
    exists d, w1, cells, j, c, part; (split; [done|]); (split; [done|]); (split; [done|]);
    (split; [apply (tiers_show_day _ (year_str t) _ part); eauto|done]).
Qed.

(** ** The confirmation *)

Section Confirm.
Context {W : Type} `{Page W}.

(** C13: variant A's [selecionarDataComConfirmacao] answers [true] only when
    its last action was to read the date button and the text, trimmed,
    is the target exactly. *)
Theorem selecionarDataComConfirmacaoA_true_shown dataBR k (w w' : W) :
  selecionarDataComConfirmacaoA dataBR k w = (inr true, w') ->
  exists w0 v, lerBotaoData w0 = (inr v, w') /\ js_trim v = dataBR.
Proof.
  unfold selecionarDataComConfirmacaoA. revert w. induction k as [|k IH]; intros w Hrun;
    cbn [confirmacaoA_loop] in Hrun; [cbv [st_ret] in Hrun; discriminate|].
  st_inv Hrun. destruct a; cbn [negb] in Hrun.
  - st_inv Hrun. destruct (String.eqb_spec (js_trim a) dataBR) as [Heq|].
    + cbv [st_ret] in Hrun. simplify_eq. eauto.
    + st_inv Hrun. by apply IH in Hrun.
  - st_inv Hrun. by apply IH in Hrun.
Qed.

(** C11: when the date button [pautaButtonData] never becomes visible,
    variant A's [selecionarDataComConfirmacao] throws the wait's error on
    its first try instead of answering [false]: the picker trigger being
    absent is not tolerated. *)
Theorem selecionarDataA_no_button dataBR k e (w : W) :
  fst (pg_waitFor botaoData Visible 20000 (snd (fecharOverlays w))) = inl e ->
  fst (selecionarDataComConfirmacaoA dataBR (S k) w) = inl e.
Proof.
  intros Hb. unfold selecionarDataComConfirmacaoA. cbn [confirmacaoA_loop].
  apply st_bind_fst_inl. unfold selecionarDataNoCalendario.
  rewrite (st_bind_fst_inr _ _ _ tt (fecharOverlays_ok _)). cbv zeta.
  by apply st_bind_fst_inl.
Qed.

End Confirm.

(** ** Witnesses *)

(** A March 2026 grid with the 4th and the 5th, the 5th padded with spaces. *)
Definition cal_cells : list Cell :=
  [mkCell (Some "4 de março de 2026") "4" false (Some (None, "4"));
   mkCell (Some "5 de março de 2026") " 5 " false (Some (None, " 5 "))]%string.

Definition cal_dom : Dom := mkDom (fun _ => None) (fun _ => None) (Some cal_cells) [].

(** A page showing March 2026, whose date button reads the 5th, and on
    which [fail] says which calls throw. *)
Definition cal_oracle (fail : Call -> option exn) : Oracle :=
  mkOracle (fun _ => 0) (fun _ c => fail c) (fun _ _ => inr false) (fun _ _ => inr 0%nat)
           (fun _ _ => inr (Some "MARÇO DE 2026"%string)) (fun _ _ _ => inr " 05/03/2026 "%string)
           (fun _ => inr cal_dom).

Definition cal_ok : Oracle := cal_oracle (fun _ => None).
Definition sem_botao : Oracle :=
  cal_oracle (fun c => if bool_decide (c = CWaitFor botaoData Visible 20000)
                       then Some (TimeoutError "pautaButtonData") else None).

Lemma clicarDia_shows_day_witness :
  exists d w1 cells i c part, pg_dom (mkRec cal_ok []) = (inr d, w1) /\ calendar d = Some cells /\
    nth_error cells i = Some c /\ shows_day (day_str (parseBRDate "05/03/2026")) c = true /\
    snd (clicarDiaNoCalendario (parseBRDate "05/03/2026") (mkRec cal_ok [])) =
    pg_domClick (CalendarCell i part) w1.
Proof.
  apply (clicarDia_shows_day (parseBRDate "05/03/2026") (mkRec cal_ok [])).
  vm_compute. reflexivity.
Defined.

Lemma selecionarDataComConfirmacaoA_true_shown_witness :
  exists w0 v, lerBotaoData w0 = (inr v, snd (selecionarDataComConfirmacaoA "05/03/2026" 3 (mkRec cal_ok []))) /\
               js_trim v = "05/03/2026"%string.
Proof. apply (selecionarDataComConfirmacaoA_true_shown "05/03/2026" 3 (mkRec cal_ok [])). vm_compute. reflexivity. Defined.

Lemma selecionarDataA_no_button_witness :
  fst (selecionarDataComConfirmacaoA "05/03/2026" 3 (mkRec sem_botao [])) = inl (TimeoutError "pautaButtonData").
Proof. apply selecionarDataA_no_button. vm_compute. reflexivity. Defined.

Lemma parse_header_month_names_witness :
  parse_header ("março" ++ " de " ++ js_String 2026)%string = Some (make_day 2026 2 1) /\
  parse_header (js_toLowerCase (js_trim "MARÇO DE 2026")) = Some (make_day 2026 2 1).
Proof.
  destruct (parse_header_month_names 2026 ltac:(lia)) as [H1 H2]. split.
  - apply (H1 2 ["mar"; "março"; "marco"; "march"]%string).
    + cbn. right; right; left. reflexivity.
    + cbn. right; left. reflexivity.
  - apply (H2 2%nat). { lia. } cbn. right; right; left. reflexivity.
Defined.
