(* ===== verification/CalSim.v ===== *)
(** CalSim: a simulated mat-calendar on which variant A's month
    navigation is run.

    The page shows the month of key [cal_key] ([12 * year + month]) in
    its period button, as [<month name> de <year>]; the next and previous
    buttons move it by one month; every click is counted.  On it,
    [navegarParaMes] reaches a target month at distance below [maxSteps]
    with exactly that many clicks, all towards the target
    ([navegarParaMes_converges]). *)

From Stdlib Require Import ZArith Lia Ascii String.
From stdpp Require Import base list.
From S2P Require Import Prelude JsString Dates Session Overlay Calendar.

Local Open Scope Z_scope.

Record Cal : Type := mkCal { cal_key : Z; cal_clicks : nat }.

Definition month_names : list string :=
  ["janeiro"; "fevereiro"; "março"; "abril"; "maio"; "junho"; "julho"; "agosto";
   "setembro"; "outubro"; "novembro"; "dezembro"]%string.

(** The text of the period button. *)
Definition header_text (k : Z) : string :=
  (nth (Z.to_nat (k mod 12)) month_names "" ++ " de " ++ js_String (k / 12))%string.

#[export] Instance CalPage : Page Cal := {
  pg_now _ := 0;
  pg_waitForTimeout _ := st_ret tt;
  pg_press _ := st_ret tt;
  pg_isVisible _ _ := st_ret false;
  pg_click l _ w :=
    (inr tt, if bool_decide (l = nextBtn) then mkCal (cal_key w + 1) (S (cal_clicks w))
             else if bool_decide (l = prevBtn) then mkCal (cal_key w - 1) (S (cal_clicks w))
             else w);
  pg_waitFor _ _ _ := st_ret tt;
  pg_count _ := st_ret 0%nat;
  pg_textContent l w := (inr (if bool_decide (l = periodBtn) then Some (header_text (cal_key w)) else None), w);
  pg_innerText _ _ := st_ret ""%string;
  pg_waitForLoadState _ := st_ret tt;
  pg_waitForSelector _ _ := st_ret tt;
  pg_goto _ _ _ := st_ret tt;
  pg_scrollIntoView _ := st_ret tt;
  pg_elementHandle _ := st_ret tt;
  pg_waitForFunction _ _ _ := st_ret tt;
  pg_dom w := (inr emptyDom, w);
  pg_domClick _ w := w
}.

(** The header of every month of 1900-2099 is read back. *)
Definition header_sim_ok (y : Z) : bool :=
  forallb (fun m => match parse_header (js_toLowerCase (js_trim (header_text (12 * y + m)))) with
                    | Some d => d =? make_day y m 1
                    | None => false
                    end) (List.map Z.of_nat (List.seq 0 12)).

Lemma header_sim_ok_range : all_range 1900 (1900 + 200) header_sim_ok = true.
Proof. vm_compute. reflexivity. Qed.

Definition in_range (k : Z) : Prop := 1900 * 12 <= k < 2100 * 12.

Lemma cal_header k n :
  in_range k ->
  getCalendarHeaderDateApprox (mkCal k n) = (inr (Some (make_day (k / 12) (k mod 12) 1)), mkCal k n).
Proof.
  intros Hk. pose proof (Z.mod_pos_bound k 12 ltac:(lia)) as Hm. pose proof (Z.div_mod k 12 ltac:(lia)) as Hd.
  unfold getCalendarHeaderDateApprox, st_default, st_catch, st_bind, st_ret.
  cbn [pg_textContent CalPage cal_key]. rewrite bool_decide_true by reflexivity.
  pose proof (all_range_spec _ _ _ header_sim_ok_range (k / 12) ltac:(unfold in_range in Hk; lia)) as H.
  unfold header_sim_ok in H. rewrite forallb_forall in H.
  assert (Hin : In (k mod 12) (List.map Z.of_nat (List.seq 0 12))).
  { apply in_map_iff. exists (Z.to_nat (k mod 12)). split; [lia|]. apply in_seq. lia. }
  specialize (H _ Hin).
  replace (12 * (k / 12) + k mod 12) with k in H by lia.
  destruct (parse_header _); [|discriminate]. apply Z.eqb_eq in H. by subst.
Qed.

Lemma cal_next k n : pg_click nextBtn forceOpts (mkCal k n) = (inr tt, mkCal (k + 1) (S n)).
Proof. cbn. by rewrite bool_decide_true. Qed.

Lemma cal_prev k n : pg_click prevBtn forceOpts (mkCal k n) = (inr tt, mkCal (k - 1) (S n)).
Proof. cbn. rewrite bool_decide_false by discriminate. by rewrite bool_decide_true. Qed.

Lemma cal_key_make_day k : month_key (make_day (k / 12) (k mod 12) 1) = k.
Proof.
  pose proof (Z.mod_pos_bound k 12 ltac:(lia)). pose proof (Z.div_mod k 12 ltac:(lia)).
  rewrite month_key_make_day by lia. lia.
Qed.

(** One iteration of the loop: the key moves one step towards [T]. *)
Lemma nav_loop_step t k n f :
  in_range k -> k <> month_key t ->
  nav_loop (Some t) (S f) (mkCal k n) =
  nav_loop (Some t) f (mkCal (if k <? month_key t then k + 1 else k - 1) (S n)).
Proof.
  intros Hk Hne. cbn [nav_loop]. rewrite (st_bind_inr _ _ _ _ _ (cal_header k n Hk)).
  rewrite sameMonthYear_key, cal_key_make_day. destruct (Z.eqb_spec k (month_key t)); [done|].
  unfold tgt_after.
  destruct (k <? month_key t); [rewrite (st_bind_inr _ _ _ _ _ (cal_next k n)) | rewrite (st_bind_inr _ _ _ _ _ (cal_prev k n))];
    reflexivity.
Qed.

Lemma nav_loop_found t n f :
  in_range (month_key t) -> nav_loop (Some t) (S f) (mkCal (month_key t) n) = (inr true, mkCal (month_key t) n).
Proof.
  intros Hk. cbn [nav_loop]. rewrite (st_bind_inr _ _ _ _ _ (cal_header _ n Hk)).
  by rewrite sameMonthYear_key, cal_key_make_day, Z.eqb_refl.
Qed.

(** C12: on a calendar that shows its month in the header, [navegarParaMes]
    aimed at a month of 1900-2099 at distance [d] below [maxSteps] from the
    one shown returns [true] with that month shown, after exactly [d]
    clicks. *)
Theorem navegarParaMes_converges t k n maxSteps :
  in_range k -> in_range (month_key t) -> (Z.to_nat (Z.abs (month_key t - k)) < maxSteps)%nat ->
  navegarParaMes (Some t) maxSteps (mkCal k n) =
  (inr true, mkCal (month_key t) (n + Z.to_nat (Z.abs (month_key t - k)))).
Proof.
  unfold navegarParaMes. remember (Z.to_nat (Z.abs (month_key t - k))) as d eqn:Ed.
  revert k n maxSteps Ed. induction d as [|d IH]; intros k n maxSteps Ed Hk Ht Hd;
    (destruct maxSteps as [|f]; [lia|]).
  - replace k with (month_key t) by lia. rewrite Nat.add_0_r. by apply nav_loop_found.
  - rewrite nav_loop_step by (done || lia).
    rewrite (IH _ (S n) f); [f_equal; f_equal; lia | | | done | lia];
      destruct (Z.ltb_spec k (month_key t)); unfold in_range in *; lia.
Qed.

(** From January 2026 to 05/03/2026: two clicks forward. *)
Lemma navegarParaMes_converges_witness :
  navegarParaMes (Some (days_from_civil 2026 3 5)) 36 (mkCal (2026 * 12) 0) =
  (inr true, mkCal (month_key (days_from_civil 2026 3 5))
                   (0 + Z.to_nat (Z.abs (month_key (days_from_civil 2026 3 5) - 2026 * 12)))).
Proof.
  assert (E : month_key (days_from_civil 2026 3 5) = 2026 * 12 + 2) by (vm_compute; reflexivity).
  apply navegarParaMes_converges; unfold in_range; rewrite ?E; lia.
Defined.
