(* ===== verification/Stabilize.v ===== *)
(** Stabilize: [esperarPautaEstabilizar] (src/PAUTA-JRT2.js lines
    1193-1219; variant A's copy, lines 388-414, is the same code).

    The operation waits for the three loading indicators to hide, then
    polls the number of [ion-list ion-item] rows: it returns as soon as two
    counts taken 600 ms apart agree with the count of the previous
    iteration, and gives up silently after 20 iterations.

    Theorems: the pauses it requests add up to at most 16.4 s
    ([esperarPautaEstabilizar_sleep_bound]); on a list whose size no longer
    changes it returns after exactly three counts and two pauses
    ([estabilizar_stable_trace]). *)

From Stdlib Require Import ZArith Lia String.
From stdpp Require Import base list.
From S2P Require Import Prelude JsString Session.

Local Open Scope Z_scope.

Definition spinners : list Locator :=
  [First (Css "ion-spinner"); First (Css ".mat-mdc-progress-spinner");
   First (Css ".mat-mdc-progress-bar")].

Definition itens : Locator := Css "ion-list ion-item".

Section Stabilize.
Context {W : Type} `{Page W}.

(** [for (const sp of spinners) { if (await sp.isVisible({ timeout: 300 })
     .catch(() => false)) await sp.waitFor({ state: 'hidden', timeout: 15000 })
     .catch(() => {}); }] *)
Fixpoint esperar_spinners (sps : list Locator) : ST exn W unit :=
  match sps with
  | [] => st_ret tt
  | sp :: rest =>
      vis <- st_default false (pg_isVisible sp 300) ;;
      (if vis then st_default tt (pg_waitFor sp Hidden 15000) else st_ret tt) ;;
      esperar_spinners rest
  end.

(** [page.locator('ion-list ion-item').count().catch(() => 0)] *)
Definition contar : ST exn W nat := st_default 0%nat (pg_count itens).

(** The loop [for (let i = 0; i < 20; i++)], with [i] iterations left and
    the previous count [last] ([-1] at the start).  The inner [return] is
    the answer [true] of the test. *)
Fixpoint estabilizar_loop (i : nat) (last : Z) : ST exn W unit :=
  match i with
  | O => st_ret tt
  | S i' =>
      count <- contar ;;
      stop <- (if Z.of_nat count =? last then
                 pg_waitForTimeout 600 ;;
                 count2 <- contar ;;
                 st_ret (Nat.eqb count2 count)
               else st_ret false) ;;
      if stop then st_ret tt
      else pg_waitForTimeout 250 ;; estabilizar_loop i' (Z.of_nat count)
  end.

(** [async function esperarPautaEstabilizar(page)] *)
Definition esperarPautaEstabilizar : ST exn W unit :=
  esperar_spinners spinners ;; estabilizar_loop 20 (-1).

End Stabilize.

Lemma estabilizar_loop_S {W} `{Page W} i last :
  estabilizar_loop (S i) last =
  (count <- contar ;;
   stop <- (if Z.of_nat count =? last then
              pg_waitForTimeout 600 ;; count2 <- contar ;; st_ret (Nat.eqb count2 count)
            else st_ret false) ;;
   if stop then st_ret tt else pg_waitForTimeout 250 ;; estabilizar_loop i (Z.of_nat count)).
Proof. reflexivity. Qed.

(** ** The pauses add up to at most 16.4 s *)

Section Sleep.
Context {W : Type} `{Page W}.

(** [slept w]: the time the session has spent in [waitForTimeout]; a pause
    of [ms] adds at most [ms], the other calls of the operation add
    nothing. *)
Variable slept : W -> Z.
Hypothesis slept_wait : forall ms w r w', 0 <= ms ->
  pg_waitForTimeout ms w = (r, w') -> slept w' <= slept w + ms.
Hypothesis slept_count : forall l w r w', pg_count l w = (r, w') -> slept w' <= slept w.
Hypothesis slept_visible : forall l t w, slept (snd (pg_isVisible l t w)) <= slept w.
Hypothesis slept_waitFor : forall l s t w, slept (snd (pg_waitFor l s t w)) <= slept w.

Definition slept_ge (w w' : W) : Prop := slept w' <= slept w.

#[local] Instance slept_ge_preorder : PreOrder slept_ge.
Proof. split; unfold slept_ge; [intros ?; lia | intros ???; lia]. Qed.

Lemma spinners_sleep sps : st_rel slept_ge (esperar_spinners sps).
Proof.
  induction sps as [|sp sps IH]; cbn [esperar_spinners]; st_rel_solve; try exact IH;
    intros w; apply slept_visible || apply slept_waitFor.
Qed.

Lemma contar_sleep w c w' : contar w = (c, w') -> slept w' <= slept w.
Proof.
  unfold contar, st_default, st_catch, st_ret.
  destruct (pg_count itens w) as [r w1] eqn:E. apply slept_count in E.
  destruct r; intros Hc; simplify_eq; lia.
Qed.

(** Run the first computation of a goal [slept (snd (... w)) <= _] and
    record what it slept. *)
Ltac sleep_step :=
  rewrite ?st_bind_assoc; unfold st_bind at 1;
  match goal with
  | |- context [match contar ?w with _ => _ end] =>
      let E := fresh "E" in destruct (contar w) as [[?|?] ?] eqn:E; apply contar_sleep in E
  | |- context [match pg_waitForTimeout ?ms ?w with _ => _ end] =>
      let E := fresh "E" in destruct (pg_waitForTimeout ms w) as [[?|[]] ?] eqn:E;
      (apply slept_wait in E; [|lia])
  end; cbn [snd] in *.

Ltac loop_ih IH :=
  match goal with |- slept (snd (estabilizar_loop _ ?l ?w)) <= _ => specialize (IH l w) end; lia.

Lemma loop_sleep i last w :
  slept (snd (estabilizar_loop i last w)) <= slept w + 850 * Z.of_nat i.
Proof.
  revert last w. induction i as [|i IH]; intros last w; [cbn; lia|].
  rewrite estabilizar_loop_S. sleep_step; [lia|].
  destruct (_ =? last).
  - sleep_step; [lia|]. sleep_step; [lia|]. rewrite st_bind_ret_l. cbv beta.
    destruct (Nat.eqb _ _); cbv iota.
    + cbv [st_ret]. cbn [snd]. lia.
    + sleep_step; [lia|]. loop_ih IH.
  - rewrite st_bind_ret_l. cbv beta iota. sleep_step; [lia|]. loop_ih IH.
Qed.

(** On the first iteration no count equals [-1]: only the 250 ms pause. *)
Lemma loop_sleep_first i w :
  slept (snd (estabilizar_loop (S i) (-1) w)) <= slept w + 250 + 850 * Z.of_nat i.
Proof.
  rewrite estabilizar_loop_S. sleep_step; [lia|].
  replace (Z.of_nat n =? -1) with false by (symmetry; apply Z.eqb_neq; lia).
  rewrite st_bind_ret_l. cbv beta iota. sleep_step; [lia|].
  pose proof (loop_sleep i (Z.of_nat n) w1). lia.
Qed.

(** C26: the pauses [esperarPautaEstabilizar] requests add up to at most
    16.4 s: 250 ms in the first iteration, at most 600 + 250 ms in each of
    the 19 others; the spinner waits are timeouts, not pauses. *)
Theorem esperarPautaEstabilizar_sleep_bound w :
  slept (snd (esperarPautaEstabilizar w)) <= slept w + 16400.
Proof.
  unfold esperarPautaEstabilizar, st_bind.
  pose proof (spinners_sleep spinners w) as Hs. unfold slept_ge in Hs.
  destruct (esperar_spinners spinners w) as [[e|[]] w1]; cbn [snd] in *; [lia|].
  pose proof (loop_sleep_first 19 w1). lia.
Qed.

End Sleep.

(** ** On the recording page *)

(** The time spent in [waitForTimeout] by a session log. *)
Fixpoint waited (h : list Call) : Z :=
  match h with
  | [] => 0
  | CWait ms :: t => ms + waited t
  | _ :: t => waited t
  end.

Lemma waited_app h h' : waited (h ++ h') = waited h + waited h'.
Proof. induction h as [|c h IH]; [done|]. destruct c; cbn [app waited]; lia. Qed.

(** The row count the page answers, a failed count being read as 0. *)
Definition count_answer (o : Oracle) (h : list Call) : nat :=
  match o_count o h itens with inl _ => 0%nat | inr n => n end.

Lemma contar_rec o h :
  contar (mkRec o h) = (inr (count_answer o h), mkRec o (h ++ [CCount itens])).
Proof. unfold contar, count_answer, st_default, st_catch. cbn. by destruct (o_count o h itens). Qed.

Lemma wait_rec o h ms :
  o_unit o h (CWait ms) = None -> pg_waitForTimeout ms (mkRec o h) = (inr tt, mkRec o (h ++ [CWait ms])).
Proof. intros E. cbn. unfold rec_call, unit_ans, record. cbn. by rewrite E. Qed.

(** C18: on a page whose row count no longer changes (a count that fails
    reads as 0), the stabilisation loop returns after three counts and two
    pauses, 250 ms then 600 ms. *)
Theorem estabilizar_stable_trace o h n :
  (forall h', count_answer o h' = n) ->
  (forall h' ms, o_unit o h' (CWait ms) = None) ->
  estabilizar_loop 20 (-1) (mkRec o h) =
  (inr tt, mkRec o (h ++ [CCount itens; CWait 250; CCount itens; CWait 600; CCount itens])).
Proof.
  intros Hc Hw. rewrite estabilizar_loop_S.
  erewrite st_bind_inr by apply contar_rec. rewrite Hc.
  replace (Z.of_nat n =? -1) with false by (symmetry; apply Z.eqb_neq; lia).
  rewrite st_bind_ret_l. cbv beta iota.
  erewrite st_bind_inr by apply wait_rec, Hw. rewrite estabilizar_loop_S.
  erewrite st_bind_inr by apply contar_rec. rewrite Hc, Z.eqb_refl, st_bind_assoc.
  erewrite st_bind_inr by apply wait_rec, Hw. rewrite st_bind_assoc.
  erewrite st_bind_inr by apply contar_rec. rewrite Hc, Nat.eqb_refl, !st_bind_ret_l.
  cbv [st_ret]. by rewrite <- !app_assoc.
Qed.

(** ** Witnesses *)

(** A page whose every call succeeds and whose list has [n] rows. *)
Definition stable_oracle (n : nat) : Oracle :=
  mkOracle (fun _ => 0) (fun _ _ => None) (fun _ _ => inr false) (fun _ _ => inr n)
           (fun _ _ => inr None) (fun _ _ _ => inr ""%string) (fun _ => inr emptyDom).

(** A page on which counting the rows fails every time. *)
Definition count_fails_oracle : Oracle :=
  mkOracle (fun _ => 0) (fun _ _ => None) (fun _ _ => inr false)
           (fun _ _ => inl (TimeoutError "ion-list ion-item"))
           (fun _ _ => inr None) (fun _ _ _ => inr ""%string) (fun _ => inr emptyDom).

Lemma estabilizar_stable_trace_witness :
  estabilizar_loop 20 (-1) (mkRec count_fails_oracle []) =
  (inr tt, mkRec count_fails_oracle ([] ++ [CCount itens; CWait 250; CCount itens; CWait 600; CCount itens])).
Proof. apply (estabilizar_stable_trace count_fails_oracle [] 0); reflexivity. Defined.

Lemma esperarPautaEstabilizar_sleep_bound_witness :
  waited (r_log (snd (esperarPautaEstabilizar (mkRec (stable_oracle 7) [])))) <=
  waited (r_log (mkRec (stable_oracle 7) [])) + 16400.
Proof.
  apply (esperarPautaEstabilizar_sleep_bound (fun w => waited (r_log w))).
  - intros ms w r w' Hms E. injection E as <- <-. cbn. rewrite waited_app. cbn. lia.
  - intros l w r w' E. injection E as <- <-. cbn. rewrite waited_app. cbn. lia.
  - intros l t w. cbn. rewrite waited_app. cbn. lia.
  - intros l s t w. cbn. rewrite waited_app. cbn. lia.
Defined.
