(* ===== verification/Extract.v ===== *)
(** Extract: [extrairProcessosDaPauta] (src/PAUTA-JRT2.js lines
    1225-1256; variant A's copy, lines 420-451, is the same code).

    The operation counts the [ion-list ion-item] rows (a failed count reads
    as 0), returns [[]] when there are none, and otherwise runs one page
    script that maps every row to a record: the process number, the session
    label [hora - status], and the first three non-empty descriptions as
    judge, claimant and respondent.  Every text is read as
    [textContent.replace(/\u00a0/g, ' ').trim()].

    Theorems: one record per row, in the rows' order
    ([extrair_one_per_row]); every field is trimmed and free of no-break
    spaces ([extrair_fields_clean]); the session label is the non-empty
    parts joined by [" - "] ([sessao_cases]); a failed count yields [[]]
    without reading the page ([extrair_count_fails]); a blank description
    line is dropped before the parties are read by position
    ([mapItem_blank_description_shifts]). *)

From Stdlib Require Import ZArith Lia Ascii String.
From stdpp Require Import base list.
From S2P Require Import Prelude JsString Session Stabilize.

Local Open Scope string_scope.

(** The object each row is mapped to. *)
Record Processo : Type := mkProcesso {
  numeroProcesso : string;
  sessao : string;
  juiz : string;
  reclamante : string;
  reclamada : string
}.

(** [s.replace(/\u00a0/g, ' ')] *)
Fixpoint replace_nbsp (s : string) : string :=
  match s with
  | EmptyString => EmptyString
  | String c r => String (if Ascii.eqb c nbsp then " "%char else c) (replace_nbsp r)
  end.

(** [e.textContent.replace(/\u00a0/g, ' ').trim()] *)
Definition limpa (t : string) : string := js_trim (replace_nbsp t).

(** [getText(sel)]: the cleaned text of the first match, or [''] *)
Definition getText (el : option string) : string :=
  match el with Some t => limpa t | None => "" end.

(** The mapping of one [ion-item]. *)
Definition mapItem (item : Item) : Processo :=
  let hora := getText (itSessao item) in
  let status := getText (itPalavrasRight item) in
  let numero := getText (itNegrito item) in
  let partes := List.filter js_truthy (List.map limpa (itDescs item)) in
  mkProcesso numero
    (js_join " - " (List.filter js_truthy [hora; status]))
    (js_or (nth 0 partes "") "")
    (js_or (nth 1 partes "") "")
    (js_or (nth 2 partes "") "").

Section Extract.
Context {W : Type} `{Page W}.

(** [async function extrairProcessosDaPauta(page)] *)
Definition extrairProcessosDaPauta : ST exn W (list Processo) :=
  count <- contar ;;
  if Nat.eqb count 0 then st_ret []
  else evaluate (fun d => (List.map mapItem (items d), None)).

End Extract.

(** ** Clean fields *)

Definition no_nbsp (s : string) : bool := str_forall (fun c => negb (Ascii.eqb c nbsp)) s.

(** A field as the page script leaves it: no no-break space, no white
    space at either end. *)
Definition limpo (s : string) : bool :=
  no_nbsp s && starts_nows s && starts_nows (string_rev s).

Lemma limpo_trim s : limpo s = true -> js_trim s = s.
Proof.
  unfold limpo. intros [[_ H1]%andb_prop H2]%andb_prop.
  apply js_trim_fixed; by apply trim_start_starts_id.
Qed.

Lemma replace_nbsp_no_nbsp s : no_nbsp (replace_nbsp s) = true.
Proof.
  induction s as [|c s IH]; [done|]. cbn [replace_nbsp no_nbsp str_forall]. unfold no_nbsp in IH.
  rewrite IH, andb_true_r. destruct (Ascii.eqb_spec c nbsp); [reflexivity|].
  apply negb_true_iff, Ascii.eqb_neq. exact n.
Qed.

Lemma limpa_limpo t : limpo (limpa t) = true.
Proof.
  unfold limpo, limpa, no_nbsp. destruct (js_trim_ends (replace_nbsp t)) as [H1 H2].
  rewrite H1, H2, str_forall_trim; [done|]. apply replace_nbsp_no_nbsp.
Qed.

Lemma starts_nows_app a b : a <> EmptyString -> starts_nows (a ++ b) = starts_nows a.
Proof. by destruct a. Qed.

Lemma string_rev_nonempty s : s <> EmptyString -> string_rev s <> EmptyString.
Proof. intros Hs E. apply Hs. rewrite <- (string_rev_involutive s), E. reflexivity. Qed.

(** [[hora, status].join(' - ')] of two clean non-empty parts is clean. *)
Lemma limpo_join h s :
  limpo h = true -> limpo s = true -> h <> EmptyString -> s <> EmptyString ->
  limpo (h ++ " - " ++ s) = true.
Proof.
  unfold limpo, no_nbsp. intros Hh Hs Hh0 Hs0.
  apply andb_prop in Hh as [[Nh Sh]%andb_prop Eh]. apply andb_prop in Hs as [[Ns Ss]%andb_prop Es].
  assert (Hend : starts_nows (string_rev (h ++ " - " ++ s)) = true).
  { rewrite !string_rev_app, string_app_assoc, starts_nows_app; [exact Es|].
    by apply string_rev_nonempty. }
  rewrite Hend, !str_forall_app, Nh, Ns, starts_nows_app, Sh by done. reflexivity.
Qed.

Lemma limpo_nth l i : Forall (fun s => limpo s = true) l -> limpo (nth i l "") = true.
Proof.
  intros Hl. revert i. induction Hl as [|x l Hx Hl IH]; intros [|i]; [done | done | exact Hx | apply IH].
Qed.

Lemma limpo_or a : limpo a = true -> limpo (js_or a "") = true.
Proof. unfold js_or. by destruct (js_truthy a). Qed.

Lemma limpo_getText el : limpo (getText el) = true.
Proof. destruct el; [apply limpa_limpo | reflexivity]. Qed.

Lemma js_truthy_false s : js_truthy s = false -> s = EmptyString.
Proof. by destruct s. Qed.

Lemma js_truthy_true s : js_truthy s = true -> s <> EmptyString.
Proof. by destruct s. Qed.

(** The five fields of one record. *)
Definition campos (p : Processo) : list string :=
  [numeroProcesso p; sessao p; juiz p; reclamante p; reclamada p].

Lemma partes_limpo descs :
  Forall (fun s => limpo s = true) (List.filter js_truthy (List.map limpa descs)).
Proof.
  apply List.Forall_forall. intros x Hx. apply filter_In in Hx as [Hx _].
  apply in_map_iff in Hx as (t & <- & _). apply limpa_limpo.
Qed.

Lemma sessao_limpo h s :
  limpo h = true -> limpo s = true -> limpo (js_join " - " (List.filter js_truthy [h; s])) = true.
Proof.
  intros Hh Hs. cbn [List.filter].
  destruct (js_truthy h) eqn:Th, (js_truthy s) eqn:Ts; cbn [js_join]; try done.
  apply limpo_join; auto using js_truthy_true.
Qed.

Lemma mapItem_limpo it : Forall (fun s => limpo s = true) (campos (mapItem it)).
Proof.
  pose proof (partes_limpo (itDescs it)) as Hp.
  unfold mapItem, campos. cbn [numeroProcesso sessao juiz reclamante reclamada].
  repeat constructor; auto using limpo_getText, sessao_limpo, limpo_or, limpo_nth.
Qed.

(** ** The operation *)

(** C27: every field of every record [extrairProcessosDaPauta] returns is
    trimmed and holds no no-break space. *)
Theorem extrair_fields_clean {W} `{Page W} w ps w' :
  extrairProcessosDaPauta w = (inr ps, w') ->
  Forall (fun p => Forall (fun s => js_trim s = s /\ no_nbsp s = true) (campos p)) ps.
Proof.
  unfold extrairProcessosDaPauta. intros Hrun. st_inv Hrun.
  destruct (Nat.eqb a 0).
  { cbv [st_ret] in Hrun. simplify_eq. constructor. }
  apply evaluate_pure_inv in Hrun as (d & _ & ->); [|done]. cbn [fst].
  apply List.Forall_forall. intros p Hp. apply in_map_iff in Hp as (it & <- & _).
  eapply Forall_impl; [apply mapItem_limpo|]. intros s Hs. split; [by apply limpo_trim|].
  unfold limpo in Hs. by apply andb_prop in Hs as [[-> _]%andb_prop _].
Qed.

(** ** On the recording page *)

Lemma extrair_rec_run o h :
  extrairProcessosDaPauta (mkRec o h) =
  if Nat.eqb (count_answer o h) 0 then (inr [], mkRec o (h ++ [CCount itens]))
  else match o_dom o (h ++ [CCount itens]) with
       | inr d => (inr (List.map mapItem (items d)), mkRec o (h ++ [CCount itens; CEvaluate]))
       | inl e => (inl e, mkRec o (h ++ [CCount itens; CEvaluate]))
       end.
Proof.
  unfold extrairProcessosDaPauta. erewrite st_bind_inr by apply contar_rec.
  destruct (Nat.eqb _ 0); [reflexivity|].
  unfold evaluate, st_bind. cbn. unfold rec_call, record. cbn.
  destruct (o_dom o (h ++ [CCount itens])); by rewrite <- app_assoc.
Qed.

(** C19: [extrairProcessosDaPauta] maps the rows of the DOM it reads one
    to one, in order; a page script that fails makes it fail. *)
Theorem extrair_one_per_row o h :
  count_answer o h <> 0%nat ->
  extrairProcessosDaPauta (mkRec o h) =
  match o_dom o (h ++ [CCount itens]) with
  | inr d => (inr (List.map mapItem (items d)), mkRec o (h ++ [CCount itens; CEvaluate]))
  | inl e => (inl e, mkRec o (h ++ [CCount itens; CEvaluate]))
  end.
Proof.
  intros Hc. rewrite extrair_rec_run. apply Nat.eqb_neq in Hc. by rewrite Hc.
Qed.

(** C28: when counting the rows fails, [extrairProcessosDaPauta] returns an
    empty list without reading the page: a failure looks like a day with
    no hearings. *)
Theorem extrair_count_fails o h e :
  o_count o h itens = inl e ->
  extrairProcessosDaPauta (mkRec o h) = (inr [], mkRec o (h ++ [CCount itens])).
Proof.
  intros E. rewrite extrair_rec_run. unfold count_answer. by rewrite E.
Qed.

(** the session label is [hora - status] when both are present, the
    one present otherwise, and empty when neither is. *)
Theorem sessao_cases it :
  sessao (mapItem it) =
  let hora := getText (itSessao it) in
  let status := getText (itPalavrasRight it) in
  if js_truthy hora then (if js_truthy status then hora ++ " - " ++ status else hora)
  else status.
Proof.
  unfold mapItem. cbn [sessao List.filter]. cbv zeta.
  destruct (js_truthy (getText (itSessao it))) eqn:Th, (js_truthy (getText (itPalavrasRight it))) eqn:Ts;
    cbn [js_join]; try reflexivity. symmetry. by apply js_truthy_false.
Qed.

(** C37: the parties are read by position after blank descriptions are
    dropped ([filter(Boolean)]): when the first description (the judge's
    line) cleans to the empty string, the row is mapped as if that line
    were absent, so the next non-blank line becomes the judge and every
    later line moves up one field. *)
Theorem mapItem_blank_description_shifts s p n d j ds :
  limpa d = "" -> limpa j <> "" ->
  mapItem (mkItem s p n (d :: j :: ds)) = mapItem (mkItem s p n (j :: ds)) /\
  juiz (mapItem (mkItem s p n (d :: j :: ds))) = limpa j.
Proof.
  intros Hd Hj. unfold mapItem; cbn [itDescs itSessao itPalavrasRight itNegrito List.map List.filter].
  rewrite Hd. cbn [js_truthy]. destruct (limpa j) as [|c r] eqn:Ej; [done|]. split; reflexivity.
Qed.

(** ** Witnesses *)

(** A page with one row whose texts carry no-break spaces. *)
Definition one_row : Item :=
  mkItem (Some (String nbsp "10:30")) None (Some " 1000001-00.2026.5.02.0002 ")
         ["Juiz X"; String nbsp "Autor Y"; "Reu Z"].

Definition one_row_oracle : Oracle :=
  mkOracle (fun _ => 0%Z) (fun _ _ => None) (fun _ _ => inr false) (fun _ _ => inr 1%nat)
           (fun _ _ => inr None) (fun _ _ _ => inr "")
           (fun _ => inr (mkDom (fun _ => None) (fun _ => None) None [one_row])).

Lemma extrair_fields_clean_witness :
  Forall (fun p => Forall (fun s => js_trim s = s /\ no_nbsp s = true) (campos p)) [mapItem one_row].
Proof.
  apply (extrair_fields_clean (mkRec one_row_oracle []) _ (mkRec one_row_oracle [CCount itens; CEvaluate])).
  vm_compute. reflexivity.
Defined.

Lemma extrair_one_per_row_witness :
  extrairProcessosDaPauta (mkRec one_row_oracle []) =
  (inr [mapItem one_row], mkRec one_row_oracle ([] ++ [CCount itens; CEvaluate])).
Proof. apply (extrair_one_per_row one_row_oracle []). vm_compute. discriminate. Defined.

Lemma extrair_count_fails_witness :
  extrairProcessosDaPauta (mkRec count_fails_oracle []) = (inr [], mkRec count_fails_oracle ([] ++ [CCount itens])).
Proof. apply (extrair_count_fails count_fails_oracle [] (TimeoutError "ion-list ion-item")). reflexivity. Defined.

Lemma mapItem_blank_description_shifts_witness :
  juiz (mapItem (mkItem (Some "09:00") None None [String nbsp EmptyString; "Fulano"; "Beltrano"])) = "Fulano".
Proof.
  destruct (mapItem_blank_description_shifts (Some "09:00") None None (String nbsp EmptyString) "Fulano" ["Beltrano"])
    as [_ H]; [vm_compute; reflexivity | vm_compute; discriminate |].
  exact H.
Defined.
