(* ===== verification/Csv.v ===== *)
(** Csv: [csvEscape] and [writeCsv] (src/PAUTA-JRT2.js lines 556-571).

    A row is a JavaScript object read by key, modelled as a [gmap] from
    the column name to its text ([row[h]] is [undefined] when the key is
    missing).  [writeCsv] writes a byte-order mark followed by the lines
    joined with ["\n"]; the file write is modelled by the value it writes
    ([CsvFile]).

    To state what the file means, [csv_parse] is a reader of
    [;]-separated text with [RFC 4180] quoting (a field in double quotes
    may hold [;], line breaks and doubled quotes; outside quotes a line
    ends at LF, CR or CRLF).  The round trip
    [writeCsv_parse] shows the reader recovers the header line and, for
    every row, the value of each column ([""] for a missing one). *)

From Stdlib Require Import ZArith Lia Ascii String.
From stdpp Require Import base list gmap strings.
From S2P Require Import Prelude JsString.

Local Open Scope string_scope.

Definition dq : ascii := ascii_of_nat 34.      (* the double quote *)
Definition nl : ascii := ascii_of_nat 10.      (* \n *)
Definition cr : ascii := ascii_of_nat 13.      (* \r *)
Definition semi : ascii := ";"%char.

(** The test [/[;\u0022\n\r]/]: a semicolon, a double quote, LF or CR. *)
Definition csv_special (c : ascii) : bool :=
  Ascii.eqb c semi || Ascii.eqb c dq || Ascii.eqb c nl || Ascii.eqb c cr.

(** [s.replace(/\u0022/g, ...)]: every double quote doubled. *)
Fixpoint double_quotes (s : string) : string :=
  match s with
  | EmptyString => EmptyString
  | String c r => if Ascii.eqb c dq then String dq (String dq (double_quotes r))
                  else String c (double_quotes r)
  end.

(** [function csvEscape(value)]: [None] is [null] or [undefined]. *)
Definition csvEscape (value : option string) : string :=
  match value with
  | None => ""
  | Some s =>
      if negb (str_forall (fun c => negb (csv_special c)) s)
      then String dq (double_quotes s ++ String dq EmptyString)
      else s
  end.

(** A row object: column name to text. *)
Definition Row := gmap string string.

(** [headers.map((h) => csvEscape(row[h])).join(';')] *)
Definition csv_row (headers : list string) (row : Row) : string :=
  js_join ";" (List.map (fun h => csvEscape (row !! h)) headers).

(** [headers.map(csvEscape).join(';')] *)
Definition csv_header (headers : list string) : string :=
  js_join ";" (List.map (fun h => csvEscape (Some h)) headers).

(** What [fs.writeFileSync(filePath, bom + lines.join('\n'), 'utf8')]
    writes: the byte-order mark U+FEFF, then the text. *)
Record CsvFile : Type := mkCsvFile { csv_path : string; csv_bom : bool; csv_text : string }.

(** [function writeCsv(filePath, headers, rows)] *)
Definition writeCsv (filePath : string) (headers : list string) (rows : list Row) : CsvFile :=
  let lines := csv_header headers :: List.map (csv_row headers) rows in
  mkCsvFile filePath true (js_join (String nl EmptyString) lines).

(** ** A reader for the format *)

(** [csv_go s q cur fields rows]: [q] is inside quotes, [cur] the current
    field reversed, [fields] the fields of the current line reversed,
    [rows] the finished lines reversed. *)
Fixpoint csv_go (s : string) (q : bool) (cur : list ascii) (fields : list string)
    (rows : list (list string)) : list (list string) :=
  let field := string_of_list_ascii (List.rev cur) in
  match s with
  | EmptyString => List.rev (List.rev (field :: fields) :: rows)
  | String c r =>
      if q then
        if Ascii.eqb c dq then
          match r with
          | String c' r' => if Ascii.eqb c' dq then csv_go r' true (dq :: cur) fields rows
                            else csv_go r false cur fields rows
          | EmptyString => csv_go r false cur fields rows
          end
        else csv_go r true (c :: cur) fields rows
      else if Ascii.eqb c dq then csv_go r true cur fields rows
      else if Ascii.eqb c semi then csv_go r false [] (field :: fields) rows
      else if Ascii.eqb c nl then csv_go r false [] [] (List.rev (field :: fields) :: rows)
      else if Ascii.eqb c cr then
        match r with
        | String c' r' =>
            if Ascii.eqb c' nl then csv_go r' false [] [] (List.rev (field :: fields) :: rows)
            else csv_go r false [] [] (List.rev (field :: fields) :: rows)
        | EmptyString => csv_go r false [] [] (List.rev (field :: fields) :: rows)
        end
      else csv_go r false (c :: cur) fields rows
  end.

Definition csv_parse (s : string) : list (list string) := csv_go s false [] [] [].

(** ** The round trip *)

(** The text a value stands for: [null] and [undefined] print as [""]. *)
Definition csv_value (v : option string) : string :=
  match v with Some s => s | None => "" end.

Definition rev_chars (s : string) : list ascii := List.rev (list_ascii_of_string s).

Lemma string_of_rev_chars s : string_of_list_ascii (List.rev (rev_chars s)) = s.
Proof. unfold rev_chars. rewrite rev_involutive. apply string_of_list_ascii_of_string. Qed.

(** A field without special characters is read as it is. *)
Lemma csv_go_plain f r cur fs rs :
  str_forall (fun c => negb (csv_special c)) f = true ->
  csv_go (f ++ r) false cur fs rs = csv_go r false (rev_chars f ++ cur) fs rs.
Proof.
  unfold rev_chars. revert cur. induction f as [|c f IH]; intros cur; [done|].
  cbn [str_forall]. intros [Hc Hf]%andb_prop. unfold csv_special in Hc.
  apply negb_true_iff in Hc. rewrite !orb_false_iff in Hc. destruct Hc as [[[Hs Hq] Hn] Hr].
  rewrite string_app_cons; cbn [csv_go]. rewrite Hq, Hs, Hn, Hr, IH by exact Hf.
  cbn [list_ascii_of_string List.rev]. by rewrite <- app_assoc.
Qed.

(** Inside quotes, a doubled quote is read as one quote. *)
Lemma csv_go_quoted f r cur fs rs :
  csv_go (double_quotes f ++ String dq r) true cur fs rs =
  csv_go (String dq r) true (rev_chars f ++ cur) fs rs.
Proof.
  unfold rev_chars. revert cur. induction f as [|c f IH]; intros cur; [done|].
  cbn [double_quotes list_ascii_of_string List.rev]. rewrite <- app_assoc.
  destruct (Ascii.eqb_spec c dq) as [->|Hne].
  - rewrite !string_app_cons. cbn [csv_go]. rewrite Ascii.eqb_refl. apply IH.
  - rewrite string_app_cons. cbn [csv_go]. rewrite (proj2 (Ascii.eqb_neq _ _) Hne). apply IH.
Qed.

(** What may follow a field: the end, a [;] or a newline. *)
Definition sep_ok (r : string) : bool :=
  match r with EmptyString => true | String c _ => Ascii.eqb c semi || Ascii.eqb c nl end.

Lemma sep_ok_not_dq c r : sep_ok (String c r) = true -> Ascii.eqb c dq = false.
Proof.
  cbn. intros [H|H]%orb_prop; apply Ascii.eqb_eq in H; subst; reflexivity.
Qed.

(** Any value, escaped by [csvEscape], is read back as its text. *)
Lemma csv_go_field v r fs rs :
  sep_ok r = true ->
  csv_go (csvEscape v ++ r) false [] fs rs = csv_go r false (rev_chars (csv_value v)) fs rs.
Proof.
  intros Hr. destruct v as [s|]; cbn [csvEscape csv_value]; [|reflexivity].
  destruct (str_forall (fun c => negb (csv_special c)) s) eqn:Hp; cbn [negb].
  - rewrite csv_go_plain by exact Hp. by rewrite app_nil_r.
  - rewrite string_app_cons, string_app_assoc, string_app_cons. cbn [csv_go]. rewrite Ascii.eqb_refl.
    rewrite csv_go_quoted, app_nil_r. cbn [csv_go]. rewrite Ascii.eqb_refl.
    rewrite string_app_nil. destruct r as [|c r]; [reflexivity|]. cbv iota. rewrite (sep_ok_not_dq c r Hr). reflexivity.
Qed.

(** A line of escaped values is read up to its last field. *)
Lemma csv_go_line vs r fs rs :
  vs <> [] -> sep_ok r = true ->
  csv_go (js_join ";" (List.map csvEscape vs) ++ r) false [] fs rs =
  csv_go r false (rev_chars (csv_value (List.last vs None)))
         (List.rev (List.map csv_value (removelast vs)) ++ fs) rs.
Proof.
  intros Hvs Hr. revert fs. induction vs as [|v [|v2 vs] IH]; intros fs; [done| |].
  - cbn [List.map js_join List.last removelast]. by rewrite csv_go_field.
  - cbn [List.map]. rewrite js_join_cons2, string_app_assoc, csv_go_field by reflexivity.
    rewrite string_app_assoc, string_app_cons, string_app_nil. cbn [csv_go].
    replace (Ascii.eqb semi dq) with false by reflexivity. rewrite Ascii.eqb_refl.
    rewrite string_of_rev_chars.
    rewrite IH by done. cbn [List.last removelast List.map List.rev].
    by rewrite <- app_assoc.
Qed.

Lemma last_field vs fs :
  vs <> [] ->
  List.rev (string_of_list_ascii (List.rev (rev_chars (csv_value (List.last vs None))))
            :: app (List.rev (List.map csv_value (removelast vs))) fs) =
  app (List.rev fs) (List.map csv_value vs).
Proof.
  intros Hvs. rewrite string_of_rev_chars. cbn [List.rev].
  rewrite rev_app_distr, rev_involutive, <- app_assoc.
  rewrite (app_removelast_last None Hvs) at 3. by rewrite map_app.
Qed.

(** The escaped lines joined by newlines are read back line by line. *)
Lemma csv_go_lines ls rs :
  ls <> [] -> Forall (fun vs => vs <> []) ls ->
  csv_go (js_join (String nl EmptyString) (List.map (fun vs => js_join ";" (List.map csvEscape vs)) ls))
         false [] [] rs =
  app (List.rev rs) (List.map (List.map csv_value) ls).
Proof.
  intros Hls Hall. revert rs. induction ls as [|vs [|vs2 ls] IH]; intros rs; [done| |];
    inversion Hall as [|? ? Hvs Hrest]; subst.
  - cbn [List.map js_join]. rewrite <- (string_app_empty_r (js_join _ _)).
    rewrite csv_go_line by done. cbn [csv_go]. rewrite last_field by done. reflexivity.
  - cbn [List.map]. rewrite js_join_cons2, csv_go_line by done.
    rewrite string_app_cons, string_app_nil. cbn [csv_go].
    replace (Ascii.eqb nl dq) with false by reflexivity.
    replace (Ascii.eqb nl semi) with false by reflexivity. rewrite Ascii.eqb_refl.
    rewrite last_field by done. cbn [List.rev app].
    rewrite (IH ltac:(done) Hrest). cbn [List.rev]. by rewrite <- app_assoc.
Qed.

(** C9: reading back the text [writeCsv] writes gives the header line and,
    for each row, the value of each column, [""] where the row has none:
    [csvEscape] quotes exactly what would break the format. *)
Theorem writeCsv_parse path headers rows :
  headers <> [] ->
  csv_parse (csv_text (writeCsv path headers rows)) =
  headers :: List.map (fun row => List.map (fun h => csv_value (row !! h)) headers) rows.
Proof.
  intros Hh. unfold writeCsv, csv_parse, csv_header, csv_row. cbn [csv_text].
  set (ls := List.map Some headers :: List.map (fun row => List.map (fun h => row !! h) headers) rows).
  assert (E : csv_header headers :: List.map (csv_row headers) rows =
              List.map (fun vs => js_join ";" (List.map csvEscape vs)) ls).
  { subst ls. cbn [List.map]. f_equal; [by rewrite List.map_map|].
    rewrite List.map_map. apply List.map_ext. intros row. by rewrite List.map_map. }
  unfold csv_header, csv_row in E. rewrite E, csv_go_lines; subst ls.
  - cbn [List.rev app List.map]. rewrite !List.map_map. f_equal.
    + rewrite (List.map_ext _ id) by done. apply List.map_id.
    + apply List.map_ext. intros row. by rewrite List.map_map.
  - done.
  - constructor; [by destruct headers|]. apply List.Forall_forall. intros vs Hvs.
    apply in_map_iff in Hvs as (row & <- & _). by destruct headers.
Qed.

(** ** Witness *)

(** A row whose values need quoting: a [;], a double quote and a CR. *)
Definition sample_row : Row :=
  <["sessao" := "10:00" ++ String cr "Pauta"]>
  (<["juiz" := "Fulano; de Tal"]> (<["vara" := String dq "Vara" ++ String dq EmptyString]> ∅)).

Lemma writeCsv_parse_witness :
  csv_parse (csv_text (writeCsv "pauta.csv" ["vara"; "juiz"; "sessao"] [sample_row])) =
  ["vara"; "juiz"; "sessao"] ::
  [[String dq "Vara" ++ String dq EmptyString; "Fulano; de Tal"; "10:00" ++ String cr "Pauta"]].
Proof. apply (writeCsv_parse "pauta.csv" ["vara"; "juiz"; "sessao"] [sample_row]). discriminate. Defined.
