(* ===== verification/Store.v ===== *)
(** Store: [insertRowsMySql] (src/PAUTA-JRT2.js lines 716-758) and the
    table it writes (the schema of [ensureSchema], lines 648-670).

    - [Db]: the pool as the operation uses it, [pool.query(sql, values)]
      answering [affectedRows]; any query may throw.
    - [insertRowsMySql]: the chunk loop [for (i = 0; i < rows.length;
      i += chunkSize)] with fuel [length rows], each chunk sent as one
      [INSERT ... VALUES (?,...),(?,...) ON DUPLICATE KEY UPDATE ...].
    - [Table] and [TableDb]: the table [pauta_processos] and what MySQL
      does with that statement: a row is keyed by [UNIQUE KEY uq_pauta
      (vara, dataISO, numeroProcesso)]; a new key is inserted with the next
      [AUTO_INCREMENT] id, an existing one has only [geradoEm, sessao,
      juiz, reclamante, reclamada] replaced.  [affectedRows] counts 1 per
      insert, 2 per changed row and 1 per unchanged row (the [FOUND_ROWS]
      flag mysql2 sets).

    Theorems: the statement has one placeholder per value
    ([chunk_placeholders]); the fuel is enough ([insert_loop_fuel]);
    sending the rows in chunks of any positive size leaves the table the
    one-by-one upsert gives ([insertRowsMySql_chunks]); the upsert never
    changes a row's key, id or date ([upsert_keeps_key]); inserting the
    same rows again changes nothing ([insertRowsMySql_idempotent]). *)

From Stdlib Require Import ZArith Lia Ascii String.
From stdpp Require Import base list gmap strings.
From S2P Require Import Prelude JsString Dates Session.

Local Open Scope string_scope.

(** The object [main] builds for each process ([rowsChunk]). *)
Record Registro : Type := mkRegistro {
  r_geradoEm : string;                 (* new Date().toISOString() *)
  r_vara : string;
  r_data : string;                     (* DD/MM/YYYY *)
  r_numeroProcesso : string;
  r_sessao : option string;            (* undefined is None *)
  r_juiz : option string;
  r_reclamante : option string;
  r_reclamada : option string
}.

(** A value bound to a [?] placeholder. *)
Inductive SqlValue : Type :=
| SDate (iso : string)                 (* new Date(r.geradoEm) *)
| SStr (s : string)
| SNull.

(** [x ?? null] *)
Definition nullable (v : option string) : SqlValue :=
  match v with Some s => SStr s | None => SNull end.

(** The nine values [values.push(...)] adds for one row. *)
Definition row_values (r : Registro) : list SqlValue :=
  [SDate (r_geradoEm r); SStr (r_vara r); SStr (r_data r); SStr (brToIsoDateString (r_data r));
   SStr (r_numeroProcesso r); nullable (r_sessao r); nullable (r_juiz r);
   nullable (r_reclamante r); nullable (r_reclamada r)].

Definition placeholder : string := "(?,?,?,?,?,?,?,?,?)".

(** The statement of one chunk: the text around [${placeholders.join(',')}]. *)
Definition sql_head : string :=
  "INSERT INTO pauta_processos (geradoEm, vara, dataBR, dataISO, numeroProcesso, sessao, juiz, reclamante, reclamada) VALUES ".
Definition sql_tail : string :=
  " ON DUPLICATE KEY UPDATE geradoEm = VALUES(geradoEm), sessao = VALUES(sessao), juiz = VALUES(juiz), reclamante = VALUES(reclamante), reclamada = VALUES(reclamada)".

Definition chunk_sql (chunk : list Registro) : string :=
  sql_head ++ js_join "," (List.map (fun _ => placeholder) chunk) ++ sql_tail.

Definition chunk_values (chunk : list Registro) : list SqlValue :=
  List.concat (List.map row_values chunk).

(** [pool.query(sql, values)], answering [res.affectedRows]. *)
Class Db (D : Type) := {
  db_query : string -> list SqlValue -> ST exn D nat
}.

(** [rows.slice(i, i + chunkSize)] *)
Definition slice {A} (l : list A) (i j : nat) : list A := List.firstn (j - i) (List.skipn i l).

Section Insert.
Context {D : Type} `{Db D}.

(** The chunk loop from index [i], with [fuel] iterations at most. *)
Fixpoint insert_loop (fuel : nat) (rows : list Registro) (chunkSize i total : nat) : ST exn D nat :=
  match fuel with
  | O => st_ret total
  | S fuel' =>
      if Nat.ltb i (List.length rows) then
        let chunk := slice rows i (i + chunkSize) in
        affected <- db_query (chunk_sql chunk) (chunk_values chunk) ;;
        insert_loop fuel' rows chunkSize (i + chunkSize) (total + affected)
      else st_ret total
  end.

(** [async function insertRowsMySql(pool, rows, chunkSize = 800)]: [None]
    is a [null] pool; the result is [insertedOrUpdated]. *)
Definition insertRowsMySql (pool : option unit) (rows : list Registro) (chunkSize : nat) : ST exn D nat :=
  match pool with
  | None => st_ret 0%nat
  | Some _ =>
      if Nat.eqb (List.length rows) 0 then st_ret 0%nat
      else insert_loop (List.length rows) rows chunkSize 0 0
  end.

End Insert.

(** ** The table *)

Definition Key : Type := string * string * string.   (* vara, dataISO, numeroProcesso *)

Record Stored : Type := mkStored {
  st_id : nat;
  st_geradoEm : string;
  st_vara : string;
  st_dataBR : string;
  st_dataISO : string;
  st_numero : string;
  st_sessao : SqlValue;
  st_juiz : SqlValue;
  st_reclamante : SqlValue;
  st_reclamada : SqlValue
}.

Record Table : Type := mkTable { t_rows : gmap Key Stored; t_next : nat }.

#[export] Instance SqlValue_eq_dec : EqDecision SqlValue.
Proof. solve_decision. Defined.

(** One tuple of the statement: the nine values in the order of the
    column list. *)
Record Tuple : Type := mkTuple {
  tp_geradoEm : string; tp_vara : string; tp_dataBR : string; tp_dataISO : string;
  tp_numero : string; tp_sessao : SqlValue; tp_juiz : SqlValue;
  tp_reclamante : SqlValue; tp_reclamada : SqlValue
}.

(** MySQL's type check of a tuple: a date, four strings for the [NOT NULL]
    columns, then four nullable values. *)
Definition tuple_of (vals : list SqlValue) : option Tuple :=
  match vals with
  | [SDate g; SStr vara; SStr dataBR; SStr dataISO; SStr num; s; j; rc; rd] =>
      Some (mkTuple g vara dataBR dataISO num s j rc rd)
  | _ => None
  end.

Definition tuple_key (x : Tuple) : Key := (tp_vara x, tp_dataISO x, tp_numero x).

(** Insert a new key, or update the mutable columns of the existing row. *)
Definition upsert_parsed (t : Table) (x : Tuple) : Table * nat :=
  let k := tuple_key x in
  match t_rows t !! k with
  | None =>
      (mkTable (<[k := mkStored (t_next t) (tp_geradoEm x) (tp_vara x) (tp_dataBR x) (tp_dataISO x)
                        (tp_numero x) (tp_sessao x) (tp_juiz x) (tp_reclamante x) (tp_reclamada x)]>
                  (t_rows t)) (S (t_next t)), 1%nat)
  | Some old =>
      let new := mkStored (st_id old) (tp_geradoEm x) (st_vara old) (st_dataBR old) (st_dataISO old)
                          (st_numero old) (tp_sessao x) (tp_juiz x) (tp_reclamante x) (tp_reclamada x) in
      (mkTable (<[k := new]> (t_rows t)) (t_next t),
       if bool_decide ((st_geradoEm old, st_sessao old, st_juiz old, st_reclamante old, st_reclamada old) =
                       (tp_geradoEm x, tp_sessao x, tp_juiz x, tp_reclamante x, tp_reclamada x))
       then 1%nat else 2%nat)
  end.

Definition upsert_tuple (t : Table) (vals : list SqlValue) : option (Table * nat) :=
  option_map (upsert_parsed t) (tuple_of vals).

(** The values of the statement, nine per tuple. *)
Fixpoint upsert_values (fuel : nat) (t : Table) (vals : list SqlValue) : option (Table * nat) :=
  match fuel, vals with
  | _, [] => Some (t, 0%nat)
  | O, _ => None
  | S fuel', _ =>
      match upsert_tuple t (List.firstn 9 vals) with
      | Some (t', a) =>
          match upsert_values fuel' t' (List.skipn 9 vals) with
          | Some (t'', a') => Some (t'', (a + a')%nat)
          | None => None
          end
      | None => None
      end
  end.

(** MySQL running the statement: an empty [VALUES] list is a syntax error,
    malformed tuples are rejected, and a rejected statement changes
    nothing. *)
Definition table_query (sql : string) (vals : list SqlValue) : ST exn Table nat :=
  fun t =>
    match vals with
    | [] => (inl (OtherError "ER_PARSE_ERROR"), t)
    | _ => match upsert_values (List.length vals) t vals with
           | Some (t', a) => (inr a, t')
           | None => (inl (OtherError "ER_WRONG_VALUE"), t)
           end
    end.

#[export] Instance TableDb : Db Table := { db_query := table_query }.

(** ** The statement matches its values *)

Fixpoint count_char (c : ascii) (s : string) : nat :=
  match s with
  | EmptyString => 0
  | String c' r => (if Ascii.eqb c' c then 1 else 0) + count_char c r
  end.

Lemma count_char_app c a b : count_char c (a ++ b) = (count_char c a + count_char c b)%nat.
Proof. induction a as [|x a IH]; [done|]. rewrite string_app_cons. cbn. rewrite IH. lia. Qed.

Lemma count_placeholders (chunk : list Registro) :
  count_char "?" (js_join "," (List.map (fun _ => placeholder) chunk)) = (9 * List.length chunk)%nat.
Proof.
  induction chunk as [|r [|r2 chunk] IH]; [done | done|].
  cbn [List.map]. rewrite js_join_cons2, !count_char_app. cbn [List.map] in IH. rewrite IH.
  change (count_char "?" placeholder) with 9%nat. change (count_char "?" ",") with 0%nat.
  cbn [List.length]. lia.
Qed.

Lemma chunk_values_length chunk : List.length (chunk_values chunk) = (9 * List.length chunk)%nat.
Proof.
  unfold chunk_values. induction chunk as [|r chunk IH]; [done|].
  cbn [List.map List.concat]. rewrite length_app, IH. cbn. lia.
Qed.

(** the statement [insertRowsMySql] sends for a chunk has exactly one
    [?] placeholder per value it binds: nine per row. *)
Theorem chunk_placeholders chunk :
  count_char "?" (chunk_sql chunk) = List.length (chunk_values chunk) /\
  List.length (chunk_values chunk) = (9 * List.length chunk)%nat.
Proof.
  rewrite chunk_values_length. split; [|reflexivity].
  unfold chunk_sql. rewrite !count_char_app, count_placeholders.
  change (count_char "?" sql_head) with 0%nat. change (count_char "?" sql_tail) with 0%nat. lia.
Qed.

(** ** Chunks and the one-by-one upsert *)

Lemma upsert_tuple_row t r : exists t' a, upsert_tuple t (row_values r) = Some (t', a).
Proof. unfold upsert_tuple, row_values. cbn. destruct (upsert_parsed _ _). eauto. Qed.

(** The reference: every row upserted in turn. *)
Definition upsert_row (t : Table) (r : Registro) : Table :=
  match upsert_tuple t (row_values r) with Some (t', _) => t' | None => t end.

Definition upsert_rows (t : Table) (rows : list Registro) : Table := fold_left upsert_row rows t.

Lemma upsert_values_row f t r vals :
  upsert_values (S f) t (app (row_values r) vals) =
  match upsert_tuple t (row_values r) with
  | Some (t', a) => match upsert_values f t' vals with
                    | Some (t'', a') => Some (t'', (a + a')%nat) | None => None end
  | None => None
  end.
Proof. reflexivity. Qed.

Lemma upsert_values_chunk f chunk t :
  (List.length chunk <= f)%nat ->
  exists a, upsert_values f t (chunk_values chunk) = Some (upsert_rows t chunk, a).
Proof.
  revert f t. induction chunk as [|r chunk IH]; intros f t Hf; [destruct f; eauto|].
  destruct f as [|f]; [cbn in Hf; lia|].
  destruct (upsert_tuple_row t r) as (t1 & a1 & E1).
  destruct (IH f t1) as [a2 E2]; [cbn in Hf; lia|].
  exists (a1 + a2)%nat. change (chunk_values (r :: chunk)) with (app (row_values r) (chunk_values chunk)).
  rewrite upsert_values_row, E1, E2. cbn [upsert_rows fold_left]. unfold upsert_row at 2. by rewrite E1.
Qed.

Lemma table_query_chunk chunk t :
  chunk <> [] ->
  exists a, table_query (chunk_sql chunk) (chunk_values chunk) t = (inr a, upsert_rows t chunk).
Proof.
  intros Hc. destruct (upsert_values_chunk (List.length (chunk_values chunk)) chunk t) as [a E].
  { rewrite chunk_values_length. lia. }
  exists a. unfold table_query. rewrite E.
  destruct chunk as [|r chunk]; [done|]. reflexivity.
Qed.

Lemma slice_from {A} (l : list A) i k : slice l i (i + k) = List.firstn k (List.skipn i l).
Proof. unfold slice. by replace (i + k - i)%nat with k by lia. Qed.

Lemma insert_loop_table f rows k i total t :
  (0 < k)%nat -> (List.length rows - i <= f)%nat ->
  exists n, insert_loop f rows k i total t = (inr n, upsert_rows t (List.skipn i rows)).
Proof.
  intros Hk. revert i total t. induction f as [|f IH]; intros i total t Hf.
  - exists total. cbn. by rewrite List.skipn_all2 by lia.
  - cbn [insert_loop]. destruct (Nat.ltb_spec i (List.length rows)) as [Hi|Hi].
    + rewrite slice_from.
      destruct (table_query_chunk (List.firstn k (List.skipn i rows)) t) as [a Ea].
      { intros E. apply (f_equal (@List.length _)) in E.
        rewrite List.length_firstn, List.length_skipn in E. cbn in E. lia. }
      unfold st_bind. cbn [db_query TableDb]. rewrite Ea.
      destruct (IH (i + k)%nat (total + a)%nat (upsert_rows t (List.firstn k (List.skipn i rows))))
        as [n En]; [lia|].
      exists n. rewrite En. f_equal. unfold upsert_rows. rewrite <- fold_left_app. f_equal.
      rewrite Nat.add_comm, <- List.skipn_skipn. apply List.firstn_skipn.
    + exists total. by rewrite List.skipn_all2 by lia.
Qed.

Lemma insertRowsMySql_upsert_rows rows k t :
  (0 < k)%nat ->
  exists n, insertRowsMySql (Some tt) rows k t = (inr n, upsert_rows t rows).
Proof.
  intros Hk. unfold insertRowsMySql. destruct (Nat.eqb_spec (List.length rows) 0) as [E|E].
  - apply length_zero_iff_nil in E. subst. by exists 0%nat.
  - destruct (insert_loop_table (List.length rows) rows k 0 0 t Hk) as [n En]; [lia|].
    exists n. exact En.
Qed.

(** C10: sending the rows in chunks of any positive size leaves the table
    exactly as upserting the rows one by one, in order; no statement is
    rejected. *)
Theorem insertRowsMySql_chunks rows k t :
  (0 < k)%nat ->
  exists n, insertRowsMySql (Some tt) rows k t = (inr n, upsert_rows t rows).
Proof. apply insertRowsMySql_upsert_rows. Qed.

(** C21: an upsert never changes the key, id or date text of a row that is
    already in the table: a duplicate only replaces [geradoEm], [sessao],
    [juiz], [reclamante] and [reclamada]. *)
Theorem upsert_keeps_key t x k old :
  t_rows t !! k = Some old ->
  exists new, t_rows (fst (upsert_parsed t x)) !! k = Some new /\
    st_id new = st_id old /\ st_vara new = st_vara old /\ st_dataBR new = st_dataBR old /\
    st_dataISO new = st_dataISO old /\ st_numero new = st_numero old.
Proof.
  intros Hk. unfold upsert_parsed. destruct (t_rows t !! tuple_key x) as [o|] eqn:Eo; cbn [fst t_rows].
  - destruct (decide (k = tuple_key x)) as [->|Hne].
    + rewrite lookup_insert_eq. eexists; split; [reflexivity|]. rewrite Eo in Hk. simplify_eq. done.
    + rewrite lookup_insert_ne by done. eauto 10.
  - destruct (decide (k = tuple_key x)) as [->|Hne]; [congruence|].
    rewrite lookup_insert_ne by done. eauto 10.
Qed.

(** ** The loop's fuel *)

(** C31: for a positive chunk size, [length rows] iterations are enough:
    more fuel gives the same run on any database. *)
Theorem insert_loop_fuel {D} `{Db D} f e rows k i total w :
  (0 < k)%nat -> (List.length rows - i <= f)%nat ->
  insert_loop (f + e) rows k i total w = insert_loop f rows k i total w.
Proof.
  intros Hk. revert i total w. induction f as [|f IH]; intros i total w Hf.
  - destruct e as [|e]; [reflexivity|]. cbn [insert_loop Nat.add].
    by rewrite (proj2 (Nat.ltb_ge _ _)) by lia.
  - cbn [insert_loop Nat.add]. destruct (Nat.ltb_spec i (List.length rows)); [|reflexivity].
    unfold st_bind. destruct (db_query _ _ w) as [[err|a] w1]; [reflexivity|]. apply IH. lia.
Qed.

(** ** Running the same rows again changes nothing *)

Definition row_key (r : Registro) : Key :=
  (r_vara r, brToIsoDateString (r_data r), r_numeroProcesso r).

(** The columns an upsert replaces, taken from a row. *)
Definition set_mut (s : Stored) (r : Registro) : Stored :=
  mkStored (st_id s) (r_geradoEm r) (st_vara s) (st_dataBR s) (st_dataISO s) (st_numero s)
           (nullable (r_sessao r)) (nullable (r_juiz r)) (nullable (r_reclamante r))
           (nullable (r_reclamada r)).

(** The last row of [rows] with key [k]. *)
Fixpoint last_of (k : Key) (rows : list Registro) : option Registro :=
  match rows with
  | [] => None
  | r :: rest => match last_of k rest with
                 | Some x => Some x
                 | None => if decide (row_key r = k) then Some r else None
                 end
  end.

(** A new row from [r], with the next id. *)
Definition fresh_row (t : Table) (r : Registro) : Stored :=
  mkStored (t_next t) (r_geradoEm r) (r_vara r) (r_data r) (brToIsoDateString (r_data r))
           (r_numeroProcesso r) (nullable (r_sessao r)) (nullable (r_juiz r))
           (nullable (r_reclamante r)) (nullable (r_reclamada r)).

Definition row_tuple (r : Registro) : Tuple :=
  mkTuple (r_geradoEm r) (r_vara r) (r_data r) (brToIsoDateString (r_data r)) (r_numeroProcesso r)
          (nullable (r_sessao r)) (nullable (r_juiz r)) (nullable (r_reclamante r))
          (nullable (r_reclamada r)).

Lemma upsert_row_parsed t r : upsert_row t r = fst (upsert_parsed t (row_tuple r)).
Proof. unfold upsert_row, upsert_tuple. cbn. by destruct (upsert_parsed t _). Qed.

Lemma upsert_row_eq t r :
  upsert_row t r =
  match t_rows t !! row_key r with
  | Some old => mkTable (<[row_key r := set_mut old r]> (t_rows t)) (t_next t)
  | None => mkTable (<[row_key r := fresh_row t r]> (t_rows t)) (S (t_next t))
  end.
Proof.
  rewrite upsert_row_parsed. unfold upsert_parsed.
  change (tuple_key (row_tuple r)) with (row_key r). by destruct (t_rows t !! row_key r).
Qed.

Lemma upsert_row_present t r old :
  t_rows t !! row_key r = Some old ->
  upsert_row t r = mkTable (<[row_key r := set_mut old r]> (t_rows t)) (t_next t).
Proof. intros E. by rewrite upsert_row_eq, E. Qed.

Lemma upsert_row_keeps t r k : is_Some (t_rows t !! k) -> is_Some (t_rows (upsert_row t r) !! k).
Proof.
  intros Hk. rewrite upsert_row_eq.
  destruct (decide (k = row_key r)) as [->|Hne];
    destruct (t_rows t !! row_key r); cbn [t_rows];
    rewrite ?lookup_insert_eq, ?lookup_insert_ne by congruence; done.
Qed.

Definition all_present (t : Table) (rows : list Registro) : Prop :=
  Forall (fun r => is_Some (t_rows t !! row_key r)) rows.

(** On a table that has every key, the rows only update: each key ends
    with the replaceable columns of its last row. *)
Lemma upsert_rows_present rows t k :
  all_present t rows ->
  t_next (upsert_rows t rows) = t_next t /\
  t_rows (upsert_rows t rows) !! k =
  match last_of k rows with
  | None => t_rows t !! k
  | Some r => (fun s => set_mut s r) <$> t_rows t !! k
  end.
Proof.
  revert t. induction rows as [|r rows IH]; intros t Hp; [done|].
  inversion Hp as [|? ? [old Eold] Hrest]; subst.
  cbn [upsert_rows fold_left]. fold (upsert_rows (upsert_row t r) rows).
  rewrite (upsert_row_present t r old Eold) in *.
  destruct (IH (mkTable (<[row_key r := set_mut old r]> (t_rows t)) (t_next t))) as [Hn Hk].
  { unfold all_present. eapply Forall_impl; [exact Hrest|]. intros r' Hr'. cbn [t_rows].
    destruct (decide (row_key r' = row_key r)) as [->|Hne];
      [by rewrite lookup_insert_eq | by rewrite lookup_insert_ne by congruence]. }
  split; [exact Hn|]. rewrite Hk. cbn [last_of t_rows]. destruct (last_of k rows) as [x|].
  - destruct (decide (row_key r = k)) as [<-|Hne].
    + rewrite lookup_insert_eq, Eold. reflexivity.
    + by rewrite lookup_insert_ne by done.
  - destruct (decide (row_key r = k)) as [<-|Hne].
    + by rewrite lookup_insert_eq, Eold.
    + by rewrite lookup_insert_ne by done.
Qed.

Lemma upsert_rows_cons t r rows : upsert_rows t (r :: rows) = upsert_rows (upsert_row t r) rows.
Proof. reflexivity. Qed.

Lemma upsert_rows_keeps rows t k :
  is_Some (t_rows t !! k) -> is_Some (t_rows (upsert_rows t rows) !! k).
Proof.
  revert t. induction rows as [|r rows IH]; intros t Hk; [done|].
  rewrite upsert_rows_cons. apply IH, upsert_row_keeps, Hk.
Qed.

Lemma upsert_rows_has_keys rows t : all_present (upsert_rows t rows) rows.
Proof.
  revert t. induction rows as [|r rows IH]; intros t; constructor.
  - rewrite upsert_rows_cons. apply upsert_rows_keeps.
    rewrite upsert_row_eq. destruct (t_rows t !! row_key r); cbn [t_rows]; by rewrite lookup_insert_eq.
  - rewrite upsert_rows_cons. apply IH.
Qed.

Lemma upsert_rows_other rows t k :
  last_of k rows = None -> t_rows (upsert_rows t rows) !! k = t_rows t !! k.
Proof.
  revert t. induction rows as [|r rows IH]; intros t Hl; [done|].
  cbn [last_of] in Hl. destruct (last_of k rows); [done|].
  destruct (decide (row_key r = k)) as [|Hne]; [done|].
  rewrite upsert_rows_cons, IH by done. rewrite upsert_row_eq.
  destruct (t_rows t !! row_key r); cbn [t_rows]; by rewrite lookup_insert_ne.
Qed.

(** After the rows, each key holds the replaceable columns of its last row. *)
Lemma upsert_rows_last rows t k r :
  last_of k rows = Some r ->
  exists s, t_rows (upsert_rows t rows) !! k = Some s /\ set_mut s r = s.
Proof.
  revert t. induction rows as [|r0 rows IH]; intros t Hl; [done|].
  cbn [last_of] in Hl. rewrite upsert_rows_cons.
  destruct (last_of k rows) as [x|] eqn:Ex; [simplify_eq; by apply IH|].
  destruct (decide (row_key r0 = k)) as [<-|]; [simplify_eq|done].
  rewrite upsert_rows_other by done. rewrite upsert_row_eq.
  destruct (t_rows t !! row_key r) as [old|]; cbn [t_rows]; rewrite lookup_insert_eq;
    eexists; (split; [reflexivity|]); reflexivity.
Qed.

(** C8: upserting the same rows a second time leaves the table as the first
    time left it: rerunning [insertRowsMySql] on a batch is harmless. *)
Theorem insertRowsMySql_idempotent rows k t :
  (0 < k)%nat ->
  snd (insertRowsMySql (Some tt) rows k (snd (insertRowsMySql (Some tt) rows k t))) =
  snd (insertRowsMySql (Some tt) rows k t).
Proof.
  intros Hk. destruct (insertRowsMySql_upsert_rows rows k t Hk) as [n1 ->]. cbn [snd].
  destruct (insertRowsMySql_upsert_rows rows k (upsert_rows t rows) Hk) as [n2 ->]. cbn [snd].
  set (t1 := upsert_rows t rows).
  assert (Hall : forall k', t_rows (upsert_rows t1 rows) !! k' = t_rows t1 !! k').
  { intros k'. destruct (upsert_rows_present rows t1 k' (upsert_rows_has_keys rows t)) as [_ ->].
    destruct (last_of k' rows) as [r|] eqn:El; [|done].
    destruct (upsert_rows_last rows t k' r El) as (s & Es & Hs). fold t1 in Es.
    rewrite Es. cbn. by rewrite Hs. }
  destruct (upsert_rows_present rows t1 (row_key (mkRegistro "" "" "" "" None None None None))
              (upsert_rows_has_keys rows t)) as [Hn _].
  destruct (upsert_rows t1 rows) as [m n] eqn:E1. destruct t1 as [m1 n1'] eqn:E2.
  cbn in Hn, Hall. subst n. f_equal. apply map_eq. exact Hall.
Qed.

(** ** Witnesses *)

Definition empty_table : Table := mkTable ∅ 0.

(** Two rows of the same process on the same day, then another process:
    the second row replaces the session text of the first. *)
Definition sample_rows : list Registro :=
  [mkRegistro "2026-03-05 08:00:00" "1a Vara" "05/03/2026" "0000123-45.2026.5.01.0001"
     (Some "09:00 - Pauta") (Some "Fulano") None None;
   mkRegistro "2026-03-05 09:00:00" "1a Vara" "05/03/2026" "0000123-45.2026.5.01.0001"
     (Some "10:00 - Pauta") (Some "Fulano") None None;
   mkRegistro "2026-03-05 09:00:00" "1a Vara" "05/03/2026" "0000999-00.2026.5.01.0001"
     None None (Some "Beltrano") (Some "Empresa")].

Lemma insertRowsMySql_chunks_witness :
  exists n, insertRowsMySql (Some tt) sample_rows 2 empty_table =
            (inr n, upsert_rows empty_table sample_rows).
Proof. apply insertRowsMySql_chunks. lia. Defined.


Lemma upsert_keeps_key_witness :
  let t := upsert_rows empty_table (List.firstn 1 sample_rows) in
  let k := ("1a Vara", "2026-03-05", "0000123-45.2026.5.01.0001")%string in
  exists old, t_rows t !! k = Some old /\
  exists new, t_rows (fst (upsert_parsed t (row_tuple (nth 1 sample_rows (mkRegistro "" "" "" "" None None None None))))) !! k = Some new /\
    st_id new = st_id old /\ st_vara new = st_vara old /\ st_dataBR new = st_dataBR old /\
    st_dataISO new = st_dataISO old /\ st_numero new = st_numero old.
Proof.
  intros t k. eexists. split; [vm_compute; reflexivity|].
  apply upsert_keeps_key. vm_compute. reflexivity.
Defined.

Lemma insert_loop_fuel_witness :
  insert_loop (3 + 4) sample_rows 2 0 0 empty_table = insert_loop 3 sample_rows 2 0 0 empty_table.
Proof. apply (insert_loop_fuel 3 4 sample_rows 2 0 0 empty_table); cbn; lia. Defined.

Lemma insertRowsMySql_idempotent_witness :
  snd (insertRowsMySql (Some tt) sample_rows 2 (snd (insertRowsMySql (Some tt) sample_rows 2 empty_table))) =
  snd (insertRowsMySql (Some tt) sample_rows 2 empty_table).
Proof. apply insertRowsMySql_idempotent. lia. Defined.
