(* ===== verification/Selector.v ===== *)
(** Selector: opening the Pauta module and choosing a unit, variant B of
    src/PAUTA-JRT2.js ([abrirJTeSelecionarTRT2], [abrirModuloPauta],
    lines 881-912; [listarVaras], [escapeRegExp], [openMatSelect],
    [clickMatOptionByText], [matSelectChoose], [waitMatSelectEnabled],
    [selecionarUnidade], lines 918-1046).

    Each Angular Material select is opened, its option panel awaited, the
    option matched by the anchored case-insensitive pattern built with
    [escapeRegExp], clicked, and the panel awaited hidden.  The three
    selects (type, municipality, unit) are chosen in that order; the
    confirm button is then awaited enabled, with the wait's failure
    swallowed, and clicked.

    Theorems: [escapeRegExp] is read back by a regular-expression reader
    as its literal text ([escapeRegExp_literal]); the unit labels
    [listarVaras] returns are trimmed ([listarVaras_trimmed]); a confirm
    button that never becomes enabled is clicked all the same
    ([confirmar_clicks_disabled]). *)

From Stdlib Require Import ZArith Lia Ascii String.
From stdpp Require Import base list.
From S2P Require Import Prelude JsString Dates Session Overlay Stepper.

Local Open Scope string_scope.

(** [sel:has-text("s")] *)
Definition has_text (sel s : string) : string := sel ++ ":has-text(" ++ dquote ++ s ++ dquote ++ ")".

(** [mat-form-field[data-testid="id"] mat-select] *)
Definition mat_select (id : string) : string :=
  "mat-form-field[data-testid=" ++ dquote ++ id ++ dquote ++ "] mat-select".

Definition trt2 : Locator := TextExact "TRT2 - São Paulo".
Definition card : Locator := First (Css (has_text "ion-card-content.card-content-modulo" "Pauta")).
Definition botaoUnidade : Locator := TestId "pautaButtonSelecaoUnidade".
Definition tituloOrgao : string := has_text "h1.tituloSelecaoTribunal" "Órgão".
Definition selectTipo : Locator := Css (mat_select "selecaoTribunal").
Definition selectMunicipio : Locator := Css (mat_select "municipio").
Definition selectOrgao : Locator := Css (mat_select "orgao").
Definition orgaoHabilitado : string := mat_select "orgao" ++ "[aria-disabled=" ++ dquote ++ "false" ++ dquote ++ "]".
Definition tipoAlvo : string := "Audiências 1º grau".
Definition municipioAlvo : string := "São Paulo - Zonas Central, Norte e Oeste".
Definition opcoes : Locator := Css ".mat-mdc-select-panel mat-option".
Definition panel : Locator := Css ".mat-mdc-select-panel".
Definition confirmar : Locator := TestId "ButtonConfirmar".

(** The characters [escapeRegExp] escapes: [/[.*+?^${}()|[\]\\]/]. *)
Definition regex_special (c : ascii) : bool :=
  existsb (Ascii.eqb c) ["."; "*"; "+"; "?"; "^"; "$"; "{"; "}"; "("; ")"; "|"; "["; "]"; "\"]%char.

(** [function escapeRegExp(s)]: [s.replace(/[.*+?^${}()|[\]\\]/g, '\\$&')] *)
Fixpoint escapeRegExp (s : string) : string :=
  match s with
  | EmptyString => EmptyString
  | String c r => if regex_special c then String "\" (String c (escapeRegExp r))
                  else String c (escapeRegExp r)
  end.

Section Selector.
Context {W : Type} `{Page W}.

(** [async function abrirJTeSelecionarTRT2(page)] *)
Definition abrirJTeSelecionarTRT2 : ST exn W unit :=
  pg_goto "https://jte.csjt.jus.br/start" "networkidle" 60000 ;;
  pg_waitForLoadState "domcontentloaded" ;;
  pg_waitForTimeout 2500 ;;
  retryOperation (pg_waitFor trt2 Visible 20000 ;; pg_click trt2 forceOpts) 5 1200 ;;
  pg_waitForLoadState "networkidle" ;;
  pg_waitForTimeout 800.

(** [async function abrirModuloPauta(page)] *)
Definition abrirModuloPauta : ST exn W unit :=
  retryOperation (pg_waitFor card Visible 20000 ;; pg_click card forceOpts) 5 1200 ;;
  pg_waitForLoadState "networkidle" ;;
  pg_waitForTimeout 800.

(** The loop [for (let i = 0; i < total; i++)] of [listarVaras], with [k]
    iterations left: [if (label) varas.push(label.trim())]. *)
Fixpoint labels_loop (i k : nat) (varas : list string) : ST exn W (list string) :=
  match k with
  | O => st_ret varas
  | S k' =>
      label <- pg_textContent (Within (Nth opcoes i) ".mdc-list-item__primary-text") ;;
      labels_loop (S i) k'
        (match label with
         | Some l => if js_truthy l then varas ++ [js_trim l] else varas
         | None => varas
         end)
  end.

(** [async function listarVaras(page)] *)
Definition listarVaras : ST exn W (list string) :=
  pg_waitFor botaoUnidade Visible 20000 ;;
  pg_click botaoUnidade forceOpts ;;
  pg_waitForSelector tituloOrgao 20000 ;;
  pg_click selectTipo noOpts ;;
  pg_click (First (Css (has_text "mat-option" tipoAlvo))) noOpts ;;
  pg_waitForTimeout 200 ;;
  pg_click selectMunicipio noOpts ;;
  pg_click (Css (has_text ".mat-mdc-select-panel mat-option" municipioAlvo)) noOpts ;;
  pg_waitForTimeout 200 ;;
  pg_waitForSelector orgaoHabilitado 20000 ;;
  pg_click selectOrgao noOpts ;;
  total <- pg_count opcoes ;;
  varas <- labels_loop 0 total [] ;;
  st_default tt (pg_press "Escape") ;;
  st_default tt (pg_click (TestId "ButtonCancelar") noOpts) ;;
  st_ret varas.

(** [async function openMatSelect(page, selectLocator)] *)
Definition openMatSelect (selectLocator : Locator) : ST exn W Locator :=
  st_default tt (pg_scrollIntoView selectLocator) ;;
  pg_click selectLocator forceOpts ;;
  pg_waitFor panel Visible 20000 ;;
  st_ret panel.

(** The pattern of [clickMatOptionByText]: [opts?.exact === false ? text :
    new RegExp(`^\\s*${escapeRegExp(text)}\\s*$`, 'i')]; [exact] is
    [opts?.exact], [None] when undefined. *)
Definition option_pattern (text : string) (exact : option bool) : TextPattern :=
  match exact with
  | Some false => HasText text
  | _ => RegexCI ("^\s*" ++ escapeRegExp text ++ "\s*$")
  end.

Definition option_of (text : string) (exact : option bool) : Locator :=
  First (Filter (Within panel "mat-option") (option_pattern text exact)).

(** [async function clickMatOptionByText(page, text, opts)] *)
Definition clickMatOptionByText (text : string) (exact : option bool) : ST exn W unit :=
  pg_waitFor panel Visible 20000 ;;
  pg_waitFor (option_of text exact) Visible 20000 ;;
  st_default tt (pg_scrollIntoView (option_of text exact)) ;;
  pg_click (option_of text exact) forceOpts ;;
  st_default tt (pg_waitFor panel Hidden 20000).

(** [async function matSelectChoose(page, selectLocator, optionText, opts)] *)
Definition matSelectChoose (selectLocator : Locator) (optionText : string) (exact : option bool)
  : ST exn W unit :=
  _ <- openMatSelect selectLocator ;;
  clickMatOptionByText optionText exact ;;
  pg_waitForTimeout 150.

(** [async function waitMatSelectEnabled(page, selector)] *)
Definition waitMatSelectEnabled (selector : string) : ST exn W unit :=
  pg_waitForSelector selector 20000 ;;
  pg_elementHandle (Css selector) ;;
  pg_waitForFunction NotAriaDisabled (Css selector) 20000.

(** [selecionarUnidade], lines 1008-1024: the button, then the three
    selects in order. *)
Definition escolherUnidade (varaLabel : string) : ST exn W unit :=
  pg_waitFor botaoUnidade Visible 20000 ;;
  pg_click botaoUnidade forceOpts ;;
  pg_waitForSelector tituloOrgao 20000 ;;
  matSelectChoose selectTipo tipoAlvo (Some true) ;;
  matSelectChoose selectMunicipio municipioAlvo (Some true) ;;
  waitMatSelectEnabled (mat_select "orgao") ;;
  matSelectChoose selectOrgao varaLabel (Some true).

(** [selecionarUnidade], lines 1026-1036: the confirm button.  The
    handle is awaited before [waitForFunction] is called, so its failure
    is not caught by the [.catch]. *)
Definition confirmarUnidade : ST exn W unit :=
  pg_waitFor confirmar Visible 20000 ;;
  pg_elementHandle confirmar ;;
  st_default tt (pg_waitForFunction NotDisabled confirmar 20000) ;;
  st_default tt (pg_click confirmar (mkClickOpts false None (Some 80%Z))).

(** [async function selecionarUnidade(page, varaLabel)]; [tz] is the
    offset of the machine's time zone, for [getTodayBR()]. *)
Definition selecionarUnidade (tz : Z) (varaLabel : string) : ST exn W unit :=
  fecharOverlays ;;
  escolherUnidade varaLabel ;;
  confirmarUnidade ;;
  st_default tt (pg_waitForLoadState "networkidle") ;;
  pg_waitForTimeout 700 ;;
  now <- dateNow ;;
  _ <- selecionarDataComConfirmacao (getTodayBR (local_day tz now)) 1 ;;
  st_ret tt.

End Selector.

(** ** The option pattern reads back as the option's text *)

(** The ECMAScript syntax characters: outside a class they must be
    escaped to stand for themselves, and [\c] is an identity escape for
    them. *)
Definition syntax_char (c : ascii) : bool :=
  existsb (Ascii.eqb c) ["^"; "$"; "\"; "."; "*"; "+"; "?"; "("; ")"; "["; "]"; "{"; "}"; "|"]%char.

(** A regular-expression reader for a body of literal atoms closed by
    [\s*$]: [Some t] when the body matches exactly the text [t], [None]
    when it holds an operator, a class or a dangling backslash. *)
Fixpoint body_literal (s : string) : option string :=
  if String.eqb s "\s*$" then Some EmptyString else
  match s with
  | EmptyString => None
  | String c r =>
      if Ascii.eqb c "\" then
        match r with
        | String d r' => if syntax_char d then option_map (String d) (body_literal r') else None
        | EmptyString => None
        end
      else if syntax_char c then None
      else option_map (String c) (body_literal r)
  end.

(** The pattern [^\s*BODY\s*$]: the text BODY stands for, between
    optional spaces. *)
Definition anchored_literal (src : string) : option string :=
  match src with
  | String "^" (String "\" (String "s" (String "*" body))) => body_literal body
  | _ => None
  end.

Lemma regex_special_syntax c : regex_special c = syntax_char c.
Proof.
  unfold regex_special, syntax_char. apply Bool.eq_true_iff_eq. rewrite !existsb_exists.
  split; intros (x & Hx & Ex); exists x; (split; [|exact Ex]); cbn in Hx |- *; tauto.
Qed.

Lemma not_special_not_backslash c : regex_special c = false -> Ascii.eqb c "\" = false.
Proof.
  intros Hc. destruct (Ascii.eqb_spec c "\") as [->|]; [discriminate|reflexivity].
Qed.

Lemma body_literal_escape t :
  body_literal (escapeRegExp t ++ "\s*$") = Some t.
Proof.
  induction t as [|c t IH]; [reflexivity|]. cbn [escapeRegExp].
  destruct (regex_special c) eqn:Hc.
  - rewrite !string_app_cons. cbn [body_literal].
    replace (String.eqb _ _) with false
      by (symmetry; apply String.eqb_neq; intros [=]; subst c; discriminate).
    cbn [Ascii.eqb Bool.eqb]. rewrite <- regex_special_syntax, Hc, IH. reflexivity.
  - rewrite string_app_cons. cbn [body_literal].
    replace (String.eqb _ _) with false
      by (symmetry; apply String.eqb_neq; intros [=]; subst c; discriminate).
    rewrite not_special_not_backslash, <- regex_special_syntax, Hc, IH by exact Hc. reflexivity.
Qed.

(** C29: the pattern [clickMatOptionByText] matches an option with, when
    the match is exact (the default), is [^\s*BODY\s*$] where BODY, read
    as a regular expression, stands for exactly the option's text:
    [escapeRegExp] escapes every syntax character and nothing that would
    change the meaning. *)
Theorem option_pattern_literal text exact :
  exact <> Some false ->
  exists src, option_pattern text exact = RegexCI src /\ anchored_literal src = Some text.
Proof.
  intros Hx. exists ("^\s*" ++ escapeRegExp text ++ "\s*$"). split.
  - by destruct exact as [[]|].
  - apply body_literal_escape.
Qed.

(** ** The unit labels *)

Section Labels.
Context {W : Type} `{Page W}.

Lemma labels_loop_trimmed i k varas w vs w' :
  Forall (fun v => js_trim v = v) varas ->
  labels_loop i k varas w = (inr vs, w') -> Forall (fun v => js_trim v = v) vs.
Proof.
  revert i varas w. induction k as [|k IH]; intros i varas w Hv Hrun; cbn [labels_loop] in Hrun.
  - cbv [st_ret] in Hrun. by simplify_eq.
  - st_inv Hrun. apply IH in Hrun; [done|].
    destruct a as [l|]; [|done]. destruct (js_truthy l); [|done].
    apply Forall_app; split; [done|]. constructor; [apply js_trim_idem|constructor].
Qed.

(** every unit label [listarVaras] returns is trimmed: a label read
    with spaces around it is kept without them. *)
Theorem listarVaras_trimmed w vs w' :
  listarVaras w = (inr vs, w') -> Forall (fun v => js_trim v = v) vs.
Proof.
  unfold listarVaras. intros Hrun. repeat st_inv Hrun.
  cbv [st_ret] in Hrun. simplify_eq.
  match goal with E : labels_loop _ _ _ _ = _ |- _ => apply labels_loop_trimmed in E end; done.
Qed.

End Labels.

(** ** The confirm button *)

Definition confirm_click : Call := CClick confirmar (mkClickOpts false None (Some 80%Z)).

(** C17: when the confirm button never becomes enabled (the wait for
    [!disabled && aria-disabled !== 'true'] fails), [selecionarUnidade]
    clicks it all the same and goes on: the failure is swallowed by the
    [.catch], and so is a failure of the click. *)
Theorem confirmar_clicks_disabled o h e :
  o_unit o h (CWaitFor confirmar Visible 20000) = None ->
  o_unit o (h ++ [CWaitFor confirmar Visible 20000]) (CElementHandle confirmar) = None ->
  o_unit o (h ++ [CWaitFor confirmar Visible 20000; CElementHandle confirmar])
    (CWaitForFunction NotDisabled confirmar 20000) = Some e ->
  confirmarUnidade (mkRec o h) =
  (inr tt, mkRec o (h ++ [CWaitFor confirmar Visible 20000; CElementHandle confirmar;
                          CWaitForFunction NotDisabled confirmar 20000; confirm_click])).
Proof.
  intros H1 H2 H3. unfold confirmarUnidade, confirm_click. rec_unfold.
  cbn [r_log r_oracle]. rewrite H1. rewrite <- app_assoc. cbn [app]. rewrite H2.
  rewrite <- app_assoc. cbn [app]. rewrite H3. rewrite <- !app_assoc. cbn [app].
  repeat case_match; simplify_eq; by repeat match goal with u : unit |- _ => destruct u end.
Qed.

(** ** Witnesses *)

(** A page whose calls answer [fail c], whose lists have [n] entries,
    and whose every text is [label]. *)
Definition units_oracle (fail : Call -> option exn) (n : nat) (label : option string) : Oracle :=
  mkOracle (fun _ => 0%Z) (fun _ c => fail c) (fun _ _ => inr false) (fun _ _ => inr n)
           (fun _ _ => inr label) (fun _ _ _ => inr ""%string) (fun _ => inr emptyDom).

Definition vara_label : string := "  1ª Vara do Trabalho de São Paulo (Zona Leste)  ".

Lemma option_pattern_literal_witness :
  exists src, option_pattern "1ª Vara (Leste) - R$ 1.0?" (Some true) = RegexCI src /\
              anchored_literal src = Some "1ª Vara (Leste) - R$ 1.0?".
Proof. apply option_pattern_literal. discriminate. Defined.

Lemma listarVaras_trimmed_witness :
  Forall (fun v => js_trim v = v) ["1ª Vara do Trabalho de São Paulo (Zona Leste)"; "1ª Vara do Trabalho de São Paulo (Zona Leste)"].
Proof.
  apply (listarVaras_trimmed (mkRec (units_oracle (fun _ => None) 2 (Some vara_label)) [])
           _ (snd (listarVaras (mkRec (units_oracle (fun _ => None) 2 (Some vara_label)) [])))).
  vm_compute. reflexivity.
Defined.

Definition confirm_never_enabled : Oracle :=
  units_oracle (fun c => match c with
                         | CWaitForFunction _ _ _ => Some (TimeoutError "waitForFunction")
                         | _ => None
                         end) 0 None.

Lemma confirmar_clicks_disabled_witness :
  confirmarUnidade (mkRec confirm_never_enabled []) =
  (inr tt, mkRec confirm_never_enabled
             ([] ++ [CWaitFor confirmar Visible 20000; CElementHandle confirmar;
                     CWaitForFunction NotDisabled confirmar 20000; confirm_click])).
Proof.
  apply (confirmar_clicks_disabled confirm_never_enabled [] (TimeoutError "waitForFunction"));
    reflexivity.
Defined.
