(* ===== verification/Config.v ===== *)
(** Config: the environment and the optional MySQL pool of variant B
    (src/PAUTA-JRT2.js lines 624-706: [getEnv], [isTrue], [openDb],
    [ensureSchema], [initDbIfEnabled]).

    [process.env] is a [gmap] from names to strings.  The pool is the
    configuration [openDb] passes to [mysql.createPool] (creating it does
    not connect); the server is reached through the [Pool] class:
    [pool.query(sql)] and [pool.end()].

    Theorems: [initDbIfEnabled] never throws ([initDbIfEnabled_total]):
    the store is either present for the whole run or absent; it returns
    a pool exactly when [DB_ENABLED] is true and both the probe and the
    schema statement succeed ([initDbIfEnabled_some]). *)

From Stdlib Require Import ZArith Lia Ascii String.
From stdpp Require Import base list gmap strings.
From S2P Require Import Prelude JsString Session.

Local Open Scope string_scope.

(** [process.env] *)
Definition Env := gmap string string.

(** [function getEnv(name, fallback = undefined)]: an unset or empty
    variable gives the fallback ([None] is [undefined]). *)
Definition getEnv (env : Env) (name : string) (fallback : option string) : option string :=
  match env !! name with
  | Some v => if String.eqb v "" then fallback else Some v
  | None => fallback
  end.

(** [String(v ?? '')] for a variable's value. *)
Definition js_str (v : option string) : string := match v with Some s => s | None => "" end.

(** [function isTrue(v)] *)
Definition isTrue (v : option string) : bool :=
  String.eqb (js_toLowerCase (js_trim (js_str v))) "true" || String.eqb (js_trim (js_str v)) "1".

(** The options [openDb] passes to [mysql.createPool]: the connection
    fields; the pool's fixed options are not modelled. *)
Record PoolConfig : Type := mkPoolConfig {
  pc_host : option string;
  pc_port : option Z;                  (* Number(...); None is NaN *)
  pc_user : option string;
  pc_password : option string;
  pc_database : option string
}.

(** [Number(v)] of a variable's value. *)
Definition js_Number_opt (v : option string) : option Z :=
  match v with Some s => js_Number s | None => None end.

(** [async function openDb()] *)
Definition openDb (env : Env) : PoolConfig :=
  mkPoolConfig (getEnv env "DB_HOST" (Some "127.0.0.1"))
               (js_Number_opt (getEnv env "DB_PORT" (Some "3306")))
               (getEnv env "DB_USER" (Some "root"))
               (getEnv env "DB_PASS" (Some ""))
               (getEnv env "DB_NAME" (Some "jte")).

(** The MySQL server behind a pool. *)
Class Pool (D : Type) := {
  pool_query : PoolConfig -> string -> ST exn D unit;   (* pool.query(sql) *)
  pool_end : PoolConfig -> ST exn D unit                (* pool.end() *)
}.

Definition schema_sql : string :=
"
CREATE TABLE IF NOT EXISTS pauta_processos (
  id BIGINT UNSIGNED NOT NULL AUTO_INCREMENT,
  geradoEm DATETIME(3) NOT NULL,
  vara VARCHAR(255) NOT NULL,
  dataBR VARCHAR(10) NOT NULL,
  dataISO DATE NOT NULL,
  numeroProcesso VARCHAR(64) NOT NULL,
  sessao VARCHAR(255) NULL,
  juiz VARCHAR(255) NULL,
  reclamante VARCHAR(255) NULL,
  reclamada VARCHAR(255) NULL,
  createdAt TIMESTAMP NOT NULL DEFAULT CURRENT_TIMESTAMP,
  PRIMARY KEY (id),
  UNIQUE KEY uq_pauta (vara, dataISO, numeroProcesso),
  KEY ix_data (dataISO),
  KEY ix_vara (vara)
) ENGINE=InnoDB DEFAULT CHARSET=utf8mb4;
".

Section Init.
Context {D : Type} `{Pool D}.

(** [async function ensureSchema(pool)] *)
Definition ensureSchema (pool : PoolConfig) : ST exn D unit := pool_query pool schema_sql.

(** [async function initDbIfEnabled()]: [openDb] cannot fail, so [pool] is
    set when the [catch] runs and [pool.end()] is always attempted there. *)
Definition initDbIfEnabled (env : Env) : ST exn D (option PoolConfig) :=
  if negb (isTrue (getEnv env "DB_ENABLED" (Some "false"))) then st_ret None
  else
    let pool := openDb env in
    st_catch (pool_query pool "SELECT 1" ;; ensureSchema pool ;; st_ret (Some pool))
             (fun _ => st_default tt (pool_end pool) ;; st_ret None).

End Init.

Section InitProps.
Context {D : Type} `{Pool D}.

(** C25: [initDbIfEnabled] never throws: an unreachable server, a refused
    login or a failed schema statement all give [null], so the run goes
    on without the store. *)
Theorem initDbIfEnabled_total env w : exists p w', initDbIfEnabled env w = (inr p, w').
Proof.
  unfold initDbIfEnabled. destruct (isTrue _); cbn [negb]; [|eauto].
  set (c := pool_query _ _ ;; _). destruct (c w) as [[e|p] w1] eqn:Ec.
  - rewrite (st_catch_inl _ _ _ _ _ Ec). destruct (st_default_inr tt (pool_end (openDb env)) w1) as (u & w2 & E).
    rewrite (st_bind_inr _ _ _ _ _ E). eauto.
  - rewrite (st_catch_inr _ _ _ _ _ Ec). eauto.
Qed.

(** C40: [initDbIfEnabled] returns a pool exactly when [DB_ENABLED] is
    true, the probe [SELECT 1] succeeds and then the schema statement
    succeeds; the pool is the configuration [openDb] reads. *)
Theorem initDbIfEnabled_some env w p w' :
  initDbIfEnabled env w = (inr (Some p), w') <->
  isTrue (getEnv env "DB_ENABLED" (Some "false")) = true /\ p = openDb env /\
  exists w1, pool_query p "SELECT 1" w = (inr tt, w1) /\ ensureSchema p w1 = (inr tt, w').
Proof.
  unfold initDbIfEnabled. destruct (isTrue _); cbn [negb]; [|cbv [st_ret]; split; [congruence | by intros []]].
  split.
  - unfold st_catch. destruct (pool_query (openDb env) "SELECT 1" w) as [[e|[]] w1] eqn:E1.
    + rewrite (st_bind_inl _ _ _ _ _ E1). intros E. destruct (st_default_inr tt (pool_end (openDb env)) w1) as (u & w2 & E2).
      rewrite (st_bind_inr _ _ _ _ _ E2) in E. discriminate.
    + rewrite (st_bind_inr _ _ _ _ _ E1). destruct (ensureSchema (openDb env) w1) as [[e|[]] w2] eqn:E2.
      * rewrite (st_bind_inl _ _ _ _ _ E2). intros E. destruct (st_default_inr tt (pool_end (openDb env)) w2) as (u & w3 & E3).
        rewrite (st_bind_inr _ _ _ _ _ E3) in E. discriminate.
      * rewrite (st_bind_inr _ _ _ _ _ E2). cbv [st_ret]. intros [= <- <-]. eauto 10.
  - intros (_ & -> & w1 & E1 & E2). apply st_catch_inr.
    rewrite (st_bind_inr _ _ _ _ _ E1), (st_bind_inr _ _ _ _ _ E2). reflexivity.
Qed.

(** With [DB_ENABLED] not true the server is not contacted. *)
Lemma initDbIfEnabled_disabled env w :
  isTrue (getEnv env "DB_ENABLED" (Some "false")) = false -> initDbIfEnabled env w = (inr None, w).
Proof. intros E. unfold initDbIfEnabled. by rewrite E. Qed.

End InitProps.
