(* ===== verification/Mail.v ===== *)
(** Mail: the notifier of variant B (src/PAUTA-JRT2.js lines 803-847:
    [parseMailTo], [sendEmailWithAttachment]).

    The SMTP transport is the [Mailer] class: [transporter.sendMail]
    with the transport options [nodemailer.createTransport] receives
    (creating a transport does not connect).  [path.basename] is Node's
    library function, a section variable.

    Theorems: [parseMailTo] returns non-empty, trimmed addresses with no
    separator in them ([parseMailTo_clean]) and reads back a list of
    such addresses joined with [;] ([parseMailTo_join]); an incomplete
    configuration throws before the transport is used
    ([sendEmail_incomplete]); a complete one sends exactly one message, to
    the parsed recipients, with the attachment ([sendEmail_complete]). *)

From Stdlib Require Import ZArith Lia Ascii String.
From stdpp Require Import base list gmap strings.
From S2P Require Import Prelude JsString Session Config.

Local Open Scope string_scope.

(** The separators of [/[;,]/g]. *)
Definition mail_sep (c : ascii) : bool := Ascii.eqb c ";" || Ascii.eqb c ",".

(** [function parseMailTo(value)] *)
Definition parseMailTo (value : option string) : list string :=
  match value with
  | Some v => if js_truthy v then List.filter js_truthy (List.map js_trim (js_split_by mail_sep v))
              else []
  | None => []
  end.

(** The options of [nodemailer.createTransport]. *)
Record Transport : Type := mkTransport {
  tr_host : string; tr_port : option Z; tr_secure : bool; tr_user : string; tr_pass : string
}.

(** The message of [transporter.sendMail], with its one attachment. *)
Record Mail : Type := mkMail {
  m_from : string; m_to : list string; m_subject : string; m_text : string;
  m_filename : string; m_path : string
}.

(** The SMTP server: [sendMail] answers the message id, or throws. *)
Class Mailer (M : Type) := { sendMail : Transport -> Mail -> ST exn M string }.

(** The truthiness of a variable's value ([undefined] is falsy). *)
Definition opt_truthy (v : option string) : bool :=
  match v with Some s => js_truthy s | None => false end.

Definition smtp_incompleta : exn :=
  OtherError "Config SMTP incompleta. Verifique SMTP_HOST/SMTP_USER/SMTP_PASS/MAIL_FROM/MAIL_TO no env.".

Section Send.
Context {M : Type} `{Mailer M}.
Variable basename : string -> string.    (* path.basename *)

(** [async function sendEmailWithAttachment({ subject, text, attachmentPath })] *)
Definition sendEmailWithAttachment (env : Env) (subject text attachmentPath : string) : ST exn M string :=
  let host := getEnv env "SMTP_HOST" None in
  let port := js_Number_opt (getEnv env "SMTP_PORT" (Some "587")) in
  let secure := String.eqb (js_toLowerCase (js_str (getEnv env "SMTP_SECURE" (Some "false")))) "true" in
  let user := getEnv env "SMTP_USER" None in
  let pass := getEnv env "SMTP_PASS" None in
  let from := getEnv env "MAIL_FROM" user in
  let to := parseMailTo (getEnv env "MAIL_TO" (Some "")) in
  if negb (opt_truthy host) || negb (opt_truthy user) || negb (opt_truthy pass) ||
     negb (opt_truthy from) || Nat.eqb (List.length to) 0
  then st_throw smtp_incompleta
  else sendMail (mkTransport (js_str host) port secure (js_str user) (js_str pass))
                (mkMail (js_str from) to subject text (basename attachmentPath) attachmentPath).

End Send.

(** ** The recipients *)

Definition clean_address (a : string) : Prop :=
  js_truthy a = true /\ js_trim a = a /\ str_forall (fun c => negb (mail_sep c)) a = true.

Lemma js_split_by_pieces p s : Forall (fun a => str_forall (fun c => negb (p c)) a = true) (js_split_by p s).
Proof.
  induction s as [|c s IH]; cbn [js_split_by]; [by repeat constructor|].
  destruct (p c) eqn:Hc; [by constructor|].
  destruct (js_split_by p s) as [|x xs]; [by repeat constructor; cbn; rewrite Hc|].
  inversion IH; subst. constructor; [cbn; by rewrite Hc|done].
Qed.

Lemma js_split_by_join p sep l :
  p sep = true -> l <> [] -> Forall (fun a => str_forall (fun c => negb (p c)) a = true) l ->
  js_split_by p (js_join (String sep EmptyString) l) = l.
Proof.
  intros Hs. induction l as [|a [|b l] IH]; intros Hl Hall; [done| |];
    inversion Hall as [|? ? Ha Hrest]; subst.
  - by apply js_split_by_none.
  - rewrite js_join_cons2, string_app_cons, string_app_nil, js_split_by_app by done.
    by rewrite IH.
Qed.

(** every address [parseMailTo] returns is non-empty, has no space at
    either end and holds no [;] or [,]. *)
Theorem parseMailTo_clean v : Forall clean_address (parseMailTo v).
Proof.
  destruct v as [s|]; cbn [parseMailTo]; [|constructor]. destruct (js_truthy s); [|constructor].
  apply List.Forall_forall. intros a (Ha & Ht)%List.filter_In.
  apply List.in_map_iff in Ha as (x & <- & Hx).
  pose proof (js_split_by_pieces mail_sep s) as Hp. rewrite List.Forall_forall in Hp.
  split; [exact Ht|]. split; [apply js_trim_idem|]. by apply str_forall_trim, Hp.
Qed.

(** C30: a list of such addresses, joined with [;], is read back by
    [parseMailTo] as the same list, in order. *)
Theorem parseMailTo_join addrs :
  Forall clean_address addrs -> parseMailTo (Some (js_join ";" addrs)) = addrs.
Proof.
  intros Hall. destruct addrs as [|a l]; [reflexivity|]. cbn [parseMailTo].
  assert (Ht : js_truthy (js_join ";" (a :: l)) = true).
  { inversion Hall as [|? ? (Ha & _) _]; subst. destruct l; [done|].
    rewrite js_join_cons2. by destruct a. }
  rewrite Ht, (js_split_by_join mail_sep ";"%char) by
    (done || (eapply Forall_impl; [exact Hall|]; by intros x (_ & _ & ?))).
  rewrite List.Forall_forall in Hall.
  rewrite (List.map_ext_in _ id), List.map_id.
  - apply List.forallb_filter_id, List.forallb_forall. intros x Hx. by destruct (Hall x Hx).
  - intros x Hx. by destruct (Hall x Hx) as (_ & ? & _).
Qed.

(** ** Sending *)

Lemma getEnv_truthy env n v : getEnv env n None = Some v -> js_truthy v = true.
Proof.
  unfold getEnv. destruct (env !! n) as [s|]; [|done].
  destruct (String.eqb_spec s ""); intros; simplify_eq; by destruct v.
Qed.

Section SendProps.
Context {M : Type} `{Mailer M}.
Variable basename : string -> string.

(** C35: with [SMTP_HOST], [SMTP_USER] or [SMTP_PASS] unset or empty, or
    no recipient in [MAIL_TO], [sendEmailWithAttachment] throws the
    configuration error and sends nothing. *)
Theorem sendEmail_incomplete env subject text path w :
  getEnv env "SMTP_HOST" None = None \/ getEnv env "SMTP_USER" None = None \/
  getEnv env "SMTP_PASS" None = None \/ parseMailTo (getEnv env "MAIL_TO" (Some "")) = [] ->
  sendEmailWithAttachment basename env subject text path w = (inl smtp_incompleta, w).
Proof.
  intros Hc. unfold sendEmailWithAttachment.
  destruct Hc as [-> | [-> | [-> | ->]]]; cbn [opt_truthy negb orb];
    rewrite ?orb_true_r; reflexivity.
Qed.

(** with host, user, password and at least one recipient set,
    [sendEmailWithAttachment] sends exactly one message, from [MAIL_FROM]
    or else the user, to the parsed recipients, with the file attached
    under its base name; its answer is the server's. *)
Theorem sendEmail_complete env subject text path h u p w :
  getEnv env "SMTP_HOST" None = Some h -> getEnv env "SMTP_USER" None = Some u ->
  getEnv env "SMTP_PASS" None = Some p -> parseMailTo (getEnv env "MAIL_TO" (Some "")) <> [] ->
  sendEmailWithAttachment basename env subject text path w =
  sendMail (mkTransport h (js_Number_opt (getEnv env "SMTP_PORT" (Some "587")))
                        (String.eqb (js_toLowerCase (js_str (getEnv env "SMTP_SECURE" (Some "false")))) "true")
                        u p)
           (mkMail (match getEnv env "MAIL_FROM" (Some u) with Some f => f | None => u end)
                   (parseMailTo (getEnv env "MAIL_TO" (Some ""))) subject text (basename path) path) w.
Proof.
  intros Hh Hu Hp Hto. unfold sendEmailWithAttachment. rewrite Hh, Hu, Hp.
  cbn [opt_truthy js_str]. rewrite (getEnv_truthy _ _ _ Hh), (getEnv_truthy _ _ _ Hu), (getEnv_truthy _ _ _ Hp).
  assert (Hf : opt_truthy (getEnv env "MAIL_FROM" (Some u)) = true /\
               js_str (getEnv env "MAIL_FROM" (Some u)) =
               match getEnv env "MAIL_FROM" (Some u) with Some f => f | None => u end).
  { unfold getEnv. destruct (env !! "MAIL_FROM") as [f|]; [destruct (String.eqb_spec f "")|];
      cbn; try (split; [by apply (getEnv_truthy env "SMTP_USER")|done]). subst. by destruct f. }
  destruct Hf as [-> ->]. destruct (parseMailTo _) eqn:E; [done|]. reflexivity.
Qed.

End SendProps.

(** ** A server that accepts every message *)

(** The messages sent so far; the id is the message's position. *)
Definition Outbox := list (Transport * Mail).

#[export] Instance OutboxMailer : Mailer Outbox :=
  { sendMail tr m ob := (inr (js_String (Z.of_nat (List.length ob))), app ob [(tr, m)]) }.

(** ** Witnesses *)

Definition smtp_env : Env :=
  <["SMTP_HOST" := "smtp.office365.com"]> (<["SMTP_USER" := "robo@dominio.com"]>
  (<["SMTP_PASS" := "senha"]> (<["MAIL_TO" := " a@dominio.com ; ,b@dominio.com,"]> ∅))).

Lemma parseMailTo_join_witness :
  parseMailTo (Some (js_join ";" ["a@dominio.com"; "b@dominio.com"])) = ["a@dominio.com"; "b@dominio.com"].
Proof. apply parseMailTo_join. repeat constructor. Defined.

Lemma sendEmail_incomplete_witness :
  sendEmailWithAttachment (M:=Outbox) id (delete "SMTP_PASS" smtp_env) "Pauta" "Segue" "out/p.xlsx" [] =
  (inl smtp_incompleta, []).
Proof. apply sendEmail_incomplete. right; right; left. reflexivity. Defined.

Lemma sendEmail_complete_witness :
  sendEmailWithAttachment (M:=Outbox) id smtp_env "Pauta" "Segue" "out/p.xlsx" [] =
  sendMail (mkTransport "smtp.office365.com" (Some 587%Z) false "robo@dominio.com" "senha")
           (mkMail "robo@dominio.com" ["a@dominio.com"; "b@dominio.com"] "Pauta" "Segue"
                   "out/p.xlsx" "out/p.xlsx") [].
Proof.
  refine (sendEmail_complete id smtp_env "Pauta" "Segue" "out/p.xlsx" "smtp.office365.com"
            "robo@dominio.com" "senha" [] _ _ _ _); (reflexivity || discriminate).
Defined.
