(* ===== verification/Main.v ===== *)
(** Main: the run of variant B, [main()] (src/PAUTA-JRT2.js lines
    1262-1367), composing every component.

    The state of a run ([Run]) is the browser page, the MySQL server, the
    SMTP server and the output directory ([Disk]); each component's
    computation is lifted to the run by [on_page], [on_db], [on_mail] and
    [on_disk].  The loops over units and dates thread the rows of
    [rowsCsv]; a cell whose date is not reached is skipped ([continue]).
    Node's [path.join], [path.basename], [process.cwd()], the [Date]
    formatting of [toISOString]/[toLocaleString], the browser launch and
    the XLSX writer's layout are section variables: libraries the code
    only calls.

    Theorems: a failure in the loop reaches the [catch] with nothing
    written and no mail sent, whatever was extracted before
    ([coleta_falha_descarta]); when the loop completes, the CSV holds
    every collected row and is written before the workbook and the mail
    ([entregar_escreve]); the rows upserted in MySQL are exactly the rows
    of the CSV ([varas_loop_store]); a browser launch failure escapes
    [main] without the pool being closed ([main_launch_failure]); after a
    successful launch [main] never throws ([main_total]). *)

From Stdlib Require Import ZArith Lia Ascii String.
From stdpp Require Import base list gmap strings.
From S2P Require Import Prelude JsString Dates Session Overlay Stepper Stabilize Extract Csv Store Selector Config Mail.

Local Open Scope string_scope.

(** ** The state of a run *)

(** The output directory: the directories made, the files written. *)
Record Disk : Type := mkDisk {
  d_dirs : list string;
  d_csv : list CsvFile;
  d_xlsx : list (string * list string * list Row)   (* path, headers, rows *)
}.

Record Run (W D M : Type) : Type := mkRun { run_page : W; run_db : D; run_mail : M; run_disk : Disk }.
Arguments mkRun {W D M}.
Arguments run_page {W D M}.
Arguments run_db {W D M}.
Arguments run_mail {W D M}.
Arguments run_disk {W D M}.

(** Run a component's computation on its part of the state. *)
Definition lift {S T A} (get : S -> T) (put : S -> T -> S) (c : ST exn T A) : ST exn S A :=
  fun s => let '(r, t') := c (get s) in (r, put s t').

Section Lifts.
Context {W D M : Type}.
Definition on_page {A} := @lift (Run W D M) W A run_page (fun r w => mkRun w (run_db r) (run_mail r) (run_disk r)).
Definition on_db {A} := @lift (Run W D M) D A run_db (fun r d => mkRun (run_page r) d (run_mail r) (run_disk r)).
Definition on_mail {A} := @lift (Run W D M) M A run_mail (fun r m => mkRun (run_page r) (run_db r) m (run_disk r)).
Definition on_disk {A} := @lift (Run W D M) Disk A run_disk (fun r k => mkRun (run_page r) (run_db r) (run_mail r) k).
End Lifts.

(** [if (!fs.existsSync(outDir)) fs.mkdirSync(outDir, { recursive: true })] *)
Definition mkdir_if_missing (dir : string) : ST exn Disk unit :=
  fun k => (inr tt, if bool_decide (dir ∈ d_dirs k) then k else mkDisk (app (d_dirs k) [dir]) (d_csv k) (d_xlsx k)).

(** [fs.writeFileSync] of the CSV. *)
Definition write_csv (f : CsvFile) : ST exn Disk unit :=
  fun k => (inr tt, mkDisk (d_dirs k) (app (d_csv k) [f]) (d_xlsx k)).

(** [await writeXlsx(filePath, headers, rows)] (lines 765-797): the
    workbook's layout is the library's. *)
Definition writeXlsx (filePath : string) (headers : list string) (rows : list Row) : ST exn Disk unit :=
  fun k => (inr tt, mkDisk (d_dirs k) (d_csv k) (app (d_xlsx k) [(filePath, headers, rows)])).

(** ** The rows *)

(** The object [rowsCsv.push] and [rowsChunk] build for a process. *)
Record Linha : Type := mkLinha { l_geradoEm : string; l_vara : string; l_data : string; l_proc : Processo }.

Definition headers : list string :=
  ["geradoEm"; "vara"; "data"; "numeroProcesso"; "sessao"; "juiz"; "reclamante"; "reclamada"].

(** The row object, read by column name. *)
Definition linha_row (l : Linha) : Row :=
  list_to_map [("geradoEm", l_geradoEm l); ("vara", l_vara l); ("data", l_data l);
               ("numeroProcesso", numeroProcesso (l_proc l)); ("sessao", sessao (l_proc l));
               ("juiz", juiz (l_proc l)); ("reclamante", reclamante (l_proc l));
               ("reclamada", reclamada (l_proc l))].

(** The same object as [insertRowsMySql] reads it. *)
Definition linha_registro (l : Linha) : Registro :=
  mkRegistro (l_geradoEm l) (l_vara l) (l_data l) (numeroProcesso (l_proc l))
             (Some (sessao (l_proc l))) (Some (juiz (l_proc l))) (Some (reclamante (l_proc l)))
             (Some (reclamada (l_proc l))).

Definition newline : string := String Csv.nl EmptyString.

(** The body of the mail. *)
Definition mail_text (total : nat) (geradoEm : string) : string :=
  "Olá!" ++ newline ++ newline ++
  "Segue em anexo o arquivo XLSX com a extração da pauta do TRT2 para os próximos ~2 meses." ++
  newline ++ newline ++
  "Total de linhas: " ++ js_String (Z.of_nat total) ++ newline ++
  "Gerado em: " ++ geradoEm ++ newline ++ newline ++
  "Atenciosamente," ++ newline ++ "Robô JTe".

(** [if (pool && ...)]: a pool object is truthy. *)
Definition pool_truthy (pool : option PoolConfig) : bool := match pool with Some _ => true | None => false end.

Section Main.
Context {W D M : Type} `{Page W} `{Db D} `{Pool D} `{Mailer M}.
Variable env : Env.                          (* process.env *)
Variable tz : Z.                             (* the machine's time zone offset *)
Variable cwd : string.                       (* process.cwd() *)
Variable path_join : string -> string -> string.
Variable basename : string -> string.
Variable toISOString : Z -> string.
Variable toLocaleString : Z -> string.
Variable launch : ST exn W unit.             (* chromium.launch(...) and browser.newPage() *)

(** One cell (unit, date): the body of [for (const dataBR of datas)]. *)
Definition celula (pool : option PoolConfig) (geradoEm vara dataBR : string) : ST exn (Run W D M) (list Linha) :=
  ok <- on_page (selecionarDataComConfirmacao dataBR 2) ;;
  if negb ok then st_ret []
  else
    on_page esperarPautaEstabilizar ;;
    processos <- on_page extrairProcessosDaPauta ;;
    let linhas := List.map (mkLinha geradoEm vara dataBR) processos in
    (if pool_truthy pool && negb (Nat.eqb (List.length processos) 0)
     then _ <- on_db (insertRowsMySql (Some tt) (List.map linha_registro linhas) 800) ;; st_ret tt
     else st_ret tt) ;;
    st_ret linhas.

Fixpoint datas_loop (pool : option PoolConfig) (geradoEm vara : string) (datas : list string)
    (rows : list Linha) : ST exn (Run W D M) (list Linha) :=
  match datas with
  | [] => st_ret rows
  | dataBR :: rest =>
      novas <- celula pool geradoEm vara dataBR ;;
      datas_loop pool geradoEm vara rest (app rows novas)
  end.

(** [for (const vara of varasAlvo)] *)
Fixpoint varas_loop (pool : option PoolConfig) (geradoEm : string) (varas datas : list string)
    (rows : list Linha) : ST exn (Run W D M) (list Linha) :=
  match varas with
  | [] => st_ret rows
  | vara :: rest =>
      on_page (selecionarUnidade tz vara) ;;
      rows' <- datas_loop pool geradoEm vara datas rows ;;
      varas_loop pool geradoEm rest datas rows'
  end.

(** Lines 1334-1360: the two files, then the mail. *)
Definition entregar (geradoEm : string) (rows : list Linha) : ST exn (Run W D M) unit :=
  let outDir := path_join cwd "output" in
  on_disk (mkdir_if_missing outDir) ;;
  stamp <- on_page dateNow ;;
  let csvPath := path_join outDir ("pauta_trt2_2meses_" ++ js_String stamp ++ ".csv") in
  let xlsxPath := path_join outDir ("pauta_trt2_2meses_" ++ js_String stamp ++ ".xlsx") in
  on_disk (write_csv (writeCsv csvPath headers (List.map linha_row rows))) ;;
  on_disk (writeXlsx xlsxPath headers (List.map linha_row rows)) ;;
  now <- on_page dateNow ;;
  let subject := "Pauta TRT2 (2 meses) - " ++ toLocaleString now in
  _ <- on_mail (sendEmailWithAttachment basename env subject
                  (mail_text (List.length rows) geradoEm) xlsxPath) ;;
  st_ret tt.

(** Lines 1284-1360 after [listarVaras]: collect, then deliver. *)
Definition coletar_entregar (pool : option PoolConfig) (geradoEm : string) (varas datas : list string)
  : ST exn (Run W D M) unit :=
  rows <- varas_loop pool geradoEm varas datas [] ;;
  entregar geradoEm rows.

(** The [try] block, lines 1273-1360. *)
Definition corpo (pool : option PoolConfig) (geradoEm : string) : ST exn (Run W D M) unit :=
  on_page abrirJTeSelecionarTRT2 ;;
  on_page abrirModuloPauta ;;
  varas <- on_page listarVaras ;;
  hoje <- on_page dateNow ;;
  coletar_entregar pool geradoEm varas (gerarDatasProximosDoisMeses (local_day tz hoje)).

(** [async function main()]: [try]/[catch]/[finally]; the browser is
    launched before the [try]. *)
Definition main : ST exn (Run W D M) unit :=
  pool <- on_db (initDbIfEnabled env) ;;
  on_page launch ;;
  agora <- on_page dateNow ;;
  st_catch (corpo pool (toISOString agora)) (fun _ => st_ret tt) ;;
  match pool with
  | Some p => st_default tt (on_db (pool_end p))
  | None => st_ret tt
  end.

End Main.

(** ** The loops write nothing *)

Section Frame.
Context {W D M : Type} `{Page W} `{Db D} `{Pool D} `{Mailer M}.
Variable tz : Z.

Lemma lift_run {S T A} (get : S -> T) (put : S -> T -> S) (c : ST exn T A) s :
  lift get put c s = (fst (c (get s)), put s (snd (c (get s)))).
Proof. unfold lift. by destruct (c (get s)). Qed.

(** The disk and the mailbox of a run. *)
Definition outputs_kept (r r' : Run W D M) : Prop := run_disk r' = run_disk r /\ run_mail r' = run_mail r.

#[export] Instance outputs_kept_preorder : PreOrder outputs_kept.
Proof. split; [intros ?; done | intros ??? [] []; split; congruence]. Qed.

Lemma on_page_kept {A} (c : ST exn W A) : st_rel outputs_kept (on_page c).
Proof. intros r. unfold on_page. rewrite lift_run. done. Qed.

Lemma on_db_kept {A} (c : ST exn D A) : st_rel outputs_kept (on_db c).
Proof. intros r. unfold on_db. rewrite lift_run. done. Qed.

#[local] Hint Resolve on_page_kept on_db_kept : core.

Lemma celula_kept pool g v d : st_rel outputs_kept (celula pool g v d).
Proof. unfold celula. st_rel_solve; auto. Qed.

Lemma datas_loop_kept pool g v ds rows : st_rel outputs_kept (datas_loop pool g v ds rows).
Proof.
  revert rows. induction ds as [|d ds IH]; intros rows; cbn [datas_loop]; st_rel_solve; auto.
  apply celula_kept.
Qed.

Lemma varas_loop_kept pool g vs ds rows : st_rel outputs_kept (varas_loop tz pool g vs ds rows).
Proof.
  revert rows. induction vs as [|v vs IH]; intros rows; cbn [varas_loop]; st_rel_solve; auto.
  apply datas_loop_kept.
Qed.

End Frame.

Section Failure.
Context {W D M : Type} `{Page W} `{Db D} `{Pool D} `{Mailer M}.
Variables (env : Env) (tz : Z) (cwd : string) (path_join : string -> string -> string)
          (basename : string -> string) (toLocaleString : Z -> string).

(** C6: when a unit or a cell fails for good (a unit whose option is
    missing, a store that stops answering), the exception leaves the
    loop with no file written and no mail sent: the rows already
    extracted for the earlier units and dates are discarded, although
    the design says partial output is still written. *)
Theorem coleta_falha_descarta pool g varas datas (r : Run W D M) e r1 :
  varas_loop tz pool g varas datas [] r = (inl e, r1) ->
  coletar_entregar env tz cwd path_join basename toLocaleString pool g varas datas r = (inl e, r1) /\
  run_disk r1 = run_disk r /\ run_mail r1 = run_mail r.
Proof.
  intros E. split; [by apply st_bind_inl|].
  pose proof (varas_loop_kept tz pool g varas datas [] r) as K. by rewrite E in K.
Qed.

End Failure.

(** ** The store receives the rows of the CSV *)

#[export] Instance TablePool : Pool Table := { pool_query _ _ := st_ret tt; pool_end _ := st_ret tt }.

(** The table after upserting [ls] through the pool, if there is one. *)
Definition db_after (pool : option PoolConfig) (t : Table) (ls : list Linha) : Table :=
  match pool with Some _ => upsert_rows t (List.map linha_registro ls) | None => t end.

Lemma db_after_app pool t a b : db_after pool (db_after pool t a) b = db_after pool t (app a b).
Proof. destruct pool; [|done]. cbn. unfold upsert_rows. by rewrite List.map_app, fold_left_app. Qed.

Lemma db_after_nil pool t : db_after pool t [] = t.
Proof. by destruct pool. Qed.

Section Store.
Context {W M : Type} `{Page W} `{Mailer M}.
Variable tz : Z.

Lemma on_page_db {A} (c : ST exn W A) (r : Run W Table M) x r' :
  on_page c r = (x, r') -> run_db r' = run_db r.
Proof. unfold on_page. rewrite lift_run. by intros [= _ <-]. Qed.

Lemma on_db_insert (r : Run W Table M) rows x r' :
  on_db (insertRowsMySql (Some tt) rows 800) r = (x, r') -> run_db r' = upsert_rows (run_db r) rows.
Proof.
  unfold on_db. rewrite lift_run. destruct (insertRowsMySql_upsert_rows rows 800 (run_db r)) as [n ->]; [lia|].
  by intros [= _ <-].
Qed.

Lemma celula_store pool g v d (r : Run W Table M) ls r1 :
  celula pool g v d r = (inr ls, r1) -> run_db r1 = db_after pool (run_db r) ls.
Proof.
  unfold celula. intros Hrun. st_inv Hrun. apply on_page_db in E as <-.
  destruct a; cbn [negb] in Hrun; [|cbv [st_ret] in Hrun; simplify_eq; by rewrite db_after_nil].
  st_inv Hrun. apply on_page_db in E as <-. st_inv Hrun. apply on_page_db in E as <-.
  st_inv Hrun. cbv [st_ret] in Hrun. simplify_eq.
  destruct (pool_truthy pool && _) eqn:Ep.
  - st_inv E. cbv [st_ret] in E. simplify_eq. apply on_db_insert in E0 as ->.
    destruct pool; [|discriminate]. cbn. by rewrite List.map_map.
  - cbv [st_ret] in E. simplify_eq. destruct pool; [|done].
    destruct a0; [done|discriminate].
Qed.

Lemma datas_loop_store pool g v ds rows (r : Run W Table M) rows' r1 :
  datas_loop pool g v ds rows r = (inr rows', r1) ->
  exists novas, rows' = app rows novas /\ run_db r1 = db_after pool (run_db r) novas.
Proof.
  revert rows r. induction ds as [|d ds IH]; intros rows r Hrun; cbn [datas_loop] in Hrun.
  - cbv [st_ret] in Hrun. simplify_eq. exists []. by rewrite app_nil_r, db_after_nil.
  - st_inv Hrun. apply celula_store in E. apply IH in Hrun as (novas & -> & ->).
    exists (app a novas). by rewrite E, db_after_app, app_assoc.
Qed.

(** C7: when every unit and date has been processed, the rows upserted
    in MySQL are exactly the rows the CSV will hold, in the same order;
    with no pool nothing reaches the store. *)
Theorem varas_loop_store pool g vs ds rows (r : Run W Table M) rows' r1 :
  varas_loop tz pool g vs ds rows r = (inr rows', r1) ->
  exists novas, rows' = app rows novas /\ run_db r1 = db_after pool (run_db r) novas.
Proof.
  revert rows r. induction vs as [|v vs IH]; intros rows r Hrun; cbn [varas_loop] in Hrun.
  - cbv [st_ret] in Hrun. simplify_eq. exists []. by rewrite app_nil_r, db_after_nil.
  - st_inv Hrun. apply on_page_db in E. st_inv Hrun.
    apply datas_loop_store in E0 as (n1 & -> & E1). apply IH in Hrun as (n2 & -> & E2).
    exists (app n1 n2). by rewrite E2, E1, E, db_after_app, app_assoc.
Qed.

End Store.

(** ** Delivery *)

Section Delivery.
Context {W D M : Type} `{Page W} `{Db D} `{Pool D} `{Mailer M}.
Variables (env : Env) (tz : Z) (cwd : string) (path_join : string -> string -> string)
          (basename : string -> string) (toLocaleString : Z -> string).

(** C23: when every unit and date has been processed, the run writes one
    CSV and one workbook, each with every collected row, before the mail
    is attempted; a failing mail does not undo them. *)
Theorem entregar_escreve pool g varas datas (r : Run W D M) rows r1 :
  varas_loop tz pool g varas datas [] r = (inr rows, r1) ->
  exists csvPath xlsxPath,
    d_csv (run_disk (snd (coletar_entregar env tz cwd path_join basename toLocaleString pool g varas datas r))) =
      app (d_csv (run_disk r)) [writeCsv csvPath headers (List.map linha_row rows)] /\
    d_xlsx (run_disk (snd (coletar_entregar env tz cwd path_join basename toLocaleString pool g varas datas r))) =
      app (d_xlsx (run_disk r)) [(xlsxPath, headers, List.map linha_row rows)].
Proof.
  intros E. pose proof (varas_loop_kept tz pool g varas datas [] r) as [Kd _]. rewrite E in Kd. cbn [snd] in Kd.
  unfold coletar_entregar. rewrite (st_bind_inr _ _ _ _ _ E).
  unfold entregar, on_disk, on_page, on_mail. cbv [st_bind lift mkdir_if_missing write_csv writeXlsx dateNow].
  cbn [run_page run_db run_mail run_disk d_csv d_xlsx d_dirs].
  eexists _, _. destruct (sendEmailWithAttachment _ _ _ _ _ _) as [[e|m] w']; cbn; rewrite Kd;
    case_bool_decide; split; reflexivity.
Qed.

End Delivery.

(** ** The [try]/[catch]/[finally] of [main] *)

Section Top.
Context {W D M : Type} `{Page W} `{Db D} `{Pool D} `{Mailer M}.
Variables (env : Env) (tz : Z) (cwd : string) (path_join : string -> string -> string)
          (basename : string -> string) (toISOString toLocaleString : Z -> string)
          (launch : ST exn W unit).

Lemma st_catch_swallow {S} (c : ST exn S unit) s : fst (st_catch c (fun _ => st_ret tt) s) = inr tt.
Proof. unfold st_catch. destruct (c s) as [[e|[]] s']; reflexivity. Qed.

(** C24: a browser that fails to launch makes [main] reject with that
    error, after the pool was opened and without closing it: the launch
    is outside the [try] whose [finally] ends the pool. *)
Theorem main_launch_failure (r : Run W D M) p r0 e w1 :
  on_db (initDbIfEnabled env) r = (inr (Some p), r0) ->
  launch (run_page r0) = (inl e, w1) ->
  main env tz cwd path_join basename toISOString toLocaleString launch r =
  (inl e, mkRun w1 (run_db r0) (run_mail r0) (run_disk r0)).
Proof.
  intros E0 E1. unfold main. rewrite (st_bind_inr _ _ _ _ _ E0). apply st_bind_inl.
  unfold on_page. rewrite lift_run, E1. reflexivity.
Qed.

(** C20: once the browser is up, [main] never throws: every failure of the
    run is caught, and closing the pool is itself guarded. *)
Theorem main_total (r : Run W D M) :
  (forall w, fst (launch w) = inr tt) ->
  fst (main env tz cwd path_join basename toISOString toLocaleString launch r) = inr tt.
Proof.
  intros Hl. unfold main.
  destruct (initDbIfEnabled_total env (run_db r)) as (pool & d1 & Ei).
  assert (E0 : on_db (initDbIfEnabled env) r = (inr pool, mkRun (run_page r) d1 (run_mail r) (run_disk r))).
  { unfold on_db. by rewrite lift_run, Ei. }
  rewrite (st_bind_inr _ _ _ _ _ E0). set (s1 := mkRun (run_page r) d1 (run_mail r) (run_disk r)).
  specialize (Hl (run_page s1)). destruct (launch (run_page s1)) as [[e|[]] w2] eqn:El; [discriminate|].
  rewrite (st_bind_inr (on_page launch) _ s1 tt (mkRun w2 d1 (run_mail r) (run_disk r)))
    by (unfold on_page; by rewrite lift_run, El).
  rewrite (st_bind_inr (on_page dateNow) _ _ (pg_now w2) (mkRun w2 d1 (run_mail r) (run_disk r)))
    by reflexivity.
  set (s2 := mkRun w2 d1 (run_mail r) (run_disk r)).
  pose proof (st_catch_swallow (corpo env tz cwd path_join basename toLocaleString pool
                                  (toISOString (pg_now w2))) s2) as Hc.
  destruct (st_catch _ _ s2) as [[e|[]] s'] eqn:Ec; cbn [fst] in Hc; [discriminate|].
  rewrite (st_bind_inr _ _ _ _ _ Ec).
  destruct pool as [p|]; [|reflexivity].
  destruct (st_default_inr tt (on_db (pool_end p)) s') as ([] & s'' & ->). reflexivity.
Qed.

End Top.

(** ** Witnesses: a run over two units and one date *)

(** The date button reads the target date (and today's, for the reset
    [selecionarUnidade] attempts); the list has one process. *)
Definition host_data : IonHost :=
  mkIonHost (mkElem "qui., 05/03/2026 - 01/01/1970" "qui., 05/03/2026 - 01/01/1970") None None.

Definition pauta_dom : Dom := mkDom (fun _ => Some host_data) (fun _ => Some host_data) None [one_row].

(** Every call succeeds but [bad]; the clock advances one second a call. *)
Definition pauta_oracle (bad : Call) : Oracle :=
  mkOracle (fun h => 1000 * Z.of_nat (List.length h))%Z
           (fun _ c => if bool_decide (c = bad) then Some (TimeoutError "mat-option") else None)
           (fun _ _ => inr false) (fun _ _ => inr 1%nat) (fun _ _ => inr (Some "1ª Vara"))
           (fun _ _ _ => inr "05/03/2026") (fun _ => inr pauta_dom).

(** The second unit has no option in the panel. *)
Definition falta_vara2 : Call := CWaitFor (option_of "2ª Vara" (Some true)) Visible 20000.

Definition run0 (bad : Call) : Run Rec Table Outbox :=
  mkRun (mkRec (pauta_oracle bad) []) empty_table [] (mkDisk [] [] []).

Definition env_db : Env := <["DB_ENABLED" := "true"]> ∅.
Definition pool0 : option PoolConfig := Some (openDb env_db).
Definition geradoEm0 : string := "2026-03-05T12:00:00.000Z".
Definition join_path (a b : string) : string := a ++ "/" ++ b.
Definition locale0 (_ : Z) : string := "05/03/2026, 09:00:00".

Lemma coleta_falha_descarta_witness :
  let r1 := snd (varas_loop 0 pool0 geradoEm0 ["1ª Vara"; "2ª Vara"] ["05/03/2026"] [] (run0 falta_vara2)) in
  (coletar_entregar ∅ 0 "C:/robo" join_path id locale0 pool0 geradoEm0 ["1ª Vara"; "2ª Vara"]
     ["05/03/2026"] (run0 falta_vara2) = (inl (TimeoutError "mat-option"), r1) /\
   run_disk r1 = run_disk (run0 falta_vara2) /\ run_mail r1 = run_mail (run0 falta_vara2)) /\
  map_size (t_rows (run_db r1)) = 1%nat.
Proof.
  intros r1. split; [|vm_compute; reflexivity].
  apply coleta_falha_descarta. vm_compute. reflexivity.
Defined.

(** A call the run never makes: everything succeeds. *)
Definition nada : Call := CPress "F5".

Lemma varas_loop_store_witness :
  let res := varas_loop 0 pool0 geradoEm0 ["1ª Vara"; "2ª Vara"] ["05/03/2026"] [] (run0 nada) in
  exists novas, (match fst res with inr rows => rows | inl _ => [] end) = app [] novas /\
                run_db (snd res) = db_after pool0 (run_db (run0 nada)) novas.
Proof.
  intros res. apply (varas_loop_store 0 pool0 geradoEm0 ["1ª Vara"; "2ª Vara"] ["05/03/2026"] []
                       (run0 nada) _ (snd res)).
  vm_compute. reflexivity.
Defined.

Lemma entregar_escreve_witness :
  let res := varas_loop 0 pool0 geradoEm0 ["1ª Vara"] ["05/03/2026"] [] (run0 nada) in
  let rows := match fst res with inr rows => rows | inl _ => [] end in
  let r2 := snd (coletar_entregar ∅ 0 "C:/robo" join_path id locale0 pool0 geradoEm0 ["1ª Vara"]
                   ["05/03/2026"] (run0 nada)) in
  exists csvPath xlsxPath,
    d_csv (run_disk r2) = app [] [writeCsv csvPath headers (List.map linha_row rows)] /\
    d_xlsx (run_disk r2) = app [] [(xlsxPath, headers, List.map linha_row rows)].
Proof.
  intros res rows r2. apply (entregar_escreve ∅ 0 "C:/robo" join_path id locale0 pool0 geradoEm0
                               ["1ª Vara"] ["05/03/2026"] (run0 nada) rows (snd res)).
  vm_compute. reflexivity.
Defined.

Definition launch_fails : ST exn Rec unit := st_throw (OtherError "browserType.launch: Executable doesn't exist").

Lemma main_launch_failure_witness :
  main env_db 0 "C:/robo" join_path id (fun _ => geradoEm0) locale0 launch_fails (run0 nada) =
  (inl (OtherError "browserType.launch: Executable doesn't exist"),
   mkRun (run_page (run0 nada)) (run_db (run0 nada)) (run_mail (run0 nada)) (run_disk (run0 nada))).
Proof.
  apply (main_launch_failure env_db 0 "C:/robo" join_path id (fun _ => geradoEm0) locale0 launch_fails
           (run0 nada) (openDb env_db) (run0 nada)); reflexivity.
Defined.

Lemma main_total_witness :
  fst (main env_db 0 "C:/robo" join_path id (fun _ => geradoEm0) locale0 (st_ret tt) (run0 nada)) = inr tt.
Proof. apply main_total. intros w. reflexivity. Defined.
