(* ===== verification/VariantA.v ===== *)
(** VariantA: the unit selection and the run of variant A
    (src/PAUTA-JRT2.js lines 184-222, [selecionarUnidade], here
    [selecionarUnidadeA]; lines 457-519, [main], here [mainA]).

    Variant A's navigation ([abrirJTeSelecionarTRT2], [abrirModuloPauta],
    lines 107-136) and [listarVaras] (lines 141-178) are the same code as
    variant B's and are modelled once, in [Selector]; so are its overlay
    guard, stabilizer and extractor.  Its unit selection picks the option
    by substring ([filter({ hasText: varaLabel })]) and clicks the confirm
    button without waiting for it to be enabled; its dates are chosen
    through the calendar ([Calendar]); its run has no store and no mail
    and writes one CSV file.

    Theorem: the run writes the CSV with every collected row when the
    loop completes, and nothing at all when the loop throws
    ([coletar_entregarA_all_or_nothing]). *)

From Stdlib Require Import ZArith Lia Ascii String.
From stdpp Require Import base list gmap strings.
From S2P Require Import Prelude JsString Dates Session Overlay Stabilize Extract Csv Selector Calendar Main.

Local Open Scope string_scope.

Section VariantA.
Context {W D M : Type} `{Page W}.
Variable tz : Z.                             (* the machine's time zone offset *)
Variable cwd : string.                       (* process.cwd() *)
Variable path_join : string -> string -> string.
Variable toISOString : Z -> string.
Variable launch : ST exn W unit.             (* chromium.launch(...) and browser.newPage() *)

(** [async function selecionarUnidade(page, varaLabel)] of variant A. *)
Definition selecionarUnidadeA (varaLabel : string) : ST exn W unit :=
  fecharOverlays ;;
  pg_click botaoUnidade forceOpts ;;
  pg_waitForSelector tituloOrgao 20000 ;;
  pg_click selectTipo noOpts ;;
  pg_click (First (Css (has_text "mat-option" tipoAlvo))) noOpts ;;
  pg_waitForTimeout 200 ;;
  pg_click selectMunicipio noOpts ;;
  pg_click (Css (has_text ".mat-mdc-select-panel mat-option" municipioAlvo)) noOpts ;;
  pg_waitForTimeout 200 ;;
  pg_waitForSelector orgaoHabilitado 20000 ;;
  pg_click selectOrgao noOpts ;;
  pg_click (First (Filter opcoes (HasText varaLabel))) forceOpts ;;
  st_default tt (pg_click confirmar (mkClickOpts false None (Some 80%Z))) ;;
  pg_waitForLoadState "networkidle" ;;
  pg_waitForTimeout 700 ;;
  now <- dateNow ;;
  _ <- selecionarDataComConfirmacaoA (getTodayBR (local_day tz now)) 3 ;;
  st_ret tt.

(** One cell of variant A: lines 478-503. *)
Definition celulaA (geradoEm vara dataBR : string) : ST exn (Run W D M) (list Linha) :=
  ok <- on_page (selecionarDataComConfirmacaoA dataBR 3) ;;
  if negb ok then st_ret []
  else
    on_page esperarPautaEstabilizar ;;
    processos <- on_page extrairProcessosDaPauta ;;
    st_ret (List.map (mkLinha geradoEm vara dataBR) processos).

Fixpoint datas_loopA (geradoEm vara : string) (datas : list string) (rows : list Linha)
  : ST exn (Run W D M) (list Linha) :=
  match datas with
  | [] => st_ret rows
  | dataBR :: rest =>
      novas <- celulaA geradoEm vara dataBR ;;
      datas_loopA geradoEm vara rest (app rows novas)
  end.

(** [for (const vara of varasAlvo)] of variant A. *)
Fixpoint varas_loopA (geradoEm : string) (varas datas : list string) (rows : list Linha)
  : ST exn (Run W D M) (list Linha) :=
  match varas with
  | [] => st_ret rows
  | vara :: rest =>
      on_page (selecionarUnidadeA vara) ;;
      rows' <- datas_loopA geradoEm vara datas rows ;;
      varas_loopA geradoEm rest datas rows'
  end.

(** Lines 507-511: the CSV file. *)
Definition entregarA (rows : list Linha) : ST exn (Run W D M) unit :=
  let outDir := path_join cwd "output" in
  on_disk (mkdir_if_missing outDir) ;;
  stamp <- on_page dateNow ;;
  let filePath := path_join outDir ("pauta_trt2_2meses_" ++ js_String stamp ++ ".csv") in
  on_disk (write_csv (writeCsv filePath headers (List.map linha_row rows))).

Definition coletar_entregarA (geradoEm : string) (varas datas : list string) : ST exn (Run W D M) unit :=
  rows <- varas_loopA geradoEm varas datas [] ;;
  entregarA rows.

(** The [try] block of variant A, lines 465-513. *)
Definition corpoA (geradoEm : string) : ST exn (Run W D M) unit :=
  on_page abrirJTeSelecionarTRT2 ;;
  on_page abrirModuloPauta ;;
  varas <- on_page listarVaras ;;
  hoje <- on_page dateNow ;;
  coletar_entregarA geradoEm varas (gerarDatasProximosDoisMeses (local_day tz hoje)).

(** [async function main()] of variant A: the [finally] is empty. *)
Definition mainA : ST exn (Run W D M) unit :=
  on_page launch ;;
  agora <- on_page dateNow ;;
  st_catch (corpoA (toISOString agora)) (fun _ => st_ret tt).

End VariantA.

(** ** All or nothing *)

Section AllOrNothing.
Context {W D M : Type} `{Page W}.
Variables (tz : Z) (cwd : string) (path_join : string -> string -> string).

Lemma celulaA_kept g v d : st_rel outputs_kept (celulaA (D:=D) (M:=M) g v d).
Proof. unfold celulaA. st_rel_solve; apply on_page_kept. Qed.

Lemma datas_loopA_kept g v ds rows : st_rel outputs_kept (datas_loopA (D:=D) (M:=M) g v ds rows).
Proof.
  revert rows. induction ds as [|d ds IH]; intros rows; cbn [datas_loopA]; st_rel_solve;
    [apply celulaA_kept | apply IH].
Qed.

Lemma varas_loopA_kept g vs ds rows : st_rel outputs_kept (varas_loopA (D:=D) (M:=M) tz g vs ds rows).
Proof.
  revert rows. induction vs as [|v vs IH]; intros rows; cbn [varas_loopA]; st_rel_solve;
    [apply on_page_kept | apply datas_loopA_kept | apply IH].
Qed.

(** C16: variant A's run either writes one CSV holding every collected
    row, when the loop over units and dates completes, or, when the loop
    throws (a unit or a date button that cannot be found), reaches the
    [catch] having written nothing: the rows extracted so far are lost. *)
Theorem coletar_entregarA_all_or_nothing g varas datas (r : Run W D M) :
  match varas_loopA tz g varas datas [] r with
  | (inl e, r1) =>
      coletar_entregarA tz cwd path_join g varas datas r = (inl e, r1) /\ run_disk r1 = run_disk r
  | (inr rows, r1) =>
      fst (coletar_entregarA tz cwd path_join g varas datas r) = inr tt /\
      exists path, d_csv (run_disk (snd (coletar_entregarA tz cwd path_join g varas datas r))) =
                   app (d_csv (run_disk r)) [writeCsv path headers (List.map linha_row rows)]
  end.
Proof.
  pose proof (varas_loopA_kept g varas datas [] r) as [Kd _].
  unfold coletar_entregarA. destruct (varas_loopA tz g varas datas [] r) as [[e|rows] r1] eqn:E;
    cbn [snd] in Kd.
  - split; [by apply st_bind_inl | done].
  - rewrite (st_bind_inr _ _ _ _ _ E). unfold entregarA, on_disk, on_page.
    cbv [st_bind lift mkdir_if_missing write_csv dateNow]. cbn. split; [done|].
    eexists. rewrite Kd. case_bool_decide; reflexivity.
Qed.

End AllOrNothing.
